(** * ChainBench: statistics engine, verdict rule, impact projection,
      report aggregation, dataset integrity, runner and profiler

    A shallow embedding of the Python sources

    - [report-builder/build_report.py]  ([BuildReport])
    - [tools/convert_to_report.py]      ([ConvertToReport])
    - [data/generate_data.py]           ([GenerateData])
    - [runner/run_all.py]               ([RunAll])
    - [runner/profiler.py]              ([Profiler])

    Numbers.  Durations and statistics are Python floats.  They are
    embedded as exact canonical rationals [Qc]: finite values, no
    rounding, no overflow, no NaN, no signed zero.  This is also what
    Python's [statistics] module computes with internally (it sums exact
    fractions), with two exceptions that the properties below take into
    account: the median of an even number of values adds the two middle
    values in binary64, which overflows when both are [2^1023] or more
    in magnitude, and the averages of the profiler divide a binary64
    sum, which rounds.  The impact formula, which is pure arithmetic, is
    written once over a small interface of number operations and
    instantiated at [Qc], at IEEE-754 binary64 as the standard library
    specifies it, and at Rocq's primitive floats. *)

From Stdlib Require Import ZArith QArith Qcanon Qround Lia Lqa Ascii.
From Stdlib Require Import Floats.PrimFloat Floats.SpecFloat Floats.FloatOps.
From stdpp Require Import gmap strings list sorting numbers.

Local Open Scope Z_scope.

(** ** Python runtime pieces *)

Module Py.

(** The exceptions the modelled code can raise. *)
Inductive exn :=
| StatisticsError
| IndexError
| KeyError (key : string)
| ValueError
| TypeError
| JSONDecodeError.

(** A computation returns a value or raises. *)
Inductive result (A : Type) :=
| Ok (a : A)
| Raise (e : exn).
Global Arguments Ok {A} a.
Global Arguments Raise {A} e.

Global Instance result_ret : MRet result := @Ok.
Global Instance result_bind : MBind result := fun A B f m =>
  match m with
  | Ok a => f a
  | Raise e => Raise e
  end.

Definition returns {A} (m : result A) : Prop := exists a, m = Ok a.

(** [l[i]] for a Python int [i]: negative indices count from the end,
    anything outside raises [IndexError]. *)
Definition getitem {A} (l : list A) (i : Z) : result A :=
  let n := Z.of_nat (length l) in
  let j := if i <? 0 then i + n else i in
  if j <? 0 then Raise IndexError
  else match l !! Z.to_nat j with
       | Some x => Ok x
       | None => Raise IndexError
       end.

(** [int(x)]: truncation toward zero. *)
Definition int (x : Qc) : Z := Z.quot (Qnum x) (Z.pos (Qden x)).

(** [sorted(l)] on numbers.  [<=] on [Qc] is a total order, so every
    sorting algorithm returns the same list; stdpp's merge sort is used. *)
Definition sorted (l : list Qc) : list Qc := merge_sort Qcle l.

(** Decimal literal [n/d]. *)
Definition dec (n : Z) (d : positive) : Qc := Q2Qc (n # d).

(** Values produced by [json.load]. *)
#[warnings="-register-all"] Inductive json :=
| JNull
| JBool (b : bool)
| JInt (z : Z)
| JFloat (q : Qc)
| JStr (s : string)
| JArr (l : list json)
| JObj (kvs : list (string * json)).

(** Truth value of a JSON value, as [or] and [not] test it. *)
Definition truthy (v : json) : bool :=
  match v with
  | JNull => false
  | JBool b => b
  | JInt z => negb (z =? 0)
  | JFloat q => negb (bool_decide (q = Q2Qc 0))
  | JStr s => negb (bool_decide (s = ""%string))
  | JArr l => match l with [] => false | _ => true end
  | JObj kvs => match kvs with [] => false | _ => true end
  end.

(** [a or b]. *)
Definition or_else (a b : json) : json := if truthy a then a else b.

(** [d.get(k, default)] on a dict. *)
Definition dict_get (d : gmap string json) (k : string) (dflt : json) : json :=
  default dflt (d !! k).

(** [v[k]] on a parsed JSON object. *)
Fixpoint assoc (k : string) (kvs : list (string * json)) : option json :=
  match kvs with
  | [] => None
  | (k', v) :: rest => if bool_decide (k' = k) then Some v else assoc k rest
  end.

Definition subscript (v : json) (k : string) : result json :=
  match v with
  | JObj kvs => match assoc k kvs with
                | Some x => Ok x
                | None => Raise (KeyError k)
                end
  | _ => Raise TypeError
  end.

(** A JSON value used as a number: ints, floats, and bools (which are
    ints in Python). *)
Definition as_number (v : json) : option Qc :=
  match v with
  | JInt z => Some (Qc_of_Z z)
  | JFloat q => Some q
  | JBool b => Some (if b then Q2Qc 1 else Q2Qc 0)
  | _ => None
  end.

(** *** Text and dicts

    A string is a sequence of characters with code points below 256. *)

(** [c.isspace()] for a character below 256: the ASCII white space, the
    four separators FS, GS, RS and US, NEL and the no-break space. *)
Definition isspace (c : ascii) : bool :=
  let n := nat_of_ascii c in
  ((9 <=? n) && (n <=? 13) || (28 <=? n) && (n <=? 32)
   || (n =? 133) || (n =? 160))%nat.

(** [s.lstrip()], [s.rstrip()] and [s.strip()]. *)
Fixpoint lstrip (s : string) : string :=
  match s with
  | String c rest => if isspace c then lstrip rest else s
  | EmptyString => EmptyString
  end.

Fixpoint rstrip (s : string) : string :=
  match s with
  | String c rest =>
    match rstrip rest with
    | EmptyString => if isspace c then EmptyString else String c EmptyString
    | rest' => String c rest'
    end
  | EmptyString => EmptyString
  end.

Definition strip (s : string) : string := lstrip (rstrip s).

(** [s.split(sep)] for a separator of one character: the pieces between
    the occurrences of [sep], empty pieces included. *)
Fixpoint split (sep : ascii) (s : string) : list string :=
  match s with
  | EmptyString => [EmptyString]
  | String c rest =>
    if bool_decide (c = sep) then EmptyString :: split sep rest
    else match split sep rest with
         | piece :: pieces => String c piece :: pieces
         | [] => [String c EmptyString]
         end
  end.

(** What reading in text mode does to line ends: [\r\n] and a lone [\r]
    become [\n]. *)
Fixpoint universal_newlines (s : string) : string :=
  match s with
  | String "013" (String "010" rest) => String "010" (universal_newlines rest)
  | String "013" rest => String "010" (universal_newlines rest)
  | String c rest => String c (universal_newlines rest)
  | EmptyString => EmptyString
  end.

(** [d[k] = v] on a dict kept in insertion order: an existing key keeps
    its place. *)
Fixpoint dict_set {V} (d : list (string * V)) (k : string) (v : V)
  : list (string * V) :=
  match d with
  | [] => [(k, v)]
  | (k', v') :: rest =>
    if bool_decide (k' = k) then (k, v) :: rest
    else (k', v') :: dict_set rest k v
  end.

(** [d[k]] on such a dict. *)
Fixpoint dict_getitem {V} (d : list (string * V)) (k : string) : result V :=
  match d with
  | [] => Raise (KeyError k)
  | (k', v) :: rest => if bool_decide (k' = k) then Ok v else dict_getitem rest k
  end.

End Py.
Import Py.

(** ** Built-in functions on numbers and lists *)

Module builtins.

(** [max(a, b)] and [min(a, b)] on two numbers: the first argument
    unless the second is strictly larger, respectively smaller. *)
Definition max (a b : Qc) : Qc := if bool_decide (a < b)%Qc then b else a.
Definition min (a b : Qc) : Qc := if bool_decide (b < a)%Qc then b else a.

(** [sum(l)]: the elements added to 0 from the left. *)
Definition sum (l : list Qc) : Qc := foldl Qcplus (Q2Qc 0) l.

(** [max(l)] on the non-empty list [x :: rest]. *)
Definition max_of (x : Qc) (rest : list Qc) : Qc := foldl max x rest.

(** [l[::step]] for a positive step: every [step]-th element, from the
    first; [skip] elements are passed over before the next one taken. *)
Fixpoint every {A} (step skip : nat) (l : list A) : list A :=
  match l with
  | [] => []
  | x :: rest =>
    match skip with
    | O => x :: every step (step - 1) rest
    | S skip => every step skip rest
    end
  end.

(** [l[::step]]: from the first element forwards for a positive step,
    from the last backwards for a negative one; [None] for the zero
    step, where Python raises [ValueError]. *)
Definition slice_step {A} (l : list A) (step : Z) : option (list A) :=
  if step =? 0 then None
  else if 0 <? step then Some (every (Z.to_nat step) 0 l)
  else Some (every (Z.to_nat (- step)) 0 (reverse l)).

(** [l[:stop]]: the first [stop] elements, or all but the last [-stop]
    for a negative [stop]. *)
Definition slice_stop {A} (l : list A) (stop : Z) : list A :=
  if stop <? 0 then take (Z.to_nat (Z.of_nat (length l) + stop)) l
  else take (Z.to_nat stop) l.

(** [max(l)]: [ValueError] on the empty list. *)
Definition max_list (l : list Qc) : result Qc :=
  match l with
  | [] => Raise ValueError
  | x :: rest => Ok (max_of x rest)
  end.
End builtins.

(** ** Python's [statistics] module

    Library code, not part of the repository; modelled on exact
    rationals after its documented behaviour.  The square root has no
    rational value in general and is a parameter. *)

Module statistics.
Section WithSqrt.
Variable sqrt : Qc -> Qc.

Definition sum (data : list Qc) : Qc := foldr Qcplus (Q2Qc 0) data.

(** [statistics.median]: sorts its argument, then takes the middle
    value, or the average of the two middle values.  The average is
    exact here; in binary64 the sum of the two values is rounded, and is
    infinite when both are [2^1023] or more in magnitude. *)
Definition median (data : list Qc) : result Qc :=
  let data := sorted data in
  let n := Z.of_nat (length data) in
  if n =? 0 then Raise StatisticsError
  else if n mod 2 =? 1 then getitem data (n / 2)
  else
    let i := n / 2 in
    x ← getitem data (i - 1);
    y ← getitem data i;
    Ok ((x + y) / Qc_of_Z 2)%Qc.

(** [statistics.mean]: exact sum divided by the count. *)
Definition mean (data : list Qc) : result Qc :=
  let n := Z.of_nat (length data) in
  if n <? 1 then Raise StatisticsError
  else Ok (sum data / Qc_of_Z n)%Qc.

(** [statistics.variance]: sum of squared deviations from the mean
    over [n - 1]. *)
Definition variance (data : list Qc) : result Qc :=
  let n := Z.of_nat (length data) in
  if n <? 2 then Raise StatisticsError
  else
    c ← mean data;
    let ss := sum (map (fun x => (x - c) * (x - c))%Qc data) in
    Ok (ss / Qc_of_Z (n - 1))%Qc.

(** [statistics.stdev]. *)
Definition stdev (data : list Qc) : result Qc :=
  var ← variance data;
  Ok (sqrt var).
End WithSqrt.
End statistics.

(** ** Statistics records and verdicts *)

(** The dict returned by [calculate_stats]. *)
Record stats := Stats {
  median : Qc;
  mean : Qc;
  std : Qc;
  cv_pct : Qc;
  p10 : Qc;
  p90 : Qc
}.

(** ['conclusive'] / ['inconclusive']. *)
Inductive verdict := conclusive | inconclusive.

Definition verdict_str (v : verdict) : string :=
  match v with
  | conclusive => "conclusive"
  | inconclusive => "inconclusive"
  end.

(** ** Number operations used by the impact formula *)

(** [of_int] is an int operand converted to the number type, [of_dec n d]
    the number that the decimal literal [n/d] denotes. *)
Class Number (num : Type) := {
  of_int : Z -> num;
  of_dec : Z -> positive -> num;
  num_mul : num -> num -> num;
  num_div : num -> num -> num;
  num_eqb : num -> num -> bool
}.

Declare Scope num_scope.
Delimit Scope num_scope with num.
Infix "*" := num_mul : num_scope.
Infix "/" := num_div : num_scope.
Infix "==" := num_eqb (at level 70, no associativity) : num_scope.

(** Exact rationals. *)
Global Instance Qc_number : Number Qc := {
  of_int := Qc_of_Z;
  of_dec := dec;
  num_mul := Qcmult;
  num_div := Qcdiv;
  num_eqb := fun x y => bool_decide (x = y)
}.

(** IEEE-754 binary64, the representation of a Python float, as the
    standard library specifies it: a sign, a mantissa and an exponent,
    every operation rounded to nearest, ties to even.  An int operand is
    rounded the same way, which is what [float * int] does; a decimal
    literal denotes the float nearest to it, which is the correctly
    rounded quotient of its numerator and denominator. *)
Module Binary64.
Definition t : Type := spec_float.
Definition of_Z (z : Z) : t := binary_normalize prec emax z 0 false.
(** [m * 2^e]. *)
Definition scaled (m e : Z) : t := binary_normalize prec emax m e false.
Definition mul (x y : t) : t := SFmul prec emax x y.
Definition div (x y : t) : t := SFdiv prec emax x y.
Definition literal (n : Z) (d : positive) : t := div (of_Z n) (of_Z (Z.pos d)).
(** The floats 1.0 and 2.0. *)
Definition one : t := S754_finite false 4503599627370496 (-52).
Definition two : t := S754_finite false 4503599627370496 (-51).
(** Python's [==] on floats. *)
Definition eqb (x y : t) : bool := SFeqb x y.
(** [int(x)]: truncation toward zero; [None] where Python raises, on an
    infinity or a NaN. *)
Definition to_int (x : t) : option Z :=
  match x with
  | S754_zero _ => Some 0
  | S754_finite s m e =>
    let a := if 0 <=? e then Z.pos m * 2 ^ e else Z.pos m / 2 ^ (- e) in
    Some (if s then - a else a)
  | S754_infinity _ | S754_nan => None
  end.
End Binary64.

Global Instance binary64_number : Number Binary64.t := {
  of_int := Binary64.of_Z;
  of_dec := Binary64.literal;
  num_mul := Binary64.mul;
  num_div := Binary64.div;
  num_eqb := Binary64.eqb
}.

(** Rocq's primitive floats: binary64 as the processor computes it. *)
Global Instance hardware_number : Number PrimFloat.float := {
  of_int := fun z => SF2Prim (Binary64.of_Z z);
  of_dec := fun n d =>
    PrimFloat.div (SF2Prim (Binary64.of_Z n)) (SF2Prim (Binary64.of_Z (Z.pos d)));
  num_mul := PrimFloat.mul;
  num_div := PrimFloat.div;
  num_eqb := PrimFloat.eqb
}.

(** The [inputs] dict of the impact projection. *)
Record impact_inputs (num : Type) := ImpactInputs {
  executions_per_day : Z;
  days_per_year : Z;
  cost_model : string;
  cost_per_hour_eur : num;
  electricity_kwh_per_hour : num;
  co2_kg_per_kwh : num
}.
Global Arguments ImpactInputs {num}.
Global Arguments executions_per_day {num}.
Global Arguments days_per_year {num}.
Global Arguments cost_model {num}.
Global Arguments cost_per_hour_eur {num}.
Global Arguments electricity_kwh_per_hour {num}.
Global Arguments co2_kg_per_kwh {num}.

(** The [outputs] dict of the impact projection. *)
Record impact_outputs (num : Type) := ImpactOutputs {
  time_saved_hours_per_year : num;
  cost_saved_eur_per_year : num;
  electricity_saved_kwh_per_year : num;
  co2_avoided_kg_per_year : num
}.
Global Arguments ImpactOutputs {num}.
Global Arguments time_saved_hours_per_year {num}.
Global Arguments cost_saved_eur_per_year {num}.
Global Arguments electricity_saved_kwh_per_year {num}.
Global Arguments co2_avoided_kg_per_year {num}.

(** ** report-builder/build_report.py *)

Module BuildReport.

Definition zero_stats : stats :=
  {| median := Q2Qc 0; mean := Q2Qc 0; std := Q2Qc 0;
     cv_pct := Q2Qc 0; p10 := Q2Qc 0; p90 := Q2Qc 0 |}.

(** [p10_idx = int(n * 0.1)] and [p90_idx = int(n * 0.9)]. *)
Definition p10_idx (n : Z) : Z := int (Qc_of_Z n * dec 1 10)%Qc.
Definition p90_idx (n : Z) : Z := int (Qc_of_Z n * dec 9 10)%Qc.

(** The same two indices computed in binary64, as the interpreter does:
    the count converted to a float, multiplied by the float that the
    literal denotes, and truncated. *)
Definition p10_idx_binary64 (n : Z) : option Z :=
  Binary64.to_int (Binary64.mul (Binary64.of_Z n) (Binary64.literal 1 10)).
Definition p90_idx_binary64 (n : Z) : option Z :=
  Binary64.to_int (Binary64.mul (Binary64.of_Z n) (Binary64.literal 9 10)).

Section WithSqrt.
Variable sqrt : Qc -> Qc.

Definition calculate_stats (samples : list Qc) : result stats :=
  match samples with
  | [] => Ok zero_stats
  | _ =>
    let sorted_samples := sorted samples in
    let n := Z.of_nat (length sorted_samples) in
    median ← statistics.median sorted_samples;
    mean ← statistics.mean sorted_samples;
    std ← (if 1 <? n then statistics.stdev sqrt sorted_samples
           else Ok (Q2Qc 0));
    let cv_pct :=
      if bool_decide (Q2Qc 0 < mean)%Qc then (std / mean * Qc_of_Z 100)%Qc
      else Q2Qc 0 in
    p10 ← getitem sorted_samples (p10_idx n);
    p90 ← getitem sorted_samples (p90_idx n);
    Ok {| median := median; mean := mean; std := std;
          cv_pct := cv_pct; p10 := p10; p90 := p90 |}
  end.

End WithSqrt.

Definition determine_verdict (baseline_stats optimized_stats : stats) : verdict :=
  let baseline_cv := cv_pct baseline_stats in
  let optimized_cv := cv_pct optimized_stats in
  if bool_decide (baseline_cv < Qc_of_Z 5)%Qc
     && bool_decide (optimized_cv < Qc_of_Z 5)%Qc
  then conclusive
  else if bool_decide (Qc_of_Z 15 < baseline_cv)%Qc
          || bool_decide (Qc_of_Z 15 < optimized_cv)%Qc
  then inconclusive
  else conclusive.

Section Impact.
Context {num : Type} `{Number num}.
Local Open Scope num_scope.

Definition calculate_impact (delta_ms : num) (inputs : impact_inputs num)
  : impact_outputs num :=
  let time_saved_hours_per_year :=
    (delta_ms * of_int (executions_per_day inputs)
              * of_int (days_per_year inputs)) / of_int 3600000 in
  let cost_saved_eur_per_year :=
    time_saved_hours_per_year * cost_per_hour_eur inputs in
  let electricity_saved_kwh_per_year :=
    time_saved_hours_per_year * electricity_kwh_per_hour inputs in
  let co2_avoided_kg_per_year :=
    electricity_saved_kwh_per_year * co2_kg_per_kwh inputs in
  {| time_saved_hours_per_year := time_saved_hours_per_year;
     cost_saved_eur_per_year := cost_saved_eur_per_year;
     electricity_saved_kwh_per_year := electricity_saved_kwh_per_year;
     co2_avoided_kg_per_year := co2_avoided_kg_per_year |}.

End Impact.

(** *** The report *)

(** What the host tells [build_report]: the clock (read twice), the host
    identity, the output of [git rev-parse HEAD] when it succeeds, and
    [hashlib.sha256(..).hexdigest()]. *)
Record host := Host {
  utcnow_isoformat_1 : string;
  utcnow_isoformat_2 : string;
  gethostname : string;
  platform_system : string;
  platform_release : string;
  platform_processor : string;
  get_git_commit : option string;
  sha256_hexdigest : list Byte.byte -> string
}.

Record machine := Machine {
  hostname : string;
  os : string;
  kernel : string;
  cpu_model : string
}.

Record dataset := Dataset {
  hash_sha256 : json;
  N : json;
  M : json;
  D : json;
  seed : json
}.

Record meta := Meta {
  report_id : string;
  generated_at : string;
  app_version : string;
  git_commit : option string;
  meta_machine : machine;
  meta_dataset : dataset
}.

Record stability := Stability {
  enabled : json;
  mode : json;
  waited_seconds : json
}.

Record benchmark := Benchmark {
  command_line : string;
  warmup : json;
  runs : json;
  repeat : json;
  benchmark_stability : stability;
  single_thread_env_vars : list (string * string);
  cpu_affinity : json;
  impls : list (string * string)
}.

Record run := Run {
  impl : string;
  variant : string;
  samples : json;
  status : list string;
  errors : list string
}.

Record summary := Summary {
  baseline_stats : stats;
  optimized_stats : stats;
  delta_ms : Qc;
  gain_pct : Qc;
  summary_verdict : verdict;
  notes : string
}.

Record artifacts := Artifacts {
  results_csv : string;
  summary_json : string;
  prometheus_url : string;
  grafana_url : string
}.

Record report := Report {
  schema_version : string;
  report_meta : meta;
  report_benchmark : benchmark;
  runs_baseline : run;
  runs_optimized : run;
  report_summary : summary;
  evidence : json;
  impact_inputs_used : impact_inputs Qc;
  impact_outputs_computed : impact_outputs Qc;
  report_artifacts : artifacts
}.

(** [len(v)]. *)
Definition len (v : json) : result nat :=
  match v with
  | JArr l => Ok (length l)
  | JStr s => Ok (String.length s)
  | JObj kvs => Ok (length kvs)
  | _ => Raise TypeError
  end.

(** The elements of a JSON array when all of them are numbers. *)
Definition numbers (l : list json) : option (list Qc) := mapM as_number l.

Section WithSqrt.
Variable sqrt : Qc -> Qc.

(** [calculate_stats] applied to a value taken from the summary dict.
    A falsy value takes the [not samples] early return.  A non-empty
    list of numbers is a sample sequence.  Every other value makes
    [sorted] or the [statistics] functions raise [TypeError]. *)
Definition calculate_stats_of (samples : json) : result stats :=
  if truthy samples then
    match samples with
    | JArr l =>
      match numbers l with
      | Some xs => calculate_stats sqrt xs
      | None => Raise TypeError
      end
    | _ => Raise TypeError
    end
  else Ok zero_stats.

Definition build_report (h : host)
    (runner_summary : gmap string json) (ebpf_evidence : json)
    (metadata : gmap string json) (command_line : string)
    (baseline_impl baseline_variant optimized_impl optimized_variant : string)
  : result report :=
  let baseline_samples := dict_get runner_summary "baseline_samples" (JArr []) in
  let optimized_samples := dict_get runner_summary "optimized_samples" (JArr []) in
  baseline_stats ← calculate_stats_of baseline_samples;
  optimized_stats ← calculate_stats_of optimized_samples;
  let delta_ms := (median baseline_stats - median optimized_stats)%Qc in
  let gain_pct :=
    if bool_decide (Q2Qc 0 < median baseline_stats)%Qc
    then (delta_ms / median baseline_stats * Qc_of_Z 100)%Qc
    else Q2Qc 0 in
  let verdict := determine_verdict baseline_stats optimized_stats in
  let impact_inputs :=
    {| executions_per_day := 100;
       days_per_year := 250;
       cost_model := "infra";
       cost_per_hour_eur := dec 50 100;
       electricity_kwh_per_hour := dec 15 100;
       co2_kg_per_kwh := dec 475 1000 |} in
  let impact_outputs := calculate_impact delta_ms impact_inputs in
  baseline_len ← len baseline_samples;
  optimized_len ← len optimized_samples;
  Ok {|
    schema_version := "1.0.0";
    report_meta := {|
      report_id :=
        String.substring 0 16
          (sha256_hexdigest h
             (String.list_byte_of_string
                (utcnow_isoformat_1 h ++ gethostname h)));
      generated_at := utcnow_isoformat_2 h ++ "Z";
      app_version := "1.0.0";
      git_commit := get_git_commit h;
      meta_machine := {|
        hostname := gethostname h;
        os := platform_system h;
        kernel := platform_release h;
        cpu_model :=
          if bool_decide (platform_processor h = "") then "unknown"
          else platform_processor h |};
      meta_dataset := {|
        hash_sha256 := dict_get metadata "hash_sha256" (JStr "");
        N := dict_get metadata "N" (JInt 0);
        M := dict_get metadata "M" (JInt 0);
        D := dict_get metadata "D" (JInt 0);
        seed := dict_get metadata "seed" (JInt 0) |} |};
    report_benchmark := {|
      command_line := command_line;
      warmup := dict_get runner_summary "warmup" (JInt 5);
      runs := dict_get runner_summary "runs" (JInt 30);
      repeat := dict_get runner_summary "repeat" (JInt 50);
      benchmark_stability := {|
        enabled := dict_get runner_summary "stability_enabled" (JBool true);
        mode := dict_get runner_summary "stability_mode" (JStr "wait");
        waited_seconds :=
          dict_get runner_summary "waited_seconds" (JFloat (Q2Qc 0)) |};
      single_thread_env_vars :=
        [("OMP_NUM_THREADS", "1"); ("MKL_NUM_THREADS", "1");
         ("OPENBLAS_NUM_THREADS", "1"); ("NUMEXPR_NUM_THREADS", "1")];
      cpu_affinity :=
        or_else (dict_get runner_summary "cpu_affinity" JNull) (JInt 2);
      impls := [(baseline_impl, baseline_variant);
                (optimized_impl, optimized_variant)] |};
    runs_baseline := {|
      impl := baseline_impl;
      variant := baseline_variant;
      samples := baseline_samples;
      status := replicate baseline_len "success";
      errors := [] |};
    runs_optimized := {|
      impl := optimized_impl;
      variant := optimized_variant;
      samples := optimized_samples;
      status := replicate optimized_len "success";
      errors := [] |};
    report_summary := {|
      baseline_stats := baseline_stats;
      optimized_stats := optimized_stats;
      delta_ms := delta_ms;
      gain_pct := gain_pct;
      summary_verdict := verdict;
      notes := "Gain measured at environment constant (same machine)." |};
    evidence := ebpf_evidence;
    impact_inputs_used := impact_inputs;
    impact_outputs_computed := impact_outputs;
    report_artifacts := {|
      results_csv := "runner/results.csv";
      summary_json := "runner/summary.json";
      prometheus_url := "http://localhost:9091";
      grafana_url := "http://localhost:3000" |}
  |}.

End WithSqrt.

End BuildReport.

(** ** tools/convert_to_report.py *)

Module ConvertToReport.

(** One element of [input_data['entries']].  The three keys read on the
    way to the statistics are fields; every other key of the dict is
    looked up in [other_keys], as the code subscripts it, and may be
    missing or hold a value of any JSON type. *)
Record entry := Entry {
  implementation : string;
  code_language : string;
  cpu_processing_time_ms : Qc;
  other_keys : list (string * json)
}.

(** The values of the keys ['cpu_usage_percent'] and ['max_ram_mb'] of
    an entry, as numbers. *)
Record usage := Usage {
  cpu_usage_percent : Qc;
  max_ram_mb : Qc
}.

(** The [summary] and [curve] dicts of a resource profile. *)
Record profile_summary := ProfileSummary {
  cpu_avg : Qc;
  cpu_max : Qc;
  ram_avg_mb : Qc;
  ram_max_mb : Qc;
  io_total_mb : Qc;
  gpu_avg : Qc;
  duration_ms : Qc;
  sample_count : Z
}.

Record profile_curve := ProfileCurve {
  timestamps : list Z;
  cpu : list Qc;
  ram : list Qc;
  io : list Qc;
  gpu : list Z
}.

(** The runs, summary, impact and resource-profile sections of the
    converted report.  Its other sections (meta, benchmark, artifacts)
    and the text of the notes are not modelled. *)
Record conversion := Conversion {
  baseline_samples : list Qc;
  optimized_samples : list Qc;
  baseline_stats : stats;
  optimized_stats : stats;
  delta_ms : Qc;
  gain_pct : Qc;
  verdict_computed : verdict;
  impact_outputs_computed : impact_outputs Qc;
  resource_profiles : list (string * (profile_summary * profile_curve))
}.

Fixpoint find_entry (entries : list entry) (implementation' : string)
  : result entry :=
  match entries with
  | [] => Raise ValueError
  | entry :: rest =>
    if bool_decide (implementation entry = implementation') then Ok entry
    else find_entry rest implementation'
  end.

(** [max(a, b)] on two numbers: [b] when [b > a], else [a]. *)
Definition max (a b : Qc) : Qc := if bool_decide (a < b)%Qc then b else a.

(** A JSON value as an operand of float arithmetic: [TypeError] on a
    string, a list, a dict or [None]. *)
Definition operand (v : json) : result Qc :=
  match as_number v with
  | Some q => Ok q
  | None => Raise TypeError
  end.

(** The format specification [:.2f] of an f-string: it formats a
    number, raises [ValueError] on a string and [TypeError] on a list, a
    dict or [None].  The text it produces is not modelled. *)
Definition format_2f (v : json) : result () :=
  match v with
  | JInt _ | JFloat _ | JBool _ => Ok ()
  | JStr _ => Raise ValueError
  | JNull | JArr _ | JObj _ => Raise TypeError
  end.

(** *** Resource profiles *)

Section WithSeededRandom.
(** After [random.seed(hash(name))]: [gauss_z name i] is the standard
    normal deviate behind the [i]-th call of [random.gauss], and
    [random_u name i] the [i]-th value [random.uniform] takes from
    [random.random()]. *)
Variable gauss_z : string -> nat -> Qc.
Variable random_u : string -> nat -> Qc.

(** The body of [create_resource_profile] once the two usage keys of
    the entry are read. *)
Definition create_resource_profile (entry : entry) (u : usage)
  : result (profile_summary * profile_curve) :=
  let name := implementation entry in
  let cpu_avg := cpu_usage_percent u in
  let ram_avg := max_ram_mb u in
  let timestamps := map (fun i => Z.of_nat i * 2) (seq 0 50) in
  let cpu_curve :=
    map (fun i =>
           builtins.max (Q2Qc 0)
             (builtins.min (Qc_of_Z 100)
                (cpu_avg + (Q2Qc 0 + gauss_z name i * Qc_of_Z 2))%Qc))
        (seq 0 50) in
  let ram_curve :=
    map (fun i =>
           builtins.max (Q2Qc 0)
             (ram_avg + (Q2Qc 0 + gauss_z name (50 + i) * (ram_avg * dec 5 100)))%Qc)
        (seq 0 50) in
  let io_curve :=
    map (fun i => (Q2Qc 0 + (Qc_of_Z 10 - Q2Qc 0) * random_u name i)%Qc)
        (seq 0 50) in
  let gpu_curve := replicate 50 0 in
  cpu_max ← builtins.max_list cpu_curve;
  ram_max ← builtins.max_list ram_curve;
  Ok ({| cpu_avg := cpu_avg;
         cpu_max := cpu_max;
         ram_avg_mb := ram_avg;
         ram_max_mb := ram_max;
         io_total_mb := builtins.sum io_curve;
         gpu_avg := Q2Qc 0;
         duration_ms := cpu_processing_time_ms entry;
         sample_count := 50 |},
      {| timestamps := timestamps;
         cpu := cpu_curve;
         ram := ram_curve;
         io := io_curve;
         gpu := gpu_curve |}).

End WithSeededRandom.

(** *** The conversion *)

Section WithRandom.
(** [sqrt] as in [statistics]; [gauss_z i] is the [i]-th standard normal
    deviate that [random.gauss] draws after [random.seed(42)], so that
    [random.gauss(mu, sigma)] is [mu + gauss_z i * sigma];
    [profile_gauss_z] and [profile_random_u] are the streams of
    [create_resource_profile], seeded by the implementation name. *)
Variable sqrt : Qc -> Qc.
Variable gauss_z : nat -> Qc.
Variable profile_gauss_z : string -> nat -> Qc.
Variable profile_random_u : string -> nat -> Qc.

Definition generate_mock_samples (cpu_time_ms : Qc) (count : nat) : list Qc :=
  let std := (cpu_time_ms * dec 5 1000)%Qc in
  map (fun i => max (dec 1 10) (cpu_time_ms + gauss_z i * std)%Qc) (seq 0 count).

Definition calculate_stats (samples : list Qc) : result stats :=
  match samples with
  | [] =>
    Ok {| median := Q2Qc 0; mean := Q2Qc 0; std := Q2Qc 0;
          cv_pct := Q2Qc 0; p10 := Q2Qc 0; p90 := Q2Qc 0 |}
  | _ =>
    let sorted_samples := sorted samples in
    let n := Z.of_nat (length sorted_samples) in
    median ← statistics.median sorted_samples;
    mean ← statistics.mean sorted_samples;
    std ← (if 1 <? n then statistics.stdev sqrt sorted_samples
           else Ok (Q2Qc 0));
    let cv_pct :=
      if bool_decide (Q2Qc 0 < mean)%Qc then (std / mean * Qc_of_Z 100)%Qc
      else Q2Qc 0 in
    let p10_idx := int (Qc_of_Z n * dec 1 10)%Qc in
    let p90_idx := int (Qc_of_Z n * dec 9 10)%Qc in
    p10 ← getitem sorted_samples p10_idx;
    p90 ← getitem sorted_samples p90_idx;
    Ok {| median := median; mean := mean; std := std;
          cv_pct := cv_pct; p10 := p10; p90 := p90 |}
  end.

(** The conditional expression that sets [verdict]. *)
Definition verdict_of (baseline_stats optimized_stats : stats) : verdict :=
  if bool_decide (cv_pct baseline_stats < Qc_of_Z 5)%Qc
     && bool_decide (cv_pct optimized_stats < Qc_of_Z 5)%Qc
  then conclusive
  else inconclusive.

(** [create_resource_profile(entry)]: the two usage keys are
    subscripted first, then each enters the arithmetic of its curve. *)
Definition resource_profile_of (entry : entry)
  : result (profile_summary * profile_curve) :=
  cpu_avg ← dict_getitem (other_keys entry) "cpu_usage_percent";
  ram_avg ← dict_getitem (other_keys entry) "max_ram_mb";
  cpu_avg ← operand cpu_avg;
  ram_avg ← operand ram_avg;
  create_resource_profile profile_gauss_z profile_random_u entry
    {| cpu_usage_percent := cpu_avg; max_ram_mb := ram_avg |}.

(** The loop over all entries that fills [resource_profiles], a dict
    keyed by [f"{lang}/{impl}"]. *)
Fixpoint resource_profiles_of (entries : list entry)
    (resource_profiles : list (string * (profile_summary * profile_curve)))
  : result (list (string * (profile_summary * profile_curve))) :=
  match entries with
  | [] => Ok resource_profiles
  | entry :: rest =>
    let lang := code_language entry in
    let impl := implementation entry in
    let key := lang +:+ "/" +:+ impl in
    profile ← resource_profile_of entry;
    resource_profiles_of rest (dict_set resource_profiles key profile)
  end.

Definition convert_to_report (entries : list entry)
    (baseline_impl optimized_impl : string) : result conversion :=
  baseline_entry ← find_entry entries baseline_impl;
  optimized_entry ← find_entry entries optimized_impl;
  let baseline_samples :=
    generate_mock_samples (cpu_processing_time_ms baseline_entry) 30 in
  let optimized_samples :=
    generate_mock_samples (cpu_processing_time_ms optimized_entry) 30 in
  baseline_stats ← calculate_stats baseline_samples;
  optimized_stats ← calculate_stats optimized_samples;
  let delta_ms := (median baseline_stats - median optimized_stats)%Qc in
  let gain_pct :=
    if bool_decide (Q2Qc 0 < median baseline_stats)%Qc
    then (delta_ms / median baseline_stats * Qc_of_Z 100)%Qc
    else Q2Qc 0 in
  let verdict := verdict_of baseline_stats optimized_stats in
  let time_saved_hours_per_year :=
    (delta_ms * Qc_of_Z 100 * Qc_of_Z 250 / Qc_of_Z 3600000)%Qc in
  let impact_outputs :=
    {| time_saved_hours_per_year := time_saved_hours_per_year;
       cost_saved_eur_per_year := (time_saved_hours_per_year * dec 50 100)%Qc;
       electricity_saved_kwh_per_year :=
         (time_saved_hours_per_year * dec 15 100)%Qc;
       co2_avoided_kg_per_year :=
         (time_saved_hours_per_year * dec 15 100 * dec 475 1000)%Qc |} in
  resource_profiles ← resource_profiles_of entries [];
  speedup ← dict_getitem (other_keys optimized_entry) "speedup_vs_baseline";
  _ ← format_2f speedup;
  Ok {| baseline_samples := baseline_samples;
        optimized_samples := optimized_samples;
        baseline_stats := baseline_stats;
        optimized_stats := optimized_stats;
        delta_ms := delta_ms;
        gain_pct := gain_pct;
        verdict_computed := verdict;
        impact_outputs_computed := impact_outputs;
        resource_profiles := resource_profiles |}.

End WithRandom.

End ConvertToReport.

(** ** data/generate_data.py *)

Module GenerateData.

Abbreviation byte := Byte.byte.

(** One [float64] array element, by its eight bytes in file order. *)
Inductive float64 :=
| F64 (b0 b1 b2 b3 b4 b5 b6 b7 : byte).

Definition float64_bytes (x : float64) : list byte :=
  match x with
  | F64 b0 b1 b2 b3 b4 b5 b6 b7 => [b0; b1; b2; b3; b4; b5; b6; b7]
  end.

(** [a.tobytes()], also what [a.tofile(f)] writes: the elements in
    row-major order, eight bytes each. *)
Definition tobytes (a : list float64) : list byte :=
  concat (map float64_bytes a).

(** [np.fromfile(f, dtype=np.float64)] on the bytes of [f]: the whole
    eight-byte items; a shorter tail is dropped. *)
Fixpoint fromfile (bs : list byte) : list float64 :=
  match bs with
  | b0 :: b1 :: b2 :: b3 :: b4 :: b5 :: b6 :: b7 :: rest =>
    F64 b0 b1 b2 b3 b4 b5 b6 b7 :: fromfile rest
  | _ => []
  end.

(** [a.reshape(dims)] on an array of [size] elements succeeds when the
    dimensions multiply to [size]; a single [-1] stands for the dimension
    that makes them do so.  The elements are unchanged. *)
Definition product (dims : list Z) : Z := foldr Z.mul 1 dims.

Definition reshape_ok (size : nat) (dims : list Z) : bool :=
  let known := filter (fun d => d ≠ -1) dims in
  if existsb (fun d => d <? -1) dims then false
  else match (length dims - length known)%nat with
       | O => product dims =? Z.of_nat size
       | S O => negb (product known =? 0)
                && (Z.of_nat size mod product known =? 0)
       | _ => false
       end.

Definition reshape (a : list float64) (dims : list json)
  : result (list float64) :=
  match mapM (fun d => match d with JInt z => Some z | _ => None end) dims with
  | None => Raise TypeError
  | Some ds => if reshape_ok (length a) ds then Ok a else Raise ValueError
  end.

(** A file of the dataset directory, by what was written to it. *)
Inductive file :=
| JsonFile (v : json)
| TextFile (s : string)
| BinFile (bs : list byte).

(** What [verify_dataset] prints before it returns. *)
Inductive message :=
| NotFound (name : string)
| HashMismatch (expected : json) (got : string)
| Verified (prefix : string).

(** The options of [main] that the model reads; [--output] names the
    directory the model works on. *)
Record args := Args {
  args_N : Z;
  args_M : Z;
  args_D : Z;
  args_seed : Z;
  args_force : bool;
  args_verify : bool
}.

(** How the process ends: [sys.exit(code)] or falling off the end of
    [main] (status 0), or an exception nothing catches (a traceback and
    status 1). *)
Inductive exit :=
| Exit (code : Z)
| Traceback (e : exn).

Section WithLibraries.
(** [sha256] is [hashlib.sha256(bs).hexdigest()]; [standard_normal seed i]
    is the [i]-th value that [np.random.randn] draws after
    [np.random.seed(seed)]; [json_dump] is the text [json.dump] writes. *)
Variable sha256 : list byte -> string.
Variable standard_normal : Z -> nat -> float64.
Variable json_dump : json -> string.

(** [np.random.randn(rows, cols)] when [drawn] values were drawn before. *)
Definition randn (seed : Z) (drawn : nat) (rows cols : Z)
  : result (list float64) :=
  if (rows <? 0) || (cols <? 0) then Raise ValueError
  else Ok (map (standard_normal seed) (seq drawn (Z.to_nat (rows * cols)))).

Definition file_bytes (f : file) : list byte :=
  match f with
  | BinFile bs => bs
  | TextFile s => String.list_byte_of_string s
  | JsonFile v => String.list_byte_of_string (json_dump v)
  end.

(** [json.load] succeeds on a file that holds a JSON document. *)
Definition json_load (f : file) : result json :=
  match f with
  | JsonFile v => Ok v
  | _ => Raise JSONDecodeError
  end.

Definition metadata_of (N M D seed : Z) (dataset_hash : string) : json :=
  JObj [("hash_sha256", JStr dataset_hash);
        ("N", JInt N);
        ("M", JInt M);
        ("D", JInt D);
        ("seed", JInt seed);
        ("embeddings_file", JStr "embeddings.f64");
        ("axes_file", JStr "axes.f64");
        ("embeddings_shape", JArr [JInt N; JInt D]);
        ("axes_shape", JArr [JInt M; JInt D]);
        ("dtype", JStr "float64");
        ("size_bytes",
         JObj [("embeddings", JInt (N * D * 8));
               ("axes", JInt (M * D * 8));
               ("total", JInt ((N * D + M * D) * 8))])].

(** [np.random.seed(seed)] on an int: the legacy generator takes the
    seeds [0 .. 2^32 - 1] and raises [ValueError] on every other one. *)
Definition random_seed (seed : Z) : result () :=
  if (0 <=? seed) && (seed <? 2 ^ 32) then Ok () else Raise ValueError.

(** [generate_dataset], on the output directory as a map from file names
    to files.  The directory is returned with the outcome, since files
    written before an exception stay written.  Seeding comes first, so
    a seed that is refused leaves the directory as it was. *)
Definition generate_dataset (N M D seed : Z) (dir : gmap string file)
  : result json * gmap string file :=
  match random_seed seed with
  | Raise e => (Raise e, dir)
  | Ok _ =>
    match randn seed 0 N D with
    | Raise e => (Raise e, dir)
    | Ok embeddings =>
      let dir := <["embeddings.f64" := BinFile (tobytes embeddings)]> dir in
      match randn seed (length embeddings) M D with
      | Raise e => (Raise e, dir)
      | Ok axes =>
        let dir := <["axes.f64" := BinFile (tobytes axes)]> dir in
        let dataset_hash := sha256 (tobytes embeddings ++ tobytes axes) in
        let metadata := metadata_of N M D seed dataset_hash in
        let dir := <["metadata.json" := JsonFile metadata]> dir in
        let dir := <["dataset.lock" := TextFile dataset_hash]> dir in
        (Ok metadata, dir)
      end
    end
  end.

(** [s == v] for a string [s] and a JSON value [v]. *)
Definition str_eq (s : string) (v : json) : bool :=
  match v with
  | JStr s' => bool_decide (s = s')
  | _ => false
  end.

(** A JSON value used as a file name. *)
Definition as_path (v : json) : result string :=
  match v with
  | JStr s => Ok s
  | _ => Raise TypeError
  end.

(** [N, D = v]: unpacking a two-element list. *)
Definition unpack2 (v : json) : result (json * json) :=
  match v with
  | JArr [a; b] => Ok (a, b)
  | JArr _ => Raise ValueError
  | _ => Raise TypeError
  end.

(** [v[0]] on a list. *)
Definition first (v : json) : result json :=
  match v with
  | JArr (a :: _) => Ok a
  | JArr [] => Raise IndexError
  | _ => Raise TypeError
  end.

Definition verify_dataset (dir : gmap string file)
  : result (bool * list message) :=
  match dir !! "metadata.json" with
  | None => Ok (false, [NotFound "metadata.json"])
  | Some metadata_file =>
    metadata ← json_load metadata_file;
    embeddings_file ← subscript metadata "embeddings_file" ≫= as_path;
    axes_file ← subscript metadata "axes_file" ≫= as_path;
    match dir !! embeddings_file with
    | None => Ok (false, [NotFound embeddings_file])
    | Some embeddings_f =>
      match dir !! axes_file with
      | None => Ok (false, [NotFound axes_file])
      | Some axes_f =>
        '(N, D) ← subscript metadata "embeddings_shape" ≫= unpack2;
        M ← subscript metadata "axes_shape" ≫= first;
        embeddings ← reshape (fromfile (file_bytes embeddings_f)) [N; D];
        axes ← reshape (fromfile (file_bytes axes_f)) [M; D];
        let calculated_hash := sha256 (tobytes embeddings ++ tobytes axes) in
        expected ← subscript metadata "hash_sha256";
        if negb (str_eq calculated_hash expected)
        then Ok (false, [HashMismatch expected calculated_hash])
        else Ok (true, [Verified (String.substring 0 16 calculated_hash)])
      end
    end
  end.

(** [main]: [--verify] checks the dataset and changes nothing; otherwise
    an existing dataset is kept unless [--force] is given, the three
    dimensions must be positive, and a generated dataset is verified at
    once.  Of what [main] prints nothing is kept. *)
Definition main (a : args) (dir : gmap string file)
  : exit * gmap string file :=
  if args_verify a then
    match verify_dataset dir with
    | Ok (true, _) => (Exit 0, dir)
    | Ok (false, _) => (Exit 1, dir)
    | Raise e => (Traceback e, dir)
    end
  else if bool_decide (is_Some (dir !! "metadata.json")) && negb (args_force a)
  then (Exit 1, dir)
  else if (args_N a <=? 0) || (args_M a <=? 0) || (args_D a <=? 0)
  then (Exit 1, dir)
  else
    match generate_dataset (args_N a) (args_M a) (args_D a) (args_seed a) dir with
    | (Raise _, dir) => (Exit 1, dir)
    | (Ok _, dir) =>
      match verify_dataset dir with
      | Ok (true, _) => (Exit 0, dir)
      | Ok (false, _) => (Exit 1, dir)
      | Raise _ => (Exit 1, dir)
      end
    end.

End WithLibraries.

End GenerateData.

(** ** runner/run_all.py *)

Module RunAll.
Import GenerateData.

(** What [verify_dataset_lock] prints. *)
Inductive lock_message :=
| LockNotFound
| LockMismatch (lock : string) (metadata : json).

(** One cell of a CSV row. *)
Inductive cell :=
| CStr (s : string)
| CInt (z : Z)
| CFloat (q : Qc).

(** The two files [save_results] writes: the rows of [results.csv], and
    the document of [summary.json] once it is written. *)
Record saved := Saved {
  csv_file : list (list cell);
  summary_file : option json
}.

Section WithLibraries.
(** [sqrt] as in [statistics]; [first_gauss s] is the standard normal
    deviate behind the first [random.gauss] after [random.seed(s)], so
    that [random.gauss(mu, sigma)] is [mu + first_gauss s * sigma];
    [decode] is the text a binary file holds, when it holds text;
    [json_dump] is the text [json.dump] writes. *)
Variable sqrt : Qc -> Qc.
Variable first_gauss : Z -> Qc.
Variable decode : list byte -> result string.
Variable json_dump : json -> string.

(** [f.read()] on a file opened with mode ['r']. *)
Definition read (f : file) : result string :=
  match f with
  | TextFile s => Ok (universal_newlines s)
  | JsonFile v => Ok (universal_newlines (json_dump v))
  | BinFile bs => s ← decode bs; Ok (universal_newlines s)
  end.

Definition verify_dataset_lock (metadata : json) (data_dir : gmap string file)
  : result (bool * list lock_message) :=
  match data_dir !! "dataset.lock" with
  | None => Ok (false, [LockNotFound])
  | Some lock_file =>
    text ← read lock_file;
    let lock_hash := strip text in
    expected ← subscript metadata "hash_sha256";
    if negb (str_eq lock_hash expected)
    then Ok (false, [LockMismatch lock_hash expected])
    else Ok (true, [])
  end.

(** The mock measurement: warm-up runs only print, so does the
    progress report; the median, the standard deviation and the CV% are
    computed for the closing line. *)
Definition run_benchmark_impl (impl variant : string) (metadata : json)
    (data_dir : string) (warmup runs repeat : Z) (cpu_affinity : option Z)
    (enforce_single_thread : bool) : result (list Qc) :=
  let samples :=
    map (fun run : nat =>
           let base_duration :=
             if bool_decide (variant = "naive") then Qc_of_Z 1520
             else Qc_of_Z 1212 in
           (base_duration
            + (Q2Qc 0 + first_gauss (42 + Z.of_nat run) * Qc_of_Z 6))%Qc)
        (seq 0 (Z.to_nat runs)) in
  median ← statistics.median samples;
  std ← (if 1 <? Z.of_nat (length samples)
         then statistics.stdev sqrt samples else Ok (Q2Qc 0));
  let cv_pct :=
    if bool_decide (Q2Qc 0 < median)%Qc then (std / median * Qc_of_Z 100)%Qc
    else Q2Qc 0 in
  Ok samples.

(** The rows [save_results] writes after the header, for the items of
    [results] in order; a key that does not split into two parts at its
    slashes raises, and the rows written before it stay written. *)
Fixpoint csv_rows (items : list (string * list Qc))
  : result () * list (list cell) :=
  match items with
  | [] => (Ok (), [])
  | (impl_variant, samples) :: rest =>
    match split "/" impl_variant with
    | [impl; variant] =>
      let rows :=
        imap (fun i duration =>
                [CStr impl; CStr variant; CInt (Z.of_nat i); CFloat duration])
             samples in
      let '(outcome, more) := csv_rows rest in
      (outcome, rows ++ more)
    | _ => (Raise ValueError, [])
    end
  end.

(** [d.get(k, default)] on a dict kept as a list. *)
Definition get (d : list (string * json)) (k : string) (dflt : json) : json :=
  default dflt (assoc k d).

Definition save_results (results : list (string * list Qc))
    (metadata : json) (config : list (string * json))
  : result () * saved :=
  let header := [CStr "impl"; CStr "variant"; CStr "run"; CStr "duration_ms"] in
  let '(outcome, rows) := csv_rows results in
  let csv := header :: rows in
  let summary : result json :=
    _ ← outcome;
    baseline_key ← getitem results.*1 0;
    optimized_key ← (if 1 <? Z.of_nat (length results)
                     then getitem results.*1 1 else Ok baseline_key);
    baseline_samples ← dict_getitem results baseline_key;
    optimized_samples ← dict_getitem results optimized_key;
    warmup ← subscript (JObj config) "warmup";
    runs ← subscript (JObj config) "runs";
    repeat ← subscript (JObj config) "repeat";
    stability_enabled ← subscript (JObj config) "stability_enabled";
    stability_mode ← subscript (JObj config) "stability_mode";
    Ok (JObj [("metadata", metadata);
              ("config", JObj config);
              ("baseline_samples", JArr (map JFloat baseline_samples));
              ("optimized_samples", JArr (map JFloat optimized_samples));
              ("warmup", warmup);
              ("runs", runs);
              ("repeat", repeat);
              ("stability_enabled", stability_enabled);
              ("stability_mode", stability_mode);
              ("waited_seconds", get config "waited_seconds" (JInt 0));
              ("cpu_affinity", get config "cpu_affinity" JNull)]) in
  match summary with
  | Ok document => (Ok (), {| csv_file := csv; summary_file := Some document |})
  | Raise e => (Raise e, {| csv_file := csv; summary_file := None |})
  end.

(** The loop of [main] over [--impls]: [None] where [main] prints the
    expected format and exits with status 1. *)
Definition parse_impls (impls : string) : option (list (string * string)) :=
  mapM (fun impl_str =>
          match split "-" (strip impl_str) with
          | [impl; variant] => Some (impl, variant)
          | _ => None
          end)
       (split "," impls).

(** The loop of [main] that fills [results]. *)
Definition run_impls (impls : list (string * string)) (metadata : json)
    (data_dir : string) (warmup runs repeat : Z) (cpu_affinity : option Z)
    (enforce_single_thread : bool) : result (list (string * list Qc)) :=
  foldl (fun acc '(impl, variant) =>
           results ← acc;
           samples ← run_benchmark_impl impl variant metadata data_dir
                       warmup runs repeat cpu_affinity enforce_single_thread;
           Ok (dict_set results (impl ++ "/" ++ variant) samples))
        (Ok []) impls.

End WithLibraries.
End RunAll.

(** ** runner/profiler.py

    The two read-outs of a finished profile, as functions of the list
    of samples the profiling thread has appended. *)

Module Profiler.

(** One element of [self.samples], as [_profiling_loop] appends it. *)
Record sample := Sample {
  timestamp : Qc;
  cpu_percent : Qc;
  ram_mb : Qc;
  io_read_mb : Qc;
  io_write_mb : Qc;
  gpu_percent : Qc;
  elapsed_ms : Qc
}.

(** The dict [get_summary] returns; only the non-empty case has a
    [sample_count]. *)
Record summary := Summary {
  cpu_avg : Qc;
  cpu_max : Qc;
  ram_avg_mb : Qc;
  ram_max_mb : Qc;
  io_total_mb : Qc;
  gpu_avg : Qc;
  duration_ms : Qc;
  sample_count : option nat
}.

(** The dict [get_profile_curve] returns. *)
Record curve := Curve {
  timestamps : list Qc;
  cpu : list Qc;
  ram : list Qc;
  io : list Qc;
  gpu : list Qc
}.

(** What [get_profile_curve] can raise. *)
Inductive raised :=
| ZeroDivisionError
| ValueError.

(** [self.samples[-1]] on the non-empty list [first :: rest]. *)
Definition final (first : sample) (rest : list sample) : sample :=
  List.last rest first.

(** The averages are exact quotients here; the code divides the
    binary64 sum of the readings by their number, and both the sum and
    the quotient are rounded. *)
Definition get_summary (samples : list sample) : summary :=
  match samples with
  | [] =>
    {| cpu_avg := Q2Qc 0; cpu_max := Q2Qc 0; ram_avg_mb := Q2Qc 0;
       ram_max_mb := Q2Qc 0; io_total_mb := Q2Qc 0; gpu_avg := Q2Qc 0;
       duration_ms := Q2Qc 0; sample_count := None |}
  | first :: rest =>
    let cpu_values := map cpu_percent samples in
    let ram_values := map ram_mb samples in
    let gpu_values := map gpu_percent samples in
    let n := Qc_of_Z (Z.of_nat (length samples)) in
    let io_total :=
      if 1 <? Z.of_nat (length samples) then
        let io_read_delta :=
          (io_read_mb (final first rest) - io_read_mb first)%Qc in
        let io_write_delta :=
          (io_write_mb (final first rest) - io_write_mb first)%Qc in
        builtins.max (Q2Qc 0) (io_read_delta + io_write_delta)%Qc
      else Q2Qc 0 in
    let duration_ms := elapsed_ms (final first rest) in
    {| cpu_avg := (builtins.sum cpu_values / n)%Qc;
       cpu_max := builtins.max_of (cpu_percent first) (map cpu_percent rest);
       ram_avg_mb := (builtins.sum ram_values / n)%Qc;
       ram_max_mb := builtins.max_of (ram_mb first) (map ram_mb rest);
       io_total_mb := io_total;
       gpu_avg := (builtins.sum gpu_values / n)%Qc;
       duration_ms := duration_ms;
       sample_count := Some (length samples) |}
  end.

(** The samples the curve is drawn from. *)
Definition downsample (samples : list sample) (points : Z)
  : raised + list sample :=
  if points <? Z.of_nat (length samples) then
    if points =? 0 then inl ZeroDivisionError
    else
      let step := Z.of_nat (length samples) / points in
      match builtins.slice_step samples step with
      | Some every_step => inr (builtins.slice_stop every_step points)
      | None => inl ValueError
      end
  else inr samples.

Definition get_profile_curve (samples : list sample) (points : Z)
  : raised + curve :=
  match samples with
  | [] => inr {| timestamps := []; cpu := []; ram := []; io := []; gpu := [] |}
  | _ =>
    match downsample samples points with
    | inl e => inl e
    | inr downsampled =>
      let timestamps :=
        match downsampled with
        | [] => []
        | first :: rest =>
          let start_time := elapsed_ms first in
          let end_time := elapsed_ms (final first rest) in
          let duration :=
            if bool_decide (start_time < end_time)%Qc
            then (end_time - start_time)%Qc else Q2Qc 1 in
          map (fun s =>
                 ((elapsed_ms s - start_time) / duration * Qc_of_Z 100)%Qc)
              downsampled
        end in
      inr {| timestamps := timestamps;
             cpu := map cpu_percent downsampled;
             ram := map ram_mb downsampled;
             io := map (fun s => (io_read_mb s + io_write_mb s)%Qc) downsampled;
             gpu := map gpu_percent downsampled |}
    end
  end.

End Profiler.

(** ** The order-statistic median, as the specification words it

    Sort the sequence; for an odd length take the exact middle value,
    for an even length the average of the two middle values.  An empty
    sequence has no median. *)

Definition order_statistic_median (S : list Qc) : option Qc :=
  let s := sorted S in
  let n := length s in
  match n with
  | O => None
  | _ =>
    if Nat.odd n then s !! (n `div` 2)%nat
    else
      lo ← s !! (n `div` 2 - 1)%nat;
      hi ← s !! (n `div` 2)%nat;
      Some ((lo + hi) / Q2Qc 2)%Qc
  end.

(** ** Auxiliary definitions for the statements and examples *)

Import BuildReport GenerateData.

(** A statistics record with a given CV%. *)
Definition with_cv (cv : Qc) : stats :=
  {| median := Q2Qc 0; mean := Q2Qc 0; std := Q2Qc 0;
     cv_pct := cv; p10 := Q2Qc 0; p90 := Q2Qc 0 |}.

(** The default configuration of [build_report], in any number type. *)
Definition default_inputs {num : Type} `{Number num} : impact_inputs num :=
  {| executions_per_day := 100;
     days_per_year := 250;
     cost_model := "infra";
     cost_per_hour_eur := of_dec 50 100;
     electricity_kwh_per_hour := of_dec 15 100;
     co2_kg_per_kwh := of_dec 475 1000 |}.

Abbreviation fexp := (SpecFloat.fexp prec emax).

(** Scaling a float by two through its exponent. *)
Definition double (x : Binary64.t) : Binary64.t :=
  match x with
  | S754_finite s m e => S754_finite s m (e + 1)
  | _ => x
  end.

(** A normal float below the top binade: a full 53-bit mantissa and an
    exponent that leaves room for doubling. *)
Definition normal (x : Binary64.t) : bool :=
  match x with
  | S754_finite _ m e =>
    (Zdigits2 (Z.pos m) =? prec) && (emin <=? e) && (e + 1 <=? emax - prec)
  | _ => false
  end.

(** A finite float below the top binade. *)
Definition room (r : Binary64.t) : bool :=
  match r with
  | S754_finite _ _ e => e + 1 <=? emax - prec
  | _ => false
  end.

(** [x * y] neither underflows nor comes near overflow: the exact product
    is at least the smallest normal number, [2^(emin + prec - 1)], and
    the rounded product is finite and below the top binade. *)
Definition mul_ok (x y : Binary64.t) : bool :=
  match x, y with
  | S754_finite _ mx ex, S754_finite _ my ey =>
    (emin + prec <=? Zdigits2 (Z.pos (mx * my)) + (ex + ey))
    && room (Binary64.mul x y)
  | _, _ => false
  end.

(** The same for [x / y]. *)
Definition div_ok (x y : Binary64.t) : bool :=
  match x, y with
  | S754_finite _ mx ex, S754_finite _ my ey =>
    (emin + prec <=? Zdigits2 (Z.pos mx) + ex - (Zdigits2 (Z.pos my) + ey))
    && room (Binary64.div x y)
  | _, _ => false
  end.

(** The cost projection of [calculate_impact delta inputs] stays in the
    normal range: the delta and the cost are normal floats, and none of
    the four operations in between underflows or comes near overflow. *)
Definition in_normal_range (delta : Binary64.t)
    (inputs : impact_inputs Binary64.t) : bool :=
  let e := Binary64.of_Z (executions_per_day inputs) in
  let y := Binary64.of_Z (days_per_year inputs) in
  let c := Binary64.of_Z 3600000 in
  let t1 := Binary64.mul delta e in
  let t2 := Binary64.mul t1 y in
  let t3 := Binary64.div t2 c in
  normal delta
  && mul_ok delta e && mul_ok t1 y && div_ok t2 c
  && mul_ok t3 (cost_per_hour_eur inputs)
  && normal (cost_saved_eur_per_year (calculate_impact delta inputs)).

(** A value of the runner summary that is a list of numbers. *)
Definition sample_sequence (v : json) : Prop :=
  exists l xs, v = JArr l /\ numbers l = Some xs.

(** A host and two runner summaries to run [build_report] on. *)
Definition example_host : host :=
  {| utcnow_isoformat_1 := "2024-05-01T10:00:00.000001";
     utcnow_isoformat_2 := "2024-05-01T10:00:00.000002";
     gethostname := "bench01";
     platform_system := "Linux";
     platform_release := "6.1.0";
     platform_processor := "";
     get_git_commit := None;
     sha256_hexdigest := fun _ => "00000000000000000000" |}.

Definition summary_without_baseline : gmap string json :=
  {[ "optimized_samples" := JArr [JFloat (dec 12125 10); JInt 1212] ]}.

Definition summary_on_core_0 : gmap string json :=
  <[ "cpu_affinity" := JInt 0 ]> summary_without_baseline.

(** Stand-ins for the libraries, to run the dataset functions on. *)
Definition toy_digest (bs : list byte) : string :=
  String.string_of_list_byte bs.

Definition toy_normal (seed : Z) (i : nat) : float64 :=
  F64 Byte.x00 Byte.x00 Byte.x00 Byte.x00 Byte.x00 Byte.x00 Byte.xf0 Byte.x3f.

Definition toy_dump (v : json) : string := "{}".

(** A dataset directory whose embeddings file was cut short: the
    metadata records a 2 x 2 embeddings array (32 bytes) and a 1 x 2
    axes array, the embeddings file holds 24 bytes. *)
Definition truncated_dataset : gmap string file :=
  {[ "metadata.json" := JsonFile (metadata_of 2 1 2 42 "0f3a");
     "embeddings.f64" := BinFile (replicate 24 Byte.x00);
     "axes.f64" := BinFile (replicate 16 Byte.x00) ]}.

(** *** Notions used by the further properties *)

(** The key [k] of an entry holds a number. *)
Definition number_at (k : string) (e : ConvertToReport.entry) : Prop :=
  exists v q,
    dict_getitem (ConvertToReport.other_keys e) k = Ok v /\
    as_number v = Some q.

(** An entry whose resource profile can be drawn. *)
Definition profiled (e : ConvertToReport.entry) : Prop :=
  number_at "cpu_usage_percent" e /\ number_at "max_ram_mb" e.

(** A square root that is not negative and exceeds the true root by at
    most one part in two thousand, so that its square exceeds the
    argument by at most one part in a thousand.  The correctly rounded
    [math.sqrt] of binary64 is within one part in [2^53]. *)
Definition accurate_sqrt (sqrt : Qc -> Qc) : Prop :=
  forall v, (Q2Qc 0 <= v)%Qc ->
    (Q2Qc 0 <= sqrt v)%Qc /\ (sqrt v * sqrt v <= v * dec 1001 1000)%Qc.

(** Deviates of magnitude at most 9.  [random.gauss] draws
    [cos(2 pi u) * sqrt(-2 ln (1 - u'))] for two values of
    [random.random()]; [1 - u'] is at least [2^-53], which bounds the
    deviate by [sqrt(106 ln 2)], less than 8.6. *)
Definition bounded_deviates (gauss_z : nat -> Qc) : Prop :=
  forall i, (- Qc_of_Z 9 <= gauss_z i)%Qc /\ (gauss_z i <= Qc_of_Z 9)%Qc.

(** A sample value below [2^1023] in magnitude.  The sum of two such
    values is a finite binary64 number.  [statistics.median] adds the
    two middle values of an even number of samples before it halves the
    sum, and on larger values that addition overflows in binary64; the
    exact rationals of this model have no overflow, so the properties
    of the median of floats are stated for such samples. *)
Definition finite_sum (x : Qc) : Prop :=
  (- Qc_of_Z (2 ^ 1023) < x /\ x < Qc_of_Z (2 ^ 1023))%Qc.

(** No mock sample is clamped: every drawn value is at least the floor
    [0.1] that [max] imposes. *)
Definition unclamped (gauss_z : nat -> Qc) (cpu_time_ms : Qc) (count : nat)
  : Prop :=
  forall i, (i < count)%nat ->
    (dec 1 10 <= cpu_time_ms + gauss_z i * (cpu_time_ms * dec 5 1000))%Qc.

(** A map on numbers that keeps the order and takes midpoints to
    midpoints: a translation, or a scaling by a positive factor. *)
Definition monotone_affine (f : Qc -> Qc) : Prop :=
  (forall x y, (x <= y)%Qc -> (f x <= f y)%Qc) /\
  (forall x y, f ((x + y) / Q2Qc 2)%Qc = ((f x + f y) / Q2Qc 2)%Qc).

(** The noise factors [1 + z_i * 0.005] common to both sample sets. *)
Definition noise (gauss_z : nat -> Qc) (count : nat) : list Qc :=
  map (fun i => (Q2Qc 1 + gauss_z i * dec 5 1000)%Qc) (seq 0 count).

(** A string of lower-case hexadecimal digits, as [hexdigest] returns. *)
Definition hexdigit (c : ascii) : bool :=
  let n := nat_of_ascii c in
  ((48 <=? n) && (n <=? 57) || (97 <=? n) && (n <=? 102))%nat.

Fixpoint hexdigits (s : string) : bool :=
  match s with
  | String c rest => hexdigit c && hexdigits rest
  | EmptyString => true
  end.

(** A string of white space only. *)
Fixpoint blank (s : string) : bool :=
  match s with
  | String c rest => isspace c && blank rest
  | EmptyString => true
  end.

(** The duration the mock draws for one run. *)
Definition mock_duration (first_gauss : Z -> Qc) (variant : string)
    (run : nat) : Qc :=
  ((if bool_decide (variant = "naive") then Qc_of_Z 1520 else Qc_of_Z 1212)
   + (Q2Qc 0 + first_gauss (42 + Z.of_nat run)%Z * Qc_of_Z 6))%Qc.

(** The number of occurrences of a character in a string. *)
Fixpoint count (c : ascii) (s : string) : nat :=
  match s with
  | String c' rest => (if bool_decide (c' = c) then 1 else 0) + count c rest
  | EmptyString => 0
  end.

(** The results dict [main] builds from measured implementations, and
    the CSV rows of one of them. *)
Definition keyed (measured : list (string * string * list Qc))
  : list (string * list Qc) :=
  map (fun '(impl, variant, samples) => (impl +:+ "/" +:+ variant, samples))
      measured.

Definition rows_of (m : string * string * list Qc) : list (list RunAll.cell) :=
  let '(impl, variant, samples) := m in
  imap (fun i duration =>
          [RunAll.CStr impl; RunAll.CStr variant; RunAll.CInt (Z.of_nat i); RunAll.CFloat duration])
       samples.

Definition header : list RunAll.cell :=
  [RunAll.CStr "impl"; RunAll.CStr "variant"; RunAll.CStr "run"; RunAll.CStr "duration_ms"].

(** A configuration with the keys [save_results] subscripts. *)
Definition complete (config : list (string * json)) : Prop :=
  Forall (fun k => is_Some (assoc k config))
    ["warmup"; "runs"; "repeat"; "stability_enabled"; "stability_mode"].

(** Samples whose elapsed times never decrease. *)
Definition in_time_order (samples : list Profiler.sample) : Prop :=
  forall i j a b, (i <= j)%nat ->
    samples !! i = Some a -> samples !! j = Some b ->
    (Profiler.elapsed_ms a <= Profiler.elapsed_ms b)%Qc.

(** The normalisation [(e - start) / duration * 100] of one elapsed
    time. *)
Definition normalised (start_time end_time e : Qc) : Qc :=
  ((e - start_time)
   / (if bool_decide (start_time < end_time)%Qc
      then (end_time - start_time)%Qc else Q2Qc 1)
   * Qc_of_Z 100)%Qc.

(** *** Inputs for the examples of the further properties *)

(** A runner summary with samples on both sides. *)
Definition summary_both : gmap string json :=
  {[ "baseline_samples" := JArr [JInt 1520; JInt 1530];
     "optimized_samples" := JArr [JInt 1212] ]}.

(** Two entries of a converter input, and a random stream without
    noise. *)
Definition measured (cpu ram : Z) (speedup : Qc) : list (string * json) :=
  [("cpu_usage_percent", JInt cpu); ("max_ram_mb", JInt ram);
   ("speedup_vs_baseline", JFloat speedup)].

Definition example_entries : list ConvertToReport.entry :=
  [ConvertToReport.Entry "python-naive" "python" (Qc_of_Z 10)
     (measured 98 120 (Qc_of_Z 1));
   ConvertToReport.Entry "cpp-simd" "cpp" (Qc_of_Z 5)
     (measured 99 40 (Qc_of_Z 2));
   ConvertToReport.Entry "cpp-simd" "cpp" (Qc_of_Z 4)
     (measured 97 40 (dec 5 2))].

(** The same entries, the second without its CPU usage. *)
Definition entries_without_usage : list ConvertToReport.entry :=
  [ConvertToReport.Entry "python-naive" "python" (Qc_of_Z 10)
     (measured 98 120 (Qc_of_Z 1));
   ConvertToReport.Entry "cpp-simd" "cpp" (Qc_of_Z 5)
     [("max_ram_mb", JInt 40); ("speedup_vs_baseline", JFloat (Qc_of_Z 2))]].

Definition no_noise (i : nat) : Qc := Q2Qc 0.

Definition no_profile_noise (name : string) (i : nat) : Qc := Q2Qc 0.

(** Deviates that alternate between 1 and -1, and a stand-in for the
    square root that meets [accurate_sqrt]. *)
Definition unit_noise (i : nat) : Qc :=
  if Nat.even i then Q2Qc 1 else (- Q2Qc 1)%Qc.

Definition capped_root (v : Qc) : Qc := builtins.min v (Q2Qc 1).

(** A configuration of the impact projection that charges nothing per
    hour. *)
Definition free_inputs : impact_inputs Qc :=
  ImpactInputs 100 250 "infra" (Q2Qc 0) (dec 15 100) (dec 475 1000).

Definition seeded_no_noise (seed : Z) : Qc := Q2Qc 0.

(** The runner summary that holds the converter's mock samples for
    these entries. *)
Definition mock_summary : gmap string json :=
  {[ "baseline_samples" :=
       JArr (map JFloat
               (ConvertToReport.generate_mock_samples no_noise (Qc_of_Z 10) 30));
     "optimized_samples" :=
       JArr (map JFloat
               (ConvertToReport.generate_mock_samples no_noise (Qc_of_Z 5) 30)) ]}.

(** A digest function that returns hexadecimal digits. *)
Definition hex_digest (bs : list byte) : string := "0f3a".

(** A codec that rejects every binary file. *)
Definition no_text (bs : list byte) : result string := Raise ValueError.

(** A consistent dataset directory with a stray byte after the
    embeddings. *)
Definition dataset_with_tail : gmap string file :=
  let x := toy_normal 0 0 in
  {[ "metadata.json" :=
       JsonFile (metadata_of 1 1 1 42 (toy_digest (tobytes [x] ++ tobytes [x])));
     "embeddings.f64" := BinFile (tobytes [x] ++ [Byte.x00]);
     "axes.f64" := BinFile (tobytes [x]) ]}.

(** Command lines of the dataset generator. *)
Definition generate_args : args :=
  {| args_N := 2; args_M := 1; args_D := 3; args_seed := 42;
     args_force := false; args_verify := false |}.

Definition verify_args : args :=
  {| args_N := 2000; args_M := 15; args_D := 96; args_seed := 42;
     args_force := false; args_verify := true |}.

(** The configuration [main] of the runner passes to [save_results],
    without a CPU core. *)
Definition example_config : list (string * json) :=
  [("warmup", JInt 5); ("runs", JInt 3); ("repeat", JInt 50);
   ("stability_enabled", JBool false); ("stability_mode", JStr "wait");
   ("waited_seconds", JInt 0); ("cpu_affinity", JNull);
   ("enforce_single_thread", JBool false); ("ebpf_agent", JNull)].

(** A profile of [n] samples taken one millisecond apart. *)
Definition ticks (n : nat) : list Profiler.sample :=
  map (fun i =>
         let t := Qc_of_Z (Z.of_nat i) in
         {| Profiler.timestamp := t; Profiler.cpu_percent := t;
            Profiler.ram_mb := t; Profiler.io_read_mb := t;
            Profiler.io_write_mb := t; Profiler.gpu_percent := Q2Qc 0;
            Profiler.elapsed_ms := t |})
      (seq 0 n).

(** * Properties *)

Ltac qc_compare := vm_compute; first [reflexivity | discriminate].
Ltac qc_equal := apply Qc_is_canon; reflexivity.

Ltac verdict_cases :=
  unfold determine_verdict, ConvertToReport.verdict_of;
  repeat case_bool_decide; simpl.

(** ** Sorting *)

Lemma sorted_Sorted (l : list Qc) : Sorted Qcle (sorted l).
Proof. apply (Sorted_merge_sort Qcle). Qed.

Lemma sorted_Permutation (l : list Qc) : sorted l ≡ₚ l.
Proof. apply (merge_sort_Permutation Qcle). Qed.

Lemma sorted_length (l : list Qc) : length (sorted l) = length l.
Proof. apply Permutation_length, sorted_Permutation. Qed.

(** Sorting forgets the input order. *)
Lemma sorted_perm (l l' : list Qc) : l ≡ₚ l' -> sorted l = sorted l'.
Proof.
  intros Hp. apply (Sorted_unique Qcle); try apply sorted_Sorted.
  rewrite !sorted_Permutation. exact Hp.
Qed.

Lemma sorted_idemp (l : list Qc) : sorted (sorted l) = sorted l.
Proof. apply sorted_perm, sorted_Permutation. Qed.

Lemma sorted_nil_inv (l : list Qc) : sorted l = [] -> l = [].
Proof.
  intros Hs. apply Permutation_nil_r.
  rewrite <- Hs. symmetry. apply sorted_Permutation.
Qed.

(** ** Exceptions *)

Lemma bind_Ok {A B} (m : result A) (f : A -> result B) (b : B) :
  m ≫= f = Ok b -> exists a, m = Ok a /\ f a = Ok b.
Proof.
  destruct m as [a|e]; [|discriminate]. intros Hf. now exists a.
Qed.

(** ** Indexing *)

Lemma getitem_lookup {A} (l : list A) (i : nat) (x : A) :
  l !! i = Some x -> getitem l (Z.of_nat i) = Ok x.
Proof.
  intros Hl. unfold getitem.
  destruct (Z.ltb_spec (Z.of_nat i) 0) as [?|_]; [lia|].
  destruct (Z.ltb_spec (Z.of_nat i) 0) as [?|_]; [lia|].
  now rewrite Nat2Z.id, Hl.
Qed.

Lemma getitem_in_range {A} (l : list A) (i : Z) :
  0 <= i < Z.of_nat (length l) ->
  exists x, l !! Z.to_nat i = Some x /\ getitem l i = Ok x.
Proof.
  intros [Hlo Hhi].
  destruct (lookup_lt_is_Some_2 l (Z.to_nat i)) as [x Hx]; [lia|].
  exists x. split; [exact Hx|].
  rewrite <- (Z2Nat.id i) by lia. now apply getitem_lookup.
Qed.

(** ** The verdict rule *)

Lemma Qc_of_Z_lt (a b : Z) : (Qc_of_Z a < Qc_of_Z b)%Qc <-> a < b.
Proof.
  unfold Qclt, Qc_of_Z, Qlt; simpl. rewrite !Z.mul_1_r. reflexivity.
Qed.

(** A CV% on a threshold is neither strictly below 5.0 nor strictly above
    15.0. *)
Lemma boundary_passes_neither_test (cv : Qc) :
  cv = Qc_of_Z 5 \/ cv = Qc_of_Z 15 ->
  ~ (cv < Qc_of_Z 5)%Qc /\ ~ (Qc_of_Z 15 < cv)%Qc.
Proof.
  intros [-> | ->]; rewrite !Qc_of_Z_lt; lia.
Qed.

(** C2: [determine_verdict] evaluates three branches in order.  Both CV%
    strictly below 5.0 gives conclusive; otherwise either CV% strictly
    above 15.0 gives inconclusive; otherwise the verdict is conclusive.
    A CV% of exactly 5.0 or exactly 15.0 therefore passes neither test:
    with the other side at most 15.0 the verdict is conclusive. *)
Theorem determine_verdict_three_branches (b o : stats) :
  let five := Qc_of_Z 5 in
  let fifteen := Qc_of_Z 15 in
  let both_below := (cv_pct b < five /\ cv_pct o < five)%Qc in
  let either_above := (fifteen < cv_pct b \/ fifteen < cv_pct o)%Qc in
  (both_below -> determine_verdict b o = conclusive) /\
  (~ both_below -> either_above -> determine_verdict b o = inconclusive) /\
  (~ both_below -> ~ either_above -> determine_verdict b o = conclusive) /\
  (cv_pct b = five \/ cv_pct b = fifteen ->
   (cv_pct o <= fifteen)%Qc -> determine_verdict b o = conclusive) /\
  (cv_pct o = five \/ cv_pct o = fifteen ->
   (cv_pct b <= fifteen)%Qc -> determine_verdict b o = conclusive).
Proof.
  cbv zeta.
  assert (Hmid : ~ (cv_pct b < Qc_of_Z 5 /\ cv_pct o < Qc_of_Z 5)%Qc ->
                 ~ (Qc_of_Z 15 < cv_pct b \/ Qc_of_Z 15 < cv_pct o)%Qc ->
                 determine_verdict b o = conclusive)
    by (verdict_cases; tauto).
  split; [verdict_cases; tauto|].
  split; [verdict_cases; tauto|].
  split; [exact Hmid|].
  split.
  - intros Hb Ho. apply Qcle_not_lt in Ho.
    pose proof (boundary_passes_neither_test _ Hb) as [Hlo Hhi].
    apply Hmid; tauto.
  - intros Ho Hb. apply Qcle_not_lt in Hb.
    pose proof (boundary_passes_neither_test _ Ho) as [Hlo Hhi].
    apply Hmid; tauto.
Qed.

(** The verdict boundary table: CV% (4.9, 4.9) is conclusive, (5.1, 16.0)
    inconclusive, (5.1, 10.0) conclusive, (5.1, 15.0) conclusive. *)
Lemma determine_verdict_three_branches_witness :
  determine_verdict (with_cv (dec 49 10)) (with_cv (dec 49 10)) = conclusive /\
  determine_verdict (with_cv (dec 51 10)) (with_cv (dec 16 1)) = inconclusive /\
  determine_verdict (with_cv (dec 51 10)) (with_cv (dec 10 1)) = conclusive /\
  determine_verdict (with_cv (dec 51 10)) (with_cv (dec 15 1)) = conclusive.
Proof.
  split; [|split; [|split]].
  - destruct (determine_verdict_three_branches
                (with_cv (dec 49 10)) (with_cv (dec 49 10)))
      as (Hbelow & _).
    apply Hbelow. split; qc_compare.
  - destruct (determine_verdict_three_branches
                (with_cv (dec 51 10)) (with_cv (dec 16 1)))
      as (_ & Habove & _).
    apply Habove.
    + intros [Hb _]; revert Hb; qc_compare.
    + right; qc_compare.
  - destruct (determine_verdict_three_branches
                (with_cv (dec 51 10)) (with_cv (dec 10 1)))
      as (_ & _ & Hmid & _).
    apply Hmid.
    + intros [Hb _]; revert Hb; qc_compare.
    + intros [Hb | Ho]; [revert Hb | revert Ho]; qc_compare.
  - destruct (determine_verdict_three_branches
                (with_cv (dec 51 10)) (with_cv (dec 15 1)))
      as (_ & _ & _ & _ & Hedge).
    apply Hedge.
    + right; simpl; qc_equal.
    + qc_compare.
Defined.

(** The converter's copy of [calculate_stats] is the report builder's. *)
Lemma converter_calculate_stats (sqrt : Qc -> Qc) (samples : list Qc) :
  ConvertToReport.calculate_stats sqrt samples = calculate_stats sqrt samples.
Proof. reflexivity. Qed.

(** On the converter path the reported verdict is [verdict_of] of the two
    statistics records it reports. *)
Lemma convert_to_report_verdict (sqrt : Qc -> Qc) (gauss_z : nat -> Qc)
    (profile_gauss_z profile_random_u : string -> nat -> Qc)
    (entries : list ConvertToReport.entry)
    (baseline_impl optimized_impl : string) (c : ConvertToReport.conversion) :
  ConvertToReport.convert_to_report sqrt gauss_z profile_gauss_z profile_random_u entries
    baseline_impl optimized_impl = Ok c ->
  ConvertToReport.verdict_computed c
  = ConvertToReport.verdict_of (ConvertToReport.baseline_stats c)
                               (ConvertToReport.optimized_stats c).
Proof.
  unfold ConvertToReport.convert_to_report. intros Hc.
  apply bind_Ok in Hc as (be & _ & Hc).
  apply bind_Ok in Hc as (oe & _ & Hc).
  apply bind_Ok in Hc as (b & _ & Hc).
  apply bind_Ok in Hc as (o & _ & Hc).
  apply bind_Ok in Hc as (profiles & _ & Hc).
  apply bind_Ok in Hc as (speedup & _ & Hc).
  apply bind_Ok in Hc as (? & _ & Hc).
  injection Hc as <-. reflexivity.
Qed.

(** The two verdict expressions are not one function: on records with
    CV% (5.1, 10.0) the converter's expression gives inconclusive and
    [determine_verdict] gives conclusive.  No conversion computes such
    records, see [converter_verdict_matches_builder] below. *)
Lemma converter_verdict_differs :
  ConvertToReport.verdict_of (with_cv (dec 51 10)) (with_cv (dec 10 1))
  <> determine_verdict (with_cv (dec 51 10)) (with_cv (dec 10 1)).
Proof. vm_compute. discriminate. Qed.

(** On arbitrary records the converter's expression equals
    [determine_verdict] exactly when both CV% are strictly below 5.0 or
    at least one is strictly above 15.0; in the remaining band it gives
    inconclusive where [determine_verdict] gives conclusive. *)
Lemma converter_verdict_agreement (b o : stats) :
  let both_below := (cv_pct b < Qc_of_Z 5 /\ cv_pct o < Qc_of_Z 5)%Qc in
  let either_above := (Qc_of_Z 15 < cv_pct b \/ Qc_of_Z 15 < cv_pct o)%Qc in
  (ConvertToReport.verdict_of b o = determine_verdict b o
   <-> both_below \/ either_above) /\
  (~ both_below -> ~ either_above ->
   ConvertToReport.verdict_of b o = inconclusive /\
   determine_verdict b o = conclusive).
Proof.
  cbv zeta. verdict_cases; intuition congruence.
Qed.

Lemma converter_verdict_agreement_example :
  ConvertToReport.verdict_of (with_cv (dec 51 10)) (with_cv (dec 15 1))
    = inconclusive /\
  determine_verdict (with_cv (dec 51 10)) (with_cv (dec 15 1)) = conclusive.
Proof.
  destruct (converter_verdict_agreement
              (with_cv (dec 51 10)) (with_cv (dec 15 1))) as (_ & Hband).
  apply Hband.
  - intros [Hb _]; revert Hb; qc_compare.
  - intros [Hb | Ho]; [revert Hb | revert Ho]; qc_compare.
Qed.

(** ** Degenerate sample sequences *)

Lemma sorted_singleton (x : Qc) : sorted [x] = [x].
Proof. reflexivity. Qed.

Lemma Qc_of_Z_1 : Qc_of_Z 1 = Q2Qc 1.
Proof. qc_equal. Qed.

Lemma mean_singleton (x : Qc) : statistics.mean [x] = Ok x.
Proof.
  unfold statistics.mean, statistics.sum; simpl.
  change (Z.of_nat 1) with 1.
  rewrite Qc_of_Z_1, Qcplus_0_r. f_equal. apply (right_id _ Qcdiv).
Qed.

Lemma median_singleton (x : Qc) : statistics.median [x] = Ok x.
Proof. reflexivity. Qed.

Lemma cv_of_zero_std (m : Qc) :
  (if bool_decide (Q2Qc 0 < m)%Qc then (Q2Qc 0 / m * Qc_of_Z 100)%Qc
   else Q2Qc 0) = Q2Qc 0.
Proof.
  case_bool_decide; [|reflexivity]. unfold Qcdiv. ring.
Qed.

(** C5: on the empty sequence [calculate_stats] returns the record whose
    six fields are zero; on a one-element sequence [x] it returns
    median = mean = x, std = 0, cv_pct = 0 and p10 = p90 = x.  Neither
    call raises. *)
Theorem calculate_stats_degenerate (sqrt : Qc -> Qc) (x : Qc) :
  calculate_stats sqrt [] =
    Ok {| median := Q2Qc 0; mean := Q2Qc 0; std := Q2Qc 0;
          cv_pct := Q2Qc 0; p10 := Q2Qc 0; p90 := Q2Qc 0 |} /\
  calculate_stats sqrt [x] =
    Ok {| median := x; mean := x; std := Q2Qc 0;
          cv_pct := Q2Qc 0; p10 := x; p90 := x |}.
Proof.
  split; [reflexivity|].
  unfold calculate_stats. rewrite sorted_singleton.
  rewrite median_singleton, mean_singleton. simpl.
  now rewrite cv_of_zero_std.
Qed.

(** ** Percentile indices *)

Lemma int_nonneg (q : Q) :
  (0 <= q)%Q -> Z.quot (Qnum q) (Z.pos (Qden q)) = Qfloor q.
Proof.
  destruct q as [a b]. unfold Qle; simpl. intros Ha.
  apply Z.quot_div_nonneg; lia.
Qed.

Lemma this_scaled (n a : Z) (b : positive) :
  (this (Qc_of_Z n * dec a b)%Qc == inject_Z n * (a # b))%Q.
Proof.
  unfold dec; simpl. now rewrite !Qred_correct.
Qed.

(** [int] of a non-negative count times a non-negative decimal is the
    floor of the product, which is an integer quotient. *)
Lemma int_scaled (n a : Z) (b : positive) :
  0 <= n -> 0 <= a ->
  int (Qc_of_Z n * dec a b)%Qc = Qfloor (inject_Z n * (a # b)) /\
  int (Qc_of_Z n * dec a b)%Qc = (n * a) / Z.pos b.
Proof.
  intros Hn Ha.
  assert (Hfloor : int (Qc_of_Z n * dec a b)%Qc
                   = Qfloor (inject_Z n * (a # b))).
  { unfold int. rewrite int_nonneg.
    - apply Qfloor_comp, this_scaled.
    - rewrite this_scaled. unfold Qle; simpl. nia. }
  split; [exact Hfloor|].
  rewrite Hfloor. unfold Qfloor, Qmult, inject_Z; simpl.
  reflexivity.
Qed.

Lemma p10_idx_bounds (n : Z) : 1 <= n -> 0 <= p10_idx n < n.
Proof.
  intros Hn. unfold p10_idx.
  destruct (int_scaled n 1 10) as [_ ->]; [lia..|].
  rewrite Z.mul_1_r. split; [apply Z.div_pos; lia|].
  apply Z.div_lt_upper_bound; lia.
Qed.

Lemma p90_idx_bounds (n : Z) : 1 <= n -> 0 <= p90_idx n < n.
Proof.
  intros Hn. unfold p90_idx.
  destruct (int_scaled n 9 10) as [_ ->]; [lia..|].
  split; [apply Z.div_pos; lia|].
  apply Z.div_lt_upper_bound; lia.
Qed.

(** The exact indices are the ones binary64 arithmetic gives, for every
    count up to 5000. *)
Lemma percentile_indices_binary64 :
  let agree (i : option Z) (j : Z) :=
    match i with Some i => i =? j | None => false end in
  forallb
    (fun n => agree (p10_idx_binary64 n) (p10_idx n)
              && agree (p90_idx_binary64 n) (p90_idx n))
    (map Z.of_nat (seq 1 5000)) = true.
Proof. vm_compute. reflexivity. Qed.

(** ** The median *)

Lemma Qc_of_Z_2 : Qc_of_Z 2 = Q2Qc 2.
Proof. qc_equal. Qed.

Lemma odd_mod_2 (n : nat) : Nat.odd n = (Z.of_nat n mod 2 =? 1).
Proof.
  destruct (Nat.odd n) eqn:E; symmetry.
  - apply Nat.odd_spec in E as [m ->]. apply Z.eqb_eq.
    Z.to_euclidean_division_equations; lia.
  - apply Z.eqb_neq. intros Hm.
    assert (Ho : Nat.Odd n).
    { exists (n `div` 2)%nat. apply Nat2Z.inj.
      rewrite Nat2Z.inj_add, Nat2Z.inj_mul, Nat2Z.inj_div.
      Z.to_euclidean_division_equations; lia. }
    apply Nat.odd_spec in Ho. congruence.
Qed.

(** [statistics.median] on an already sorted sequence is the
    order-statistic median of the sequence it was sorted from. *)
Lemma median_of_sorted (S : list Qc) (m : Qc) :
  order_statistic_median S = Some m ->
  statistics.median (sorted S) = Ok m.
Proof.
  unfold order_statistic_median, statistics.median.
  rewrite sorted_idemp.
  generalize (sorted S) as s. intros s.
  destruct (length s) as [|k] eqn:Hn; [discriminate|].
  rewrite <- Hn.
  assert (Hpos : (0 < length s)%nat) by lia. clear k Hn.
  destruct (Z.eqb_spec (Z.of_nat (length s)) 0) as [?|_]; [lia|].
  rewrite <- odd_mod_2.
  destruct (Nat.odd (length s)) eqn:Hodd.
  - intros Hm. rewrite <- (Nat2Z.inj_div _ 2). now apply getitem_lookup.
  - destruct (s !! (length s `div` 2 - 1)%nat) as [lo|] eqn:Hlo; [|discriminate].
    destruct (s !! (length s `div` 2)%nat) as [hi|] eqn:Hhi; [|discriminate].
    simpl. intros [= <-].
    assert (Hlen : (2 <= length s)%nat).
    { destruct (length s) as [|[|k]]; [lia|discriminate|lia]. }
    assert (Hidx : Z.of_nat (length s) `div` 2 - 1
                   = Z.of_nat (length s `div` 2 - 1)).
    { rewrite Nat2Z.inj_sub, Nat2Z.inj_div; [reflexivity|].
      apply Nat.div_le_lower_bound; lia. }
    rewrite Hidx, (getitem_lookup _ _ _ Hlo). simpl.
    rewrite <- (Nat2Z.inj_div _ 2), (getitem_lookup _ _ _ Hhi). simpl.
    now rewrite Qc_of_Z_2.
Qed.

Lemma order_statistic_median_defined (S : list Qc) :
  S <> [] -> exists m, order_statistic_median S = Some m.
Proof.
  intros Hne. unfold order_statistic_median.
  assert (Hpos : (0 < length (sorted S))%nat).
  { rewrite sorted_length. destruct S; [congruence|simpl; lia]. }
  generalize dependent (sorted S). intros s Hpos.
  destruct (length s) as [|k] eqn:Hn; [lia|]. rewrite <- Hn.
  assert (Hhalf : (length s `div` 2 < length s)%nat)
    by (apply Nat.div_lt; lia).
  destruct (lookup_lt_is_Some_2 s (length s `div` 2)%nat Hhalf) as [hi Hhi].
  destruct (lookup_lt_is_Some_2 s (length s `div` 2 - 1)%nat) as [lo Hlo];
    [lia|].
  rewrite Hhi, Hlo. destruct (Nat.odd (length s)); simpl; eauto.
Qed.

(** ** [calculate_stats] never raises *)

Lemma mean_returns (l : list Qc) :
  l <> [] -> returns (statistics.mean l).
Proof.
  intros Hne. unfold statistics.mean.
  destruct (Z.ltb_spec (Z.of_nat (length l)) 1) as [Hlt|_]; [|eexists; eauto].
  destruct l; [congruence|simpl in Hlt; lia].
Qed.

Lemma stdev_returns (sqrt : Qc -> Qc) (l : list Qc) :
  1 < Z.of_nat (length l) -> returns (statistics.stdev sqrt l).
Proof.
  intros Hlen. unfold statistics.stdev, statistics.variance, statistics.mean.
  destruct (Z.ltb_spec (Z.of_nat (length l)) 2) as [?|_]; [lia|].
  destruct (Z.ltb_spec (Z.of_nat (length l)) 1) as [?|_]; [lia|].
  simpl. eexists; eauto.
Qed.

(** What [calculate_stats] returns on a non-empty sequence. *)
Lemma calculate_stats_nonempty (sqrt : Qc -> Qc) (S : list Qc) :
  S <> [] ->
  let n := Z.of_nat (length (sorted S)) in
  exists m mu sd lo hi,
    order_statistic_median S = Some m /\
    statistics.mean (sorted S) = Ok mu /\
    sorted S !! Z.to_nat (p10_idx n) = Some lo /\
    sorted S !! Z.to_nat (p90_idx n) = Some hi /\
    calculate_stats sqrt S =
      Ok {| median := m; mean := mu; std := sd;
            cv_pct := if bool_decide (Q2Qc 0 < mu)%Qc
                      then (sd / mu * Qc_of_Z 100)%Qc else Q2Qc 0;
            p10 := lo; p90 := hi |}.
Proof.
  intros Hne n.
  assert (Hlen : 1 <= n).
  { subst n. rewrite sorted_length. destruct S; [congruence|simpl; lia]. }
  destruct (order_statistic_median_defined S Hne) as [m Hm].
  destruct (mean_returns (sorted S)) as [mu Hmu].
  { intros Hs. apply sorted_nil_inv in Hs. congruence. }
  assert (Hstd : returns (if 1 <? n then statistics.stdev sqrt (sorted S)
                          else Ok (Q2Qc 0))).
  { destruct (Z.ltb_spec 1 n).
    - now apply stdev_returns.
    - eexists; reflexivity. }
  destruct Hstd as [sd Hsd].
  destruct (getitem_in_range (sorted S) _ (p10_idx_bounds _ Hlen))
    as (lo & Hlo & Hglo).
  destruct (getitem_in_range (sorted S) _ (p90_idx_bounds _ Hlen))
    as (hi & Hhi & Hghi).
  exists m, mu, sd, lo, hi. repeat (split; [assumption|]).
  destruct S as [|x xs]; [congruence|].
  unfold calculate_stats. fold n.
  rewrite (median_of_sorted _ _ Hm), Hmu. simpl.
  rewrite Hsd. simpl. rewrite Hglo, Hghi. reflexivity.
Qed.

Lemma calculate_stats_returns (sqrt : Qc -> Qc) (samples : list Qc) :
  returns (calculate_stats sqrt samples).
Proof.
  destruct samples as [|x xs]; [eexists; reflexivity|].
  destruct (calculate_stats_nonempty sqrt (x :: xs))
    as (m & mu & sd & lo & hi & _ & _ & _ & _ & ->); [discriminate|].
  eexists; reflexivity.
Qed.

(** C8: for a non-empty sample sequence of length [n] the percentile
    indices are [floor(n * 0.1)] and [floor(n * 0.9)], both lie in
    [0, n), and both lookups into the sorted copy succeed: the values
    found are the [p10] and [p90] that [calculate_stats] returns. *)
Theorem percentile_indices_in_bounds (sqrt : Qc -> Qc) (samples : list Qc) :
  samples <> [] ->
  let sorted_samples := sorted samples in
  let n := Z.of_nat (length sorted_samples) in
  n = Z.of_nat (length samples) /\
  p10_idx n = Qfloor (inject_Z n * (1 # 10)) /\
  p90_idx n = Qfloor (inject_Z n * (9 # 10)) /\
  0 <= p10_idx n < n /\
  0 <= p90_idx n < n /\
  exists r,
    calculate_stats sqrt samples = Ok r /\
    getitem sorted_samples (p10_idx n) = Ok (p10 r) /\
    getitem sorted_samples (p90_idx n) = Ok (p90 r).
Proof.
  intros Hne sorted_samples n.
  assert (Hn : n = Z.of_nat (length samples))
    by (subst n sorted_samples; now rewrite sorted_length).
  assert (Hlen : 1 <= n).
  { rewrite Hn. destruct samples; [congruence|simpl; lia]. }
  split; [exact Hn|].
  split; [apply int_scaled; lia|].
  split; [apply int_scaled; lia|].
  split; [now apply p10_idx_bounds|].
  split; [now apply p90_idx_bounds|].
  destruct (calculate_stats_nonempty sqrt samples Hne)
    as (m & mu & sd & lo & hi & _ & _ & Hlo & Hhi & ->).
  eexists. split; [reflexivity|]. simpl. fold sorted_samples n in Hlo, Hhi.
  pose proof (p10_idx_bounds _ Hlen). pose proof (p90_idx_bounds _ Hlen).
  rewrite <- (Z2Nat.id (p10_idx n)), <- (Z2Nat.id (p90_idx n)) by lia.
  split; now apply getitem_lookup.
Qed.

Lemma percentile_indices_in_bounds_witness :
  let samples := map Qc_of_Z [5; 1; 4; 2; 3; 10; 7; 8; 9; 6] in
  p10_idx 10 = 1 /\ p90_idx 10 = 9 /\
  exists r,
    calculate_stats (fun v => v) samples = Ok r /\
    getitem (sorted samples) 1 = Ok (p10 r) /\
    getitem (sorted samples) 9 = Ok (p90 r).
Proof.
  intros samples.
  destruct (percentile_indices_in_bounds (fun v => v) samples)
    as (_ & _ & _ & _ & _ & r & Hr & Hlo & Hhi); [discriminate|].
  split; [reflexivity|]. split; [reflexivity|].
  exists r. split; [exact Hr|]. split; [exact Hlo | exact Hhi].
Defined.

(** ** Order independence *)

(** C6: [calculate_stats] returns the same record, field for field, on
    every permutation of a sample sequence, and the median it returns is
    the order-statistic median of the sequence: the middle value of the
    sorted sequence for an odd length, the average of the two middle
    values for an even length. *)
Theorem calculate_stats_permutation_invariant (sqrt : Qc -> Qc) :
  (forall S S' : list Qc,
     S ≡ₚ S' -> calculate_stats sqrt S' = calculate_stats sqrt S) /\
  (forall (S : list Qc) (m : Qc),
     order_statistic_median S = Some m ->
     exists r, calculate_stats sqrt S = Ok r /\ median r = m).
Proof.
  split.
  - intros S S' Hp.
    destruct S as [|x xs], S' as [|y ys]; try reflexivity.
    + apply Permutation_nil_l in Hp. discriminate.
    + apply Permutation_nil_r in Hp. discriminate.
    + unfold calculate_stats. now rewrite (sorted_perm _ _ Hp).
  - intros S m Hm.
    assert (Hne : S <> []) by (intros ->; discriminate).
    destruct (calculate_stats_nonempty sqrt S Hne)
      as (m' & mu & sd & lo & hi & Hm' & _ & _ & _ & ->).
    eexists. split; [reflexivity|]. simpl. congruence.
Qed.

Lemma calculate_stats_permutation_invariant_witness :
  let S := map Qc_of_Z [40; 10; 30; 20] in
  calculate_stats (fun v => v) S = calculate_stats (fun v => v) (sorted S) /\
  exists r, calculate_stats (fun v => v) S = Ok r /\ median r = Qc_of_Z 25.
Proof.
  intros S.
  destruct (calculate_stats_permutation_invariant (fun v => v))
    as [Hperm Hmedian].
  split.
  - apply Hperm. apply sorted_Permutation.
  - apply Hmedian. vm_compute. f_equal. qc_equal.
Defined.

(** ** Binary64 rounding and scaling by two *)

(** The operations of [SpecFloat] are those of the core library; name
    them as [ZArith] does. *)
Ltac z_fold :=
  change IntDef.Z.add with Z.add in *;
  change IntDef.Z.sub with Z.sub in *;
  change IntDef.Z.mul with Z.mul in *;
  change IntDef.Z.min with Z.min in *;
  change IntDef.Z.max with Z.max in *;
  change IntDef.Z.shiftl with Z.shiftl in *;
  change IntDef.Z.div_eucl with Z.div_eucl in *;
  change IntDef.Z.leb with Z.leb in *.

Lemma digits2_pos_size (p : positive) : digits2_pos p = Pos.size p.
Proof. induction p; simpl; congruence. Qed.

Lemma Zdigits2_log2 (z : Z) : 0 < z -> Zdigits2 z = Z.log2 z + 1.
Proof.
  destruct z as [|p|p]; try lia. intros _. simpl.
  rewrite digits2_pos_size. destruct p; simpl; lia.
Qed.

Lemma shr_1_div2 (mrs : shr_record) :
  0 <= shr_m mrs -> shr_m (shr_1 mrs) = Z.div2 (shr_m mrs).
Proof.
  destruct mrs as [m r s]. simpl.
  destruct m as [|[p|p|]|p]; simpl; try lia; reflexivity.
Qed.

Lemma iter_shr_1 (n : positive) (mrs : shr_record) :
  0 <= shr_m mrs ->
  shr_m (SpecFloat.iter_pos shr_1 n mrs) = Z.shiftr (shr_m mrs) (Z.pos n).
Proof.
  revert mrs.
  induction n as [n IH|n IH|]; intros mrs Hm; simpl SpecFloat.iter_pos.
  - assert (H1 : 0 <= shr_m (shr_1 mrs)).
    { rewrite shr_1_div2, Z.div2_spec by assumption.
      now apply Z.shiftr_nonneg. }
    assert (H2 : 0 <= shr_m (SpecFloat.iter_pos shr_1 n (shr_1 mrs))).
    { rewrite IH by assumption. now apply Z.shiftr_nonneg. }
    rewrite !IH by assumption.
    rewrite shr_1_div2, Z.div2_spec by assumption.
    rewrite !Z.shiftr_shiftr by lia. f_equal. lia.
  - assert (H2 : 0 <= shr_m (SpecFloat.iter_pos shr_1 n mrs)).
    { rewrite IH by assumption. now apply Z.shiftr_nonneg. }
    rewrite !IH by assumption.
    rewrite !Z.shiftr_shiftr by lia. f_equal. lia.
  - rewrite shr_1_div2 by assumption. now rewrite Z.div2_spec.
Qed.

Lemma shr_m_of_loc (m : Z) (l : location) : shr_m (shr_record_of_loc m l) = m.
Proof. destruct l as [|[]]; reflexivity. Qed.

Lemma round_nearest_even_ge (x : Z) (l : location) :
  x <= round_nearest_even x l <= x + 1.
Proof.
  destruct l as [|[]]; simpl; try lia. destruct (Z.even x); lia.
Qed.

Lemma fexp_normal (z : Z) : emin <= z - prec -> fexp z = z - prec.
Proof. intros H. unfold SpecFloat.fexp. lia. Qed.

(** One stage of rounding, on a value at least the smallest normal
    number: the mantissa kept does not depend on the exponent. *)
Lemma shr_fexp_shift (m : Z) (e : Z) (l : location) :
  0 < m ->
  emin <= Zdigits2 m + e - prec ->
  let '(mrs, e') := shr_fexp prec emax m e l in
  shr_fexp prec emax m (e + 1) l = (mrs, e' + 1) /\
  0 < shr_m mrs /\
  emin <= Zdigits2 (shr_m mrs) + e' - prec /\
  Zdigits2 m + e <= Zdigits2 (shr_m mrs) + e'.
Proof.
  intros Hm Hn. unfold shr_fexp.
  rewrite !fexp_normal by lia.
  replace (Zdigits2 m + (e + 1) - prec - (e + 1)) with (Zdigits2 m - prec)
    by lia.
  replace (Zdigits2 m + e - prec - e) with (Zdigits2 m - prec) by lia.
  destruct (Zdigits2 m - prec) as [|p|p] eqn:Hp; simpl.
  - rewrite shr_m_of_loc. repeat split; try lia.
  - rewrite iter_shr_1, shr_m_of_loc by (rewrite shr_m_of_loc; lia).
    assert (Hd : Zdigits2 m = Z.log2 m + 1) by (apply Zdigits2_log2; lia).
    assert (Hlog : Z.log2 (Z.shiftr m (Z.pos p)) = Z.log2 m - Z.pos p).
    { rewrite Z.log2_shiftr by lia. unfold prec in Hp. lia. }
    assert (Hpos : 0 < Z.shiftr m (Z.pos p)).
    { destruct (Z.lt_ge_cases 0 (Z.shiftr m (Z.pos p))) as [?|Hle];
        [assumption|].
      rewrite Z.log2_nonpos in Hlog by lia. unfold prec in Hp. lia. }
    rewrite (Zdigits2_log2 (Z.shiftr m (Z.pos p))) by assumption.
    repeat split; try lia. f_equal; lia.
  - pose proof (Zdigits2_log2 m Hm). pose proof (Z.log2_nonneg m).
    unfold prec in *. rewrite shr_m_of_loc. repeat split; lia.
Qed.

(** Rounding commutes with an increment of the exponent when the value
    rounded is at least the smallest normal number and the result is not
    in the top binade. *)
Lemma binary_round_aux_shift (s : bool) (m : Z) (e : Z) (l : location) :
  0 < m ->
  emin <= Zdigits2 m + e - prec ->
  match binary_round_aux prec emax s m e l with
  | S754_finite _ _ e' => e' + 1 <= emax - prec
  | _ => True
  end ->
  binary_round_aux prec emax s m (e + 1) l
  = double (binary_round_aux prec emax s m e l).
Proof.
  intros Hm Hn. unfold binary_round_aux.
  pose proof (shr_fexp_shift m e l Hm Hn) as H1.
  destruct (shr_fexp prec emax m e l) as [mrs e1].
  destruct H1 as (-> & Hpos & Hn1 & _).
  set (m1 := round_nearest_even (shr_m mrs) (loc_of_shr_record mrs)).
  pose proof (round_nearest_even_ge (shr_m mrs) (loc_of_shr_record mrs)) as Hr.
  fold m1 in Hr.
  assert (Hm1 : 0 < m1) by lia.
  assert (Hd1 : Zdigits2 (shr_m mrs) <= Zdigits2 m1).
  { rewrite !Zdigits2_log2 by lia.
    apply Z.add_le_mono_r, Z.log2_le_mono. lia. }
  pose proof (shr_fexp_shift m1 e1 loc_Exact Hm1 ltac:(lia)) as H2.
  destruct (shr_fexp prec emax m1 e1 loc_Exact) as [mrs2 e2].
  destruct H2 as (-> & _ & _ & _).
  destruct (shr_m mrs2) as [|m2|m2]; try reflexivity.
  destruct (Z.leb_spec e2 (emax - prec));
    destruct (Z.leb_spec (e2 + 1) (emax - prec));
    simpl; intros Hfin; try reflexivity; unfold emax, prec in *; lia.
Qed.

Lemma room_inv (r : spec_float) :
  room r = true ->
  match r with
  | S754_finite _ _ e' => e' + 1 <= emax - prec
  | _ => True
  end.
Proof.
  destruct r; try (intros; exact I). simpl. intros H. now apply Z.leb_le.
Qed.

Lemma SFmul_double (x y : spec_float) :
  mul_ok x y = true ->
  SFmul prec emax (double x) y = double (SFmul prec emax x y).
Proof.
  destruct x as [| | |sx mx ex], y as [| | |sy my ey]; try discriminate.
  unfold mul_ok, Binary64.mul. intros H. apply andb_prop in H as [Hn Hr].
  apply Z.leb_le in Hn. apply room_inv in Hr.
  simpl double at 1. unfold SFmul in *.
  replace (ex + 1 + ey) with (ex + ey + 1) by lia.
  apply binary_round_aux_shift; try assumption; lia.
Qed.

Lemma div_core_shift (mx my : positive) (ex ey : Z) :
  emin <= Zdigits2 (Z.pos mx) + ex - (Zdigits2 (Z.pos my) + ey) - prec ->
  let '(q, e', l) := SFdiv_core_binary prec emax (Z.pos mx) ex (Z.pos my) ey in
  SFdiv_core_binary prec emax (Z.pos mx) (ex + 1) (Z.pos my) ey = (q, e' + 1, l) /\
  0 < q /\
  emin <= Zdigits2 q + e' - prec.
Proof.
  intros Hn. unfold SFdiv_core_binary.
  z_fold.
  set (d1 := Zdigits2 (Z.pos mx)) in *. set (d2 := Zdigits2 (Z.pos my)) in *.
  rewrite !fexp_normal by lia.
  set (e' := Z.min (d1 + ex - (d2 + ey) - prec) (ex - ey)).
  replace (Z.min (d1 + (ex + 1) - (d2 + ey) - prec) (ex + 1 - ey)) with (e' + 1)
    by (unfold e'; lia).
  replace (ex + 1 - ey - (e' + 1)) with (ex - ey - e') by lia.
  set (s := ex - ey - e').
  assert (Hs : 0 <= s) by (unfold s, e'; lia).
  assert (Hsd : d2 + prec <= d1 + s) by (unfold s, e'; lia).
  set (m' := match s with
             | Z.pos _ => Z.shiftl (Z.pos mx) s
             | 0 => Z.pos mx
             | Z.neg _ => 0
             end).
  assert (Hm' : m' = Z.pos mx * 2 ^ s).
  { unfold m'. generalize s Hs. intros [|p|p] Hp; try lia.
    now rewrite Z.shiftl_mul_pow2 by lia. }
  assert (Hq : fst (Z.div_eucl m' (Z.pos my)) = m' / Z.pos my) by reflexivity.
  destruct (Z.div_eucl m' (Z.pos my)) as [q r]. simpl in Hq. subst q.
  split; [reflexivity|].
  assert (Hd1 : d1 = Z.log2 (Z.pos mx) + 1) by (apply Zdigits2_log2; lia).
  assert (Hd2 : d2 = Z.log2 (Z.pos my) + 1) by (apply Zdigits2_log2; lia).
  pose proof (Z.log2_spec (Z.pos mx) eq_refl) as [Hx _].
  pose proof (Z.log2_spec (Z.pos my) eq_refl) as [_ Hy].
  pose proof (Z.log2_nonneg (Z.pos mx)). pose proof (Z.log2_nonneg (Z.pos my)).
  set (k := d1 - 1 + s - d2).
  assert (Hk : 0 <= k) by (unfold k, prec in *; lia).
  assert (Hlow : 2 ^ k <= m' / Z.pos my).
  { apply Z.div_le_lower_bound; [lia|].
    rewrite Hm'.
    apply Z.le_trans with (2 ^ d2 * 2 ^ k).
    - apply Z.mul_le_mono_nonneg_r; [apply Z.pow_nonneg; lia|].
      rewrite Hd2. lia.
    - rewrite <- Z.pow_add_r by lia.
      replace (d2 + k) with (Z.log2 (Z.pos mx) + s) by (unfold k; lia).
      rewrite Z.pow_add_r by lia.
      apply Z.mul_le_mono_nonneg_r; [apply Z.pow_nonneg; lia|].
      exact Hx. }
  assert (Hqpos : 0 < m' / Z.pos my).
  { apply Z.lt_le_trans with (2 ^ k); [|exact Hlow].
    apply Z.pow_pos_nonneg; lia. }
  split; [exact Hqpos|].
  rewrite Zdigits2_log2 by exact Hqpos.
  apply Z.log2_le_pow2 in Hlow; [|exact Hqpos].
  unfold k, s, e' in *. lia.
Qed.

Lemma SFdiv_double (x y : spec_float) :
  div_ok x y = true ->
  SFdiv prec emax (double x) y = double (SFdiv prec emax x y).
Proof.
  destruct x as [| | |sx mx ex], y as [| | |sy my ey]; try discriminate.
  unfold div_ok, Binary64.div. intros H. apply andb_prop in H as [Hn Hr].
  apply Z.leb_le in Hn. apply room_inv in Hr.
  simpl double at 1. unfold SFdiv in *.
  pose proof (div_core_shift mx my ex ey ltac:(lia)) as Hc.
  destruct (SFdiv_core_binary prec emax (Z.pos mx) ex (Z.pos my) ey)
    as [[q e'] l].
  destruct Hc as (-> & Hq & Hd).
  now apply binary_round_aux_shift.
Qed.

Lemma shr_1_exact (m : Z) :
  0 < m ->
  shr_1 (Build_shr_record (m * 2) false false) = Build_shr_record m false false.
Proof.
  destruct m as [|p|p]; try lia. intros _.
  replace (Z.pos p * 2) with (Z.pos p~0) by lia. reflexivity.
Qed.

Lemma pow2_xO (p : positive) : 2 ^ Z.pos p~0 = 2 ^ Z.pos p * 2 ^ Z.pos p.
Proof. rewrite <- Z.pow_add_r by lia. f_equal. lia. Qed.

Lemma pow2_xI (p : positive) : 2 ^ Z.pos p~1 = 2 ^ Z.pos p * 2 ^ Z.pos p * 2.
Proof.
  replace (Z.pos p~1) with (Z.pos p + Z.pos p + 1) by lia.
  rewrite !Z.pow_add_r by lia. now rewrite Z.pow_1_r.
Qed.

Lemma iter_shr_1_exact (p : positive) (m : Z) :
  0 < m ->
  SpecFloat.iter_pos shr_1 p (Build_shr_record (m * 2 ^ Z.pos p) false false)
  = Build_shr_record m false false.
Proof.
  revert m. induction p as [p IH|p IH|]; intros m Hm.
  - rewrite pow2_xI, !Z.mul_assoc. cbn [SpecFloat.iter_pos].
    assert (0 < 2 ^ Z.pos p) by (apply Z.pow_pos_nonneg; lia).
    rewrite shr_1_exact, IH, IH; try reflexivity; try lia;
      repeat apply Z.mul_pos_pos; lia.
  - rewrite pow2_xO, !Z.mul_assoc. cbn [SpecFloat.iter_pos].
    assert (0 < 2 ^ Z.pos p) by (apply Z.pow_pos_nonneg; lia).
    rewrite IH, IH; try reflexivity; try lia.
  - cbn [SpecFloat.iter_pos]. rewrite Z.pow_1_r. now apply shr_1_exact.
Qed.

Lemma SFmul_one (s : bool) (m : positive) (e : Z) :
  normal (S754_finite s m e) = true ->
  SFmul prec emax Binary64.one (S754_finite s m e) = S754_finite s m e.
Proof.
  unfold normal. intros H.
  apply andb_prop in H as [H He2]. apply andb_prop in H as [Hd He1].
  apply Z.eqb_eq in Hd. apply Z.leb_le in He1, He2.
  unfold SFmul, Binary64.one. cbn [xorb].
  assert (Hprod : Z.pos (4503599627370496 * m) = Z.pos m * 2 ^ 52).
  { rewrite Pos2Z.inj_mul. change (Z.pos 4503599627370496) with (2 ^ 52).
    ring. }
  rewrite Hprod.
  assert (Hdig : Zdigits2 (Z.pos m * 2 ^ 52) = 105).
  { rewrite Zdigits2_log2 by lia. rewrite Z.log2_mul_pow2 by lia.
    rewrite Zdigits2_log2 in Hd by lia. unfold prec in Hd. lia. }
  unfold binary_round_aux, shr_fexp. rewrite Hdig. z_fold.
  rewrite fexp_normal by (unfold prec in *; lia).
  replace (105 + (-52 + e) - prec - (-52 + e)) with 52 by (unfold prec; lia).
  unfold shr. cbn [shr_record_of_loc].
  rewrite (iter_shr_1_exact 52 (Z.pos m)) by lia.
  cbn [shr_m loc_of_shr_record round_nearest_even].
  rewrite Hd.
  rewrite fexp_normal by (unfold prec in *; lia).
  replace (prec + (-52 + e + 52) - prec - (-52 + e + 52)) with 0 by lia.
  cbn [shr_m shr_record_of_loc].
  replace (-52 + e + 52) with e by lia.
  destruct (Z.leb_spec e (emax - prec)); [reflexivity|lia].
Qed.

Lemma SFmul_two (x : spec_float) :
  normal x = true -> SFmul prec emax Binary64.two x = double x.
Proof.
  destruct x as [| | |s m e]; try discriminate. intros Hx.
  assert (Hok : mul_ok Binary64.one (S754_finite s m e) = true).
  { unfold mul_ok. cbn [Binary64.one]. fold Binary64.one.
    unfold Binary64.mul. rewrite SFmul_one by assumption.
    unfold normal in Hx.
    apply andb_prop in Hx as [H He2]. apply andb_prop in H as [Hd He1].
    apply Z.eqb_eq in Hd. apply Z.leb_le in He1.
    cbn [room]. rewrite He2, Bool.andb_true_r. apply Z.leb_le.
    assert (Hprod : Z.pos (4503599627370496 * m) = Z.pos m * 2 ^ 52).
    { rewrite Pos2Z.inj_mul. change (Z.pos 4503599627370496) with (2 ^ 52).
      ring. }
    rewrite Hprod, Zdigits2_log2, Z.log2_mul_pow2 by lia.
    rewrite Zdigits2_log2 in Hd by lia. unfold prec in *. lia. }
  change Binary64.two with (double Binary64.one).
  rewrite (SFmul_double _ _ Hok), SFmul_one by assumption. reflexivity.
Qed.

Lemma SFmul_two_finite (x : spec_float) :
  normal x = true ->
  exists s m e, SFmul prec emax Binary64.two x = S754_finite s m e.
Proof.
  intros Hx. rewrite SFmul_two by assumption.
  destruct x as [| | |s m e]; try discriminate. simpl. eauto.
Qed.

Lemma SFeqb_refl_finite (s : bool) (m : positive) (e : Z) :
  SFeqb (S754_finite s m e) (S754_finite s m e) = true.
Proof.
  unfold SFeqb, SFcompare.
  destruct s; rewrite Z.compare_refl, Pos.compare_cont_refl; reflexivity.
Qed.

(** ** Impact projection *)

(** In binary64, with the default configuration and the delta
    [400 * 2^-1074], the yearly cost of twice the delta is
    [3 * 2^-1074] while twice the yearly cost of the delta is
    [4 * 2^-1074]: the quotient by 3 600 000 is rounded in the subnormal
    range, where doubling does not commute with rounding. *)
Lemma impact_not_linear_in_binary64 :
  let d : Binary64.t := Binary64.scaled 400 (-1074) in
  let cost delta :=
    cost_saved_eur_per_year (calculate_impact delta default_inputs) in
  (cost (of_int 2 * d) == of_int 2 * cost d)%num = false /\
  cost (of_int 2 * d)%num = Binary64.scaled 3 (-1074) /\
  (of_int 2 * cost d)%num = Binary64.scaled 4 (-1074).
Proof. vm_compute. repeat split. Qed.

(** The processor's floats give the same two values. *)
Lemma impact_not_linear_on_hardware :
  let d : PrimFloat.float := SF2Prim (Binary64.scaled 400 (-1074)) in
  let cost delta :=
    cost_saved_eur_per_year (calculate_impact delta default_inputs) in
  (cost (of_int 2 * d) == of_int 2 * cost d)%num = false /\
  Prim2SF (cost (of_int 2 * d)%num) = Binary64.scaled 3 (-1074) /\
  Prim2SF (of_int 2 * cost d)%num = Binary64.scaled 4 (-1074).
Proof. vm_compute. repeat split. Qed.


Lemma Qc_of_Z_0 : Qc_of_Z 0 = Q2Qc 0.
Proof. qc_equal. Qed.

Lemma Qc_of_Z_pos (z : Z) : 0 < z -> (Q2Qc 0 < Qc_of_Z z)%Qc.
Proof. rewrite <- Qc_of_Z_0, Qc_of_Z_lt. trivial. Qed.

Lemma Qcmult_neg_pos (x y : Qc) :
  (x < Q2Qc 0 -> Q2Qc 0 < y -> x * y < Q2Qc 0)%Qc.
Proof.
  intros Hx Hy. rewrite <- (Qcmult_0_l y). now apply Qcmult_lt_compat_r.
Qed.

(** In binary64 the cost of twice a delta is twice the cost of the delta
    when the computation stays in the normal range. *)
Lemma impact_doubles_in_binary64 (d : Binary64.t)
    (cfg : impact_inputs Binary64.t) :
  in_normal_range d cfg = true ->
  cost_saved_eur_per_year (calculate_impact (of_int 2 * d)%num cfg)
  = (of_int 2 * cost_saved_eur_per_year (calculate_impact d cfg))%num /\
  room (cost_saved_eur_per_year (calculate_impact d cfg)) = true.
Proof.
  unfold in_normal_range. intros H.
  repeat (apply andb_prop in H as [H ?]).
  unfold calculate_impact in *; cbn [cost_saved_eur_per_year] in *.
  cbn [num_mul num_div of_int binary64_number] in *.
  unfold Binary64.mul, Binary64.div in *.
  change (Binary64.of_Z 2) with Binary64.two.
  rewrite (SFmul_two d) by assumption.
  rewrite !SFmul_double, SFdiv_double, !SFmul_double by assumption.
  rewrite SFmul_two by assumption.
  split; [reflexivity|].
  match goal with Hn : normal _ = true |- _ => revert Hn end.
  destruct (SFmul prec emax _ (cost_per_hour_eur cfg)); try discriminate.
  unfold normal, room. intros Hn. now apply andb_prop in Hn as [_ ->].
Qed.



(** Every delta of a whole number of milliseconds up to two seconds either
    way, zero apart, stays in the normal range under the default
    configuration. *)
Lemma whole_ms_in_normal_range :
  forallb
    (fun d => (d =? 0) || in_normal_range (Binary64.of_Z d) default_inputs)
    (map (fun k => Z.of_nat k - 2000) (seq 0 4001)) = true.
Proof. vm_compute. reflexivity. Qed.

(** ** Report aggregation *)

Lemma calculate_stats_of_sequence (sqrt : Qc -> Qc) (v : json) :
  sample_sequence v ->
  returns (calculate_stats_of sqrt v) /\ returns (len v).
Proof.
  intros (l & xs & -> & Hxs). split; [|eexists; reflexivity].
  unfold calculate_stats_of. destruct l as [|j l]; [eexists; reflexivity|].
  cbn [truthy]. rewrite Hxs. apply calculate_stats_returns.
Qed.

Lemma dict_get_absent (d : gmap string json) (k : string) (dflt : json) :
  d !! k = None -> dict_get d k dflt = dflt.
Proof. unfold dict_get. now intros ->. Qed.

Section Build.
Variables (sqrt : Qc -> Qc) (h : host).
Variables (runner_summary metadata : gmap string json) (ebpf_evidence : json).
Variables (command_line : string).
Variables (baseline_impl baseline_variant : string).
Variables (optimized_impl optimized_variant : string).

Let build : result report :=
  build_report sqrt h runner_summary ebpf_evidence metadata command_line
    baseline_impl baseline_variant optimized_impl optimized_variant.

(** What a returned report holds, in terms of the two statistics
    records. *)
Lemma build_report_inv (r : report) :
  build = Ok r ->
  let b := baseline_stats (report_summary r) in
  let o := optimized_stats (report_summary r) in
  calculate_stats_of sqrt
    (dict_get runner_summary "baseline_samples" (JArr [])) = Ok b /\
  calculate_stats_of sqrt
    (dict_get runner_summary "optimized_samples" (JArr [])) = Ok o /\
  samples (runs_baseline r)
    = dict_get runner_summary "baseline_samples" (JArr []) /\
  samples (runs_optimized r)
    = dict_get runner_summary "optimized_samples" (JArr []) /\
  len (samples (runs_baseline r))
    = Ok (length (status (runs_baseline r))) /\
  len (samples (runs_optimized r))
    = Ok (length (status (runs_optimized r))) /\
  delta_ms (report_summary r) = (median b - median o)%Qc /\
  gain_pct (report_summary r)
    = (if bool_decide (Q2Qc 0 < median b)%Qc
       then (delta_ms (report_summary r) / median b * Qc_of_Z 100)%Qc
       else Q2Qc 0) /\
  summary_verdict (report_summary r) = determine_verdict b o /\
  cpu_affinity (report_benchmark r)
    = or_else (dict_get runner_summary "cpu_affinity" JNull) (JInt 2).
Proof.
  unfold build, build_report.
  destruct (calculate_stats_of sqrt (dict_get runner_summary
              "baseline_samples" (JArr []))) as [b|] eqn:Hb;
    [|discriminate].
  destruct (calculate_stats_of sqrt (dict_get runner_summary
              "optimized_samples" (JArr []))) as [o|] eqn:Ho;
    [|discriminate].
  simpl.
  destruct (len (dict_get runner_summary "baseline_samples" (JArr [])))
    as [nb|] eqn:Hnb; [|discriminate].
  destruct (len (dict_get runner_summary "optimized_samples" (JArr [])))
    as [no|] eqn:Hno; [|discriminate].
  simpl. intros [= <-]. simpl.
  rewrite Hnb, Hno, !length_replicate. repeat split.
Qed.

Lemma build_report_returns :
  sample_sequence (dict_get runner_summary "baseline_samples" (JArr [])) ->
  sample_sequence (dict_get runner_summary "optimized_samples" (JArr [])) ->
  returns build.
Proof.
  intros Hb Ho.
  destruct (calculate_stats_of_sequence sqrt _ Hb) as [[b Hsb] [nb Hnb]].
  destruct (calculate_stats_of_sequence sqrt _ Ho) as [[o Hso] [no Hno]].
  unfold build, build_report. rewrite Hsb, Hso. simpl.
  rewrite Hnb, Hno. simpl. eexists; reflexivity.
Qed.

Lemma sample_sequence_empty : sample_sequence (JArr []).
Proof. exists [], []. split; reflexivity. Qed.

(** C9: when the summary has no [baseline_samples] key, or no
    [optimized_samples] key, [build_report] takes the empty sequence in
    its place and still returns a report (the other sequence being a
    list of numbers, as the summary schema has it): the run's samples and
    status are empty and its statistics are the zero record.  In every
    report the gain percent is 0 when the baseline median is not
    strictly positive. *)
Theorem build_report_missing_samples :
  (runner_summary !! "baseline_samples" = None ->
   sample_sequence
     (dict_get runner_summary "optimized_samples" (JArr [])) ->
   exists r, build = Ok r /\
     samples (runs_baseline r) = JArr [] /\
     status (runs_baseline r) = [] /\
     baseline_stats (report_summary r) = zero_stats /\
     gain_pct (report_summary r) = Q2Qc 0) /\
  (runner_summary !! "optimized_samples" = None ->
   sample_sequence
     (dict_get runner_summary "baseline_samples" (JArr [])) ->
   exists r, build = Ok r /\
     samples (runs_optimized r) = JArr [] /\
     status (runs_optimized r) = [] /\
     optimized_stats (report_summary r) = zero_stats) /\
  (forall r, build = Ok r ->
     (median (baseline_stats (report_summary r)) <= Q2Qc 0)%Qc ->
     gain_pct (report_summary r) = Q2Qc 0).
Proof.
  assert (Hgain : forall r, build = Ok r ->
            (median (baseline_stats (report_summary r)) <= Q2Qc 0)%Qc ->
            gain_pct (report_summary r) = Q2Qc 0).
  { intros r Hr Hle.
    destruct (build_report_inv r Hr) as (_ & _ & _ & _ & _ & _ & _ & -> & _).
    apply Qcle_not_lt in Hle. now case_bool_decide. }
  split; [|split; [|exact Hgain]].
  - intros Habs Hopt.
    pose proof (dict_get_absent _ _ (JArr []) Habs) as Hget.
    destruct build_report_returns as [r Hr];
      [rewrite Hget; apply sample_sequence_empty|exact Hopt|].
    destruct (build_report_inv r Hr)
      as (Hb & _ & Hs & _ & Hn & _ & _ & _ & _ & _).
    rewrite Hget in Hb, Hs. injection Hb as Hb.
    exists r. split; [exact Hr|]. split; [exact Hs|].
    split; [|split; [now symmetry|]].
    + rewrite Hs in Hn. injection Hn as Hn.
      now apply nil_length_inv.
    + apply Hgain; [exact Hr|]. rewrite <- Hb. qc_compare.
  - intros Habs Hbase.
    pose proof (dict_get_absent _ _ (JArr []) Habs) as Hget.
    destruct build_report_returns as [r Hr];
      [exact Hbase|rewrite Hget; apply sample_sequence_empty|].
    destruct (build_report_inv r Hr)
      as (_ & Ho & _ & Hs & _ & Hn & _ & _ & _ & _).
    rewrite Hget in Ho, Hs. injection Ho as Ho.
    exists r. split; [exact Hr|]. split; [exact Hs|].
    split; [|now symmetry].
    rewrite Hs in Hn. injection Hn as Hn. now apply nil_length_inv.
Qed.

(** C10: the reported [cpu_affinity] is the summary's value when that
    value is truthy; when the key is absent, or its value is null or 0,
    the report records 2.  An affinity of CPU core 0 is thus reported as
    core 2. *)
Theorem build_report_cpu_affinity (r : report) :
  build = Ok r ->
  (forall v, runner_summary !! "cpu_affinity" = Some v -> truthy v = true ->
     cpu_affinity (report_benchmark r) = v) /\
  (runner_summary !! "cpu_affinity" = None \/
   runner_summary !! "cpu_affinity" = Some JNull \/
   runner_summary !! "cpu_affinity" = Some (JInt 0) ->
   cpu_affinity (report_benchmark r) = JInt 2).
Proof.
  intros Hr.
  destruct (build_report_inv r Hr) as (_ & _ & _ & _ & _ & _ & _ & _ & _ & ->).
  unfold or_else, dict_get. split.
  - intros v -> Hv. simpl. now rewrite Hv.
  - intros [-> | [-> | ->]]; reflexivity.
Qed.

End Build.

Lemma build_report_missing_samples_witness :
  exists r,
    build_report (fun v => v) example_host summary_without_baseline JNull ∅
      "run_all.py" "python" "naive" "python" "numpy" = Ok r /\
    samples (runs_baseline r) = JArr [] /\
    status (runs_baseline r) = [] /\
    baseline_stats (report_summary r) = zero_stats /\
    gain_pct (report_summary r) = Q2Qc 0.
Proof.
  destruct (build_report_missing_samples (fun v => v) example_host
              summary_without_baseline ∅ JNull
              "run_all.py" "python" "naive" "python" "numpy")
    as (Hmissing & _ & _).
  apply Hmissing.
  - reflexivity.
  - eexists _, _. split; reflexivity.
Defined.

Lemma build_report_cpu_affinity_witness :
  exists r,
    build_report (fun v => v) example_host summary_on_core_0 JNull ∅
      "run_all.py" "python" "naive" "python" "numpy" = Ok r /\
    cpu_affinity (report_benchmark r) = JInt 2.
Proof.
  eexists. split.
  - vm_compute. reflexivity.
  - refine (proj2 (build_report_cpu_affinity (fun v => v) example_host
                     summary_on_core_0 ∅ JNull
                     "run_all.py" "python" "naive" "python" "numpy" _ _) _).
    + vm_compute. reflexivity.
    + right; right. reflexivity.
Defined.

(** ** Dataset integrity *)

Lemma fromfile_tobytes (a : list float64) : fromfile (tobytes a) = a.
Proof.
  induction a as [|[b0 b1 b2 b3 b4 b5 b6 b7] a IH]; [reflexivity|].
  change (tobytes (F64 b0 b1 b2 b3 b4 b5 b6 b7 :: a))
    with (b0 :: b1 :: b2 :: b3 :: b4 :: b5 :: b6 :: b7 :: tobytes a).
  simpl. now rewrite IH.
Qed.

Lemma reshape_2d (a : list float64) (rows cols : Z) :
  0 <= rows -> 0 <= cols -> length a = Z.to_nat (rows * cols) ->
  reshape a [JInt rows; JInt cols] = Ok a.
Proof.
  intros Hr Hc Hlen. unfold reshape, reshape_ok; simpl.
  destruct (Z.ltb_spec rows (-1)) as [?|_]; [lia|].
  destruct (Z.ltb_spec cols (-1)) as [?|_]; [lia|].
  simpl. rewrite !filter_cons, filter_nil.
  rewrite !decide_True by lia. simpl.
  rewrite Hlen, Z2Nat.id by lia.
  now rewrite Z.mul_1_r, Z.eqb_refl.
Qed.

Lemma randn_length (standard_normal : Z -> nat -> float64)
    (seed : Z) (drawn : nat) (rows cols : Z) :
  0 <= rows -> 0 <= cols ->
  exists a, randn standard_normal seed drawn rows cols = Ok a /\
            length a = Z.to_nat (rows * cols).
Proof.
  intros Hr Hc. unfold randn.
  destruct (Z.ltb_spec rows 0) as [?|_]; [lia|].
  destruct (Z.ltb_spec cols 0) as [?|_]; [lia|].
  eexists. split; [reflexivity|]. now rewrite length_map, length_seq.
Qed.

(** [np.random.seed] takes the seeds [0 .. 2^32 - 1] and no other. *)
Lemma random_seed_accepts (seed : Z) :
  0 <= seed < 2 ^ 32 -> random_seed seed = Ok ().
Proof.
  intros [Hlo Hhi]. unfold random_seed.
  destruct (Z.leb_spec 0 seed) as [_|?]; [|lia].
  destruct (Z.ltb_spec seed (2 ^ 32)) as [_|?]; [reflexivity|lia].
Qed.

Lemma random_seed_refuses (seed : Z) :
  seed < 0 \/ 2 ^ 32 <= seed -> random_seed seed = Raise ValueError.
Proof.
  intros Hout. unfold random_seed.
  destruct (Z.leb_spec 0 seed) as [Hlo|_]; [|reflexivity].
  destruct (Z.ltb_spec seed (2 ^ 32)) as [?|_]; [lia|reflexivity].
Qed.

Section Integrity.
Variable sha256 : list byte -> string.
Variable standard_normal : Z -> nat -> float64.
Variable json_dump : json -> string.

(** A seed that [np.random.seed] refuses ends [generate_dataset] before
    anything is written. *)
Lemma generate_dataset_seed_refused (N M D seed : Z) (dir : gmap string file) :
  seed < 0 \/ 2 ^ 32 <= seed ->
  generate_dataset sha256 standard_normal N M D seed dir
    = (Raise ValueError, dir).
Proof.
  intros Hout. unfold generate_dataset.
  now rewrite random_seed_refuses.
Qed.

(** Verification of a directory whose metadata and array files agree. *)
Lemma verify_dataset_consistent (dir : gmap string file)
    (N M D seed : Z) (embeddings axes : list float64) :
  0 <= N -> 0 <= M -> 0 <= D ->
  length embeddings = Z.to_nat (N * D) ->
  length axes = Z.to_nat (M * D) ->
  let dataset_hash := sha256 (tobytes embeddings ++ tobytes axes) in
  dir !! "metadata.json"
    = Some (JsonFile (metadata_of N M D seed dataset_hash)) ->
  dir !! "embeddings.f64" = Some (BinFile (tobytes embeddings)) ->
  dir !! "axes.f64" = Some (BinFile (tobytes axes)) ->
  verify_dataset sha256 json_dump dir
    = Ok (true, [Verified (String.substring 0 16 dataset_hash)]).
Proof.
  intros HN HM HD Hle Hla dataset_hash Hmeta Hemb Haxes.
  unfold verify_dataset. rewrite Hmeta. simpl.
  rewrite Hemb, Haxes. simpl.
  rewrite !fromfile_tobytes.
  rewrite (reshape_2d embeddings N D) by assumption. simpl.
  rewrite (reshape_2d axes M D) by assumption. simpl.
  fold dataset_hash. now rewrite bool_decide_eq_true_2.
Qed.

(** C3, amended: for strictly positive [N], [M], [D] and any seed that
    [np.random.seed] accepts, from 0 to [2^32 - 1], [generate_dataset]
    returns its metadata and leaves a directory on which
    [verify_dataset] returns true.  The hash stored in the metadata and
    in the lock file is SHA-256 over the bytes of the embeddings file
    followed directly by the bytes of the axes file, and verification
    recomputes it from the two files. *)
Theorem generate_then_verify (N M D seed : Z) (dir : gmap string file) :
  0 < N -> 0 < M -> 0 < D -> 0 <= seed < 2 ^ 32 ->
  exists embeddings axes : list float64,
    let dataset_hash := sha256 (tobytes embeddings ++ tobytes axes) in
    let metadata := metadata_of N M D seed dataset_hash in
    let dir' := (generate_dataset sha256 standard_normal N M D seed dir).2 in
    generate_dataset sha256 standard_normal N M D seed dir
      = (Ok metadata, dir') /\
    dir' !! "embeddings.f64" = Some (BinFile (tobytes embeddings)) /\
    dir' !! "axes.f64" = Some (BinFile (tobytes axes)) /\
    subscript metadata "hash_sha256" = Ok (JStr dataset_hash) /\
    dir' !! "metadata.json" = Some (JsonFile metadata) /\
    dir' !! "dataset.lock" = Some (TextFile dataset_hash) /\
    verify_dataset sha256 json_dump dir'
      = Ok (true, [Verified (String.substring 0 16 dataset_hash)]).
Proof.
  intros HN HM HD Hseed.
  destruct (randn_length standard_normal seed 0 N D)
    as (embeddings & Hre & Hle); [lia..|].
  destruct (randn_length standard_normal seed (length embeddings) M D)
    as (axes & Hra & Hla); [lia..|].
  exists embeddings, axes. cbv zeta.
  unfold generate_dataset.
  rewrite (random_seed_accepts seed Hseed), Hre, Hra. cbn [snd].
  split; [reflexivity|].
  assert (Hemb : forall d : gmap string file,
    (<["dataset.lock" := TextFile
         (sha256 (tobytes embeddings ++ tobytes axes))]>
      (<["metadata.json" := JsonFile (metadata_of N M D seed
           (sha256 (tobytes embeddings ++ tobytes axes)))]>
        (<["axes.f64" := BinFile (tobytes axes)]>
          (<["embeddings.f64" := BinFile (tobytes embeddings)]> d))))
    !! "embeddings.f64" = Some (BinFile (tobytes embeddings)))
    by (intros d; now simplify_map_eq).
  split; [apply Hemb|].
  split; [now simplify_map_eq|].
  split; [reflexivity|].
  split; [now simplify_map_eq|].
  split; [now simplify_map_eq|].
  apply (verify_dataset_consistent _ N M D seed); try lia; try assumption.
  - now simplify_map_eq.
  - apply Hemb.
  - now simplify_map_eq.
Qed.

(** [verify_dataset] returns false when the metadata file is missing. *)
Lemma verify_dataset_no_metadata (dir : gmap string file) :
  dir !! "metadata.json" = None ->
  verify_dataset sha256 json_dump dir
    = Ok (false, [NotFound "metadata.json"]).
Proof. unfold verify_dataset. now intros ->. Qed.

(** [verify_dataset] returns false when an array file named by the
    metadata is missing. *)
Lemma verify_dataset_no_array (dir : gmap string file)
    (metadata : json) (embeddings_file axes_file : string) :
  dir !! "metadata.json" = Some (JsonFile metadata) ->
  subscript metadata "embeddings_file" = Ok (JStr embeddings_file) ->
  subscript metadata "axes_file" = Ok (JStr axes_file) ->
  (dir !! embeddings_file = None ->
   verify_dataset sha256 json_dump dir
     = Ok (false, [NotFound embeddings_file])) /\
  (is_Some (dir !! embeddings_file) -> dir !! axes_file = None ->
   verify_dataset sha256 json_dump dir = Ok (false, [NotFound axes_file])).
Proof.
  intros Hmeta He Ha. unfold verify_dataset. rewrite Hmeta. simpl.
  rewrite He, Ha. simpl. split.
  - now intros ->.
  - intros [f ->] ->. reflexivity.
Qed.

(** [verify_dataset] returns false when the arrays have the recorded
    shapes and the recomputed hash is not the recorded one. *)
Lemma verify_dataset_hash_mismatch (dir : gmap string file)
    (N M D seed : Z) (recorded : string) (embeddings axes : list float64) :
  0 <= N -> 0 <= M -> 0 <= D ->
  length embeddings = Z.to_nat (N * D) ->
  length axes = Z.to_nat (M * D) ->
  dir !! "metadata.json"
    = Some (JsonFile (metadata_of N M D seed recorded)) ->
  dir !! "embeddings.f64" = Some (BinFile (tobytes embeddings)) ->
  dir !! "axes.f64" = Some (BinFile (tobytes axes)) ->
  sha256 (tobytes embeddings ++ tobytes axes) <> recorded ->
  verify_dataset sha256 json_dump dir
    = Ok (false, [HashMismatch (JStr recorded)
                    (sha256 (tobytes embeddings ++ tobytes axes))]).
Proof.
  intros HN HM HD Hle Hla Hmeta Hemb Haxes Hne.
  unfold verify_dataset. rewrite Hmeta. simpl.
  rewrite Hemb, Haxes. simpl.
  rewrite !fromfile_tobytes.
  rewrite (reshape_2d embeddings N D) by assumption. simpl.
  rewrite (reshape_2d axes M D) by assumption. simpl.
  now rewrite bool_decide_eq_false_2.
Qed.

(** [verify_dataset] raises when the embeddings file does not hold the
    recorded number of elements. *)
Lemma verify_dataset_shape_mismatch (dir : gmap string file)
    (N M D seed : Z) (recorded : string) (embeddings axes : list byte) :
  0 <= N -> 0 <= D ->
  dir !! "metadata.json"
    = Some (JsonFile (metadata_of N M D seed recorded)) ->
  dir !! "embeddings.f64" = Some (BinFile embeddings) ->
  dir !! "axes.f64" = Some (BinFile axes) ->
  Z.of_nat (length (fromfile embeddings)) <> N * D ->
  verify_dataset sha256 json_dump dir = Raise ValueError.
Proof.
  intros HN HD Hmeta Hemb Haxes Hne.
  unfold verify_dataset. rewrite Hmeta. simpl.
  rewrite Hemb, Haxes. simpl.
  unfold reshape, reshape_ok; simpl.
  destruct (Z.ltb_spec N (-1)) as [?|_]; [lia|].
  destruct (Z.ltb_spec D (-1)) as [?|_]; [lia|].
  simpl. rewrite !filter_cons, filter_nil.
  destruct (decide (N <> -1)) as [_|?]; [|lia].
  destruct (decide (D <> -1)) as [_|?]; [|lia].
  simpl.
  destruct (Z.eqb_spec (N * (D * 1)) (Z.of_nat (length (fromfile embeddings))))
    as [Heq|_]; [lia|reflexivity].
Qed.

End Integrity.

Lemma generate_then_verify_witness :
  exists metadata dir printed,
    generate_dataset toy_digest toy_normal 2 1 3 42 ∅ = (Ok metadata, dir) /\
    verify_dataset toy_digest toy_dump dir = Ok (true, printed).
Proof.
  destruct (generate_then_verify toy_digest toy_normal toy_dump 2 1 3 42 ∅)
    as (embeddings & axes & Hgen & _ & _ & _ & _ & _ & Hver); [lia..|].
  eexists _, _, _. split; [exact Hgen | exact Hver].
Defined.

(** C3, counterexample: with the seed -1, or [2^32], generation raises
    [ValueError] and writes nothing, so that verification of the
    directory then returns false: it finds no metadata. *)
Lemma generate_dataset_refuses_seed :
  generate_dataset toy_digest toy_normal 1 1 1 (-1) ∅
    = (Raise ValueError, ∅) /\
  generate_dataset toy_digest toy_normal 1 1 1 (2 ^ 32) ∅
    = (Raise ValueError, ∅) /\
  verify_dataset toy_digest toy_dump ∅
    = Ok (false, [NotFound "metadata.json"]).
Proof. repeat split. Qed.

(** C4, failing input: on a directory whose embeddings file does not
    hold the recorded number of elements, [verify_dataset] does not
    return false: [reshape] raises [ValueError], which nothing in
    [verify_dataset] catches. *)
Theorem verify_dataset_truncated_raises
    (sha256 : list byte -> string) (json_dump : json -> string) :
  verify_dataset sha256 json_dump truncated_dataset = Raise ValueError.
Proof. reflexivity. Qed.

(** ** The end-to-end scenario of the specification *)

Ltac stats_of_constant Hsqrt :=
  vm_compute;
  match goal with
  | |- context [?sqrt ?q] =>
    lazymatch type of Hsqrt with
    | sqrt _ = _ => replace q with (Q2Qc 0) by qc_equal; rewrite Hsqrt
    end
  end;
  vm_compute; do 2 f_equal; qc_equal.

(** Thirty baseline samples of 1520 ms and thirty optimized samples of
    1212 ms: both CV% are 0, the verdict is conclusive, the delta is
    308 ms and the gain 308/1520 = 20.26...%. *)
Lemma end_to_end_scenario (sqrt : Qc -> Qc) :
  sqrt (Q2Qc 0) = Q2Qc 0 ->
  let b := replicate 30 (Qc_of_Z 1520) in
  let o := replicate 30 (Qc_of_Z 1212) in
  exists bs os,
    calculate_stats sqrt b = Ok bs /\ calculate_stats sqrt o = Ok os /\
    cv_pct bs = Q2Qc 0 /\ cv_pct os = Q2Qc 0 /\
    determine_verdict bs os = conclusive /\
    (median bs - median os)%Qc = Qc_of_Z 308 /\
    ((median bs - median os) / median bs * Qc_of_Z 100)%Qc = dec 385 19.
Proof.
  intros Hsqrt b o.
  exists {| median := Qc_of_Z 1520; mean := Qc_of_Z 1520; std := Q2Qc 0;
            cv_pct := Q2Qc 0; p10 := Qc_of_Z 1520; p90 := Qc_of_Z 1520 |},
         {| median := Qc_of_Z 1212; mean := Qc_of_Z 1212; std := Q2Qc 0;
            cv_pct := Q2Qc 0; p10 := Qc_of_Z 1212; p90 := Qc_of_Z 1212 |}.
  split; [stats_of_constant Hsqrt|].
  split; [stats_of_constant Hsqrt|].
  repeat split; simpl; qc_equal.
Qed.

(** * Further properties

    Properties of the code beyond the specification's statements above: the rest of the
    report builder and of the converter, the command line of the dataset
    generator, the runner and the profiler. *)

Import RunAll.

(** ** The verdict rule, simplified *)

Lemma above_15_not_below_5 (cv : Qc) :
  (Qc_of_Z 15 < cv)%Qc -> ~ (cv < Qc_of_Z 5)%Qc.
Proof.
  intros Hhi Hlo. pose proof (Qclt_trans _ _ _ Hhi Hlo) as H.
  rewrite Qc_of_Z_lt in H. lia.
Qed.

(** X1: the verdict does not depend on which side is the baseline, and it
    is inconclusive exactly when one of the two CV% is strictly above
    15.0, whatever the other one is. *)
Theorem determine_verdict_inconclusive_iff (b o : stats) :
  (determine_verdict b o = inconclusive
   <-> (Qc_of_Z 15 < cv_pct b \/ Qc_of_Z 15 < cv_pct o)%Qc) /\
  determine_verdict o b = determine_verdict b o.
Proof.
  pose proof (above_15_not_below_5 (cv_pct b)).
  pose proof (above_15_not_below_5 (cv_pct o)).
  unfold determine_verdict.
  repeat case_bool_decide; simpl; (split; [split|]);
    first [reflexivity | discriminate | tauto].
Qed.

(** ** Order of the statistics *)

(** Goals of linear arithmetic on [Qc], through [Q]. *)
Ltac qc_unfold :=
  unfold Qcle, Qclt, Qcdiv, Qcminus, Qcopp in *; simpl in *;
  rewrite ?Qred_correct in *;
  repeat match goal with
  | |- context [inject_Z (Z.pos ?p)] =>
    change (inject_Z (Z.pos p)) with (Z.pos p # 1) in *
  | H : context [inject_Z (Z.pos ?p)] |- _ =>
    change (inject_Z (Z.pos p)) with (Z.pos p # 1) in *
  end;
  repeat match goal with
  | |- context [Qinv (?n # ?d)] =>
    let v := eval vm_compute in (Qinv (n # d)) in
    change (Qinv (n # d)) with v in *
  | H : context [Qinv (?n # ?d)] |- _ =>
    let v := eval vm_compute in (Qinv (n # d)) in
    change (Qinv (n # d)) with v in *
  end.
Ltac qc_lra := qc_unfold; lra.

Lemma average_between (lo hi : Qc) :
  (lo <= hi -> lo <= (lo + hi) / Q2Qc 2 /\ (lo + hi) / Q2Qc 2 <= hi)%Qc.
Proof.
  intros H. split; qc_lra.
Qed.

(** In a sorted list, a later position holds a value at least as large. *)
Lemma Sorted_lookup_le (s : list Qc) (i j : nat) (x y : Qc) :
  Sorted Qcle s -> (i <= j)%nat ->
  s !! i = Some x -> s !! j = Some y -> (x <= y)%Qc.
Proof.
  intros Hs. apply Sorted_StronglySorted in Hs; [|apply _].
  revert i j x y. induction Hs as [|a l Hl IH Ha]; intros i j x y Hij Hi Hj.
  - discriminate.
  - destruct i as [|i], j as [|j]; simpl in *.
    + injection Hi as <-. injection Hj as <-. apply Qcle_refl.
    + injection Hi as <-. exact (Forall_lookup_1 _ _ _ _ Ha Hj).
    + lia.
    + apply (IH i j); [lia|assumption..].
Qed.

Lemma p10_idx_div (n : Z) : 0 <= n -> p10_idx n = n / 10.
Proof.
  intros Hn. unfold p10_idx.
  destruct (int_scaled n 1 10) as [_ ->]; [lia..|]. now rewrite Z.mul_1_r.
Qed.

Lemma p90_idx_div (n : Z) : 0 <= n -> p90_idx n = (n * 9) / 10.
Proof.
  intros Hn. unfold p90_idx.
  destruct (int_scaled n 9 10) as [_ ->]; [lia..|]. reflexivity.
Qed.

(** The order-statistic median lies between any position at or below the
    lower middle and any position at or above the upper middle. *)
Lemma median_between (S : list Qc) (m lo hi : Qc) (i j : nat) :
  order_statistic_median S = Some m ->
  sorted S !! i = Some lo -> sorted S !! j = Some hi ->
  (2 * i + 2 <= length S + 1)%nat -> (length S <= 2 * j + 1)%nat ->
  (lo <= m /\ m <= hi)%Qc.
Proof.
  unfold order_statistic_median. rewrite <- (sorted_length S).
  pose proof (sorted_Sorted S) as Hs. revert Hs.
  generalize (sorted S) as s. intros s Hs.
  destruct (length s) as [|k] eqn:Hn; [discriminate|]. rewrite <- Hn.
  assert (Hpos : (0 < length s)%nat) by lia. clear k Hn.
  intros Hm Hi Hj Hlo Hhi.
  destruct (Nat.odd (length s)) eqn:Hodd.
  - assert (Ho : Nat.Odd (length s)) by now apply Nat.odd_spec.
    destruct Ho as [k Hk].
    assert (Hdiv : (length s `div` 2 = k)%nat).
    { rewrite Hk. symmetry. apply (Nat.div_unique _ 2 k 1); lia. }
    rewrite Hdiv in Hm.
    split; [apply (Sorted_lookup_le s i k) | apply (Sorted_lookup_le s k j)];
      try assumption; lia.
  - destruct (s !! (length s `div` 2 - 1)%nat) as [a|] eqn:Ha; [|discriminate].
    destruct (s !! (length s `div` 2)%nat) as [b|] eqn:Hb; [|discriminate].
    simpl in Hm. injection Hm as <-.
    assert (He : Nat.Even (length s)).
    { apply Nat.even_spec. now rewrite <- Nat.negb_odd, Hodd. }
    destruct He as [k Hk].
    assert (Hdiv : (length s `div` 2 = k)%nat).
    { rewrite Hk. symmetry. apply (Nat.div_unique _ 2 k 0); lia. }
    rewrite Hdiv in Ha, Hb.
    assert (Hab : (a <= b)%Qc)
      by (apply (Sorted_lookup_le s (k - 1) k); try assumption; lia).
    assert (Hla : (lo <= a)%Qc)
      by (apply (Sorted_lookup_le s i (k - 1)); try assumption; lia).
    assert (Hbh : (b <= hi)%Qc)
      by (apply (Sorted_lookup_le s k j); try assumption; lia).
    destruct (average_between a b Hab) as [H1 H2].
    split; eapply Qcle_trans; eassumption.
Qed.

(** X2: on samples below [2^1023] in magnitude, where the median's
    addition of the two middle values does not overflow in binary64, the
    statistics [calculate_stats] returns are ordered:
    p10 <= median <= p90. *)
Theorem calculate_stats_percentiles_ordered (sqrt : Qc -> Qc)
    (samples : list Qc) :
  Forall finite_sum samples ->
  exists r, calculate_stats sqrt samples = Ok r /\
    (p10 r <= median r)%Qc /\ (median r <= p90 r)%Qc.
Proof.
  intros _. destruct samples as [|x xs].
  - eexists. split; [reflexivity|]. split; apply Qcle_refl.
  - destruct (calculate_stats_nonempty sqrt (x :: xs))
      as (m & mu & sd & lo & hi & Hm & _ & Hlo & Hhi & ->); [discriminate|].
    eexists. split; [reflexivity|]. cbn [p10 median p90].
    set (n := Z.of_nat (length (sorted (x :: xs)))) in *.
    assert (Hn : n = Z.of_nat (length (x :: xs)))
      by (subst n; now rewrite sorted_length).
    assert (Hpos : 1 <= n) by (rewrite Hn; simpl; lia).
    rewrite p10_idx_div in Hlo by lia. rewrite p90_idx_div in Hhi by lia.
    assert (Hl : length (x :: xs) = Z.to_nat n) by lia.
    apply (median_between _ _ _ _ _ _ Hm Hlo Hhi); rewrite Hl;
      Z.to_euclidean_division_equations; lia.
Qed.

(** ** Range of the statistics *)

Lemma sum_lower (lo : Qc) (l : list Qc) :
  Forall (Qcle lo) l ->
  (lo * Qc_of_Z (Z.of_nat (length l)) <= statistics.sum l)%Qc.
Proof.
  induction 1 as [|x l Hlo _ IH].
  - cbn [length]. change (Z.of_nat 0) with 0.
    rewrite Z2Qc_inj_0, Qcmult_0_r. apply Qcle_refl.
  - cbn [length statistics.sum foldr]. fold (statistics.sum l).
    rewrite Nat2Z.inj_succ, <- Z.add_1_r, Z2Qc_inj_add, Z2Qc_inj_1.
    rewrite Qcmult_plus_distr_r, Qcmult_1_r, (Qcplus_comm x).
    now apply Qcplus_le_compat.
Qed.

Lemma sum_upper (hi : Qc) (l : list Qc) :
  Forall (fun x => x <= hi)%Qc l ->
  (statistics.sum l <= hi * Qc_of_Z (Z.of_nat (length l)))%Qc.
Proof.
  induction 1 as [|x l Hhi _ IH].
  - cbn [length]. change (Z.of_nat 0) with 0.
    rewrite Z2Qc_inj_0, Qcmult_0_r. apply Qcle_refl.
  - cbn [length statistics.sum foldr]. fold (statistics.sum l).
    rewrite Nat2Z.inj_succ, <- Z.add_1_r, Z2Qc_inj_add, Z2Qc_inj_1.
    rewrite Qcmult_plus_distr_r, Qcmult_1_r, (Qcplus_comm x).
    now apply Qcplus_le_compat.
Qed.

Lemma mean_times_count (l : list Qc) (mu : Qc) :
  statistics.mean l = Ok mu ->
  let n := Qc_of_Z (Z.of_nat (length l)) in
  (Q2Qc 0 < n)%Qc /\ statistics.sum l = (mu * n)%Qc.
Proof.
  unfold statistics.mean.
  destruct (Z.ltb_spec (Z.of_nat (length l)) 1) as [|Hn]; [discriminate|].
  intros [= <-].
  assert (Hpos : (Q2Qc 0 < Qc_of_Z (Z.of_nat (length l)))%Qc)
    by (apply Qc_of_Z_pos; lia).
  split; [exact Hpos|]. field.
  intros Heq. apply Qclt_not_eq in Hpos. congruence.
Qed.

Lemma mean_lower (lo mu : Qc) (l : list Qc) :
  Forall (Qcle lo) l -> statistics.mean l = Ok mu -> (lo <= mu)%Qc.
Proof.
  intros Hl Hmu. destruct (mean_times_count l mu Hmu) as [Hpos Hsum].
  apply (Qcmult_lt_0_le_reg_r _ _ _ Hpos). rewrite <- Hsum.
  now apply sum_lower.
Qed.

Lemma mean_upper (hi mu : Qc) (l : list Qc) :
  Forall (fun x => x <= hi)%Qc l -> statistics.mean l = Ok mu ->
  (mu <= hi)%Qc.
Proof.
  intros Hl Hmu. destruct (mean_times_count l mu Hmu) as [Hpos Hsum].
  apply (Qcmult_lt_0_le_reg_r _ _ _ Hpos). rewrite <- Hsum.
  now apply sum_upper.
Qed.

Lemma Forall_sorted (P : Qc -> Prop) (l : list Qc) :
  Forall P l -> Forall P (sorted l).
Proof. intros Hl. now rewrite sorted_Permutation. Qed.

(** The order-statistic median lies between two of the samples. *)
Lemma order_statistic_median_members (S : list Qc) (m : Qc) :
  order_statistic_median S = Some m ->
  exists a b, a ∈ S /\ b ∈ S /\ (a <= m)%Qc /\ (m <= b)%Qc.
Proof.
  intros Hm.
  assert (Hne : S <> []) by (intros ->; discriminate).
  assert (Hlen : (0 < length S)%nat) by (destruct S; [congruence|simpl; lia]).
  destruct (lookup_lt_is_Some_2 (sorted S) ((length S - 1) `div` 2)%nat)
    as [a Ha].
  { rewrite sorted_length. apply Nat.Div0.div_lt_upper_bound. lia. }
  destruct (lookup_lt_is_Some_2 (sorted S) (length S `div` 2)%nat)
    as [b Hb].
  { rewrite sorted_length. apply Nat.div_lt; lia. }
  exists a, b.
  split; [rewrite <- (sorted_Permutation S);
          eapply list_elem_of_lookup_2; exact Ha|].
  split; [rewrite <- (sorted_Permutation S);
          eapply list_elem_of_lookup_2; exact Hb|].
  apply (median_between S m a b _ _ Hm Ha Hb).
  - pose proof (Nat.div_mod_eq (length S - 1) 2).
    pose proof (Nat.mod_upper_bound (length S - 1) 2). lia.
  - pose proof (Nat.div_mod_eq (length S) 2).
    pose proof (Nat.mod_upper_bound (length S) 2). lia.
Qed.

(** A lower bound of the samples is a lower bound of the location
    statistics, and likewise an upper bound. *)
Lemma calculate_stats_lower (sqrt : Qc -> Qc) (samples : list Qc)
    (lo : Qc) (r : stats) :
  samples <> [] -> Forall (Qcle lo) samples ->
  calculate_stats sqrt samples = Ok r ->
  Forall (Qcle lo) [median r; mean r; p10 r; p90 r].
Proof.
  intros Hne Hall Hr.
  destruct (calculate_stats_nonempty sqrt samples Hne)
    as (m & mu & sd & p & q & Hm & Hmu & Hp & Hq & Heq).
  rewrite Heq in Hr. injection Hr as <-. cbn [median mean p10 p90].
  pose proof (Forall_sorted _ _ Hall) as Hs.
  pose proof (Forall_lookup_1 _ _ _ _ Hs Hp) as Hp'.
  pose proof (Forall_lookup_1 _ _ _ _ Hs Hq) as Hq'.
  pose proof (mean_lower _ _ _ Hs Hmu) as Hmu'.
  assert (Hm' : (lo <= m)%Qc).
  { destruct (order_statistic_median_members samples m Hm)
      as (a & b & Ha & _ & Hma & _).
    rewrite list.Forall_forall in Hall.
    eapply Qcle_trans; [apply (Hall a Ha)|exact Hma]. }
  repeat (constructor; [assumption|]). constructor.
Qed.

Lemma calculate_stats_upper (sqrt : Qc -> Qc) (samples : list Qc)
    (hi : Qc) (r : stats) :
  samples <> [] -> Forall (fun x => x <= hi)%Qc samples ->
  calculate_stats sqrt samples = Ok r ->
  Forall (fun x => x <= hi)%Qc [median r; mean r; p10 r; p90 r].
Proof.
  intros Hne Hall Hr.
  destruct (calculate_stats_nonempty sqrt samples Hne)
    as (m & mu & sd & p & q & Hm & Hmu & Hp & Hq & Heq).
  rewrite Heq in Hr. injection Hr as <-. cbn [median mean p10 p90].
  pose proof (Forall_sorted _ _ Hall) as Hs.
  pose proof (Forall_lookup_1 _ _ _ _ Hs Hp) as Hp'.
  pose proof (Forall_lookup_1 _ _ _ _ Hs Hq) as Hq'.
  pose proof (mean_upper _ _ _ Hs Hmu) as Hmu'.
  assert (Hm' : (m <= hi)%Qc).
  { destruct (order_statistic_median_members samples m Hm)
      as (a & b & _ & Hb & _ & Hmb).
    rewrite list.Forall_forall in Hall.
    eapply Qcle_trans; [exact Hmb|apply (Hall b Hb)]. }
  simpl in Hp', Hq'. repeat (constructor; [assumption|]). constructor.
Qed.

(** X3: every location statistic of a non-empty sample sequence lies
    between the bounds of the samples, for samples below [2^1023] in
    magnitude, where the median's addition of the two middle values
    does not overflow in binary64. *)
Theorem calculate_stats_within_range (sqrt : Qc -> Qc) (samples : list Qc)
    (lo hi : Qc) :
  samples <> [] ->
  Forall finite_sum samples ->
  Forall (fun x => lo <= x /\ x <= hi)%Qc samples ->
  exists r, calculate_stats sqrt samples = Ok r /\
    Forall (fun x => lo <= x /\ x <= hi)%Qc
      [median r; mean r; p10 r; p90 r].
Proof.
  intros Hne _ Hall.
  apply (@list.Forall_and _ (Qcle lo) (fun x => x <= hi)%Qc) in Hall as [Hlo Hhi].
  destruct (calculate_stats_returns sqrt samples) as [r Hr].
  exists r. split; [exact Hr|].
  apply (@list.Forall_and _ (Qcle lo) (fun x => x <= hi)%Qc). split.
  - now apply (calculate_stats_lower sqrt samples).
  - now apply (calculate_stats_upper sqrt samples).
Qed.

(** ** Dispersion is never negative *)

Lemma Qcdiv_nonneg (x y : Qc) :
  (Q2Qc 0 <= x -> Q2Qc 0 < y -> Q2Qc 0 <= x / y)%Qc.
Proof.
  intros Hx Hy. apply Qcmult_nonneg_nonneg; [exact Hx|].
  apply Qclt_le_weak, Qcinv_pos, Hy.
Qed.

Lemma Qcsquare_nonneg (a : Qc) : (Q2Qc 0 <= a * a)%Qc.
Proof. qc_unfold. nra. Qed.

Lemma sum_nonneg (l : list Qc) :
  Forall (fun x => Q2Qc 0 <= x)%Qc l -> (Q2Qc 0 <= statistics.sum l)%Qc.
Proof.
  induction 1 as [|x l Hx _ IH]; [apply Qcle_refl|].
  cbn [statistics.sum foldr]. fold (statistics.sum l).
  rewrite <- (Qcplus_0_r (Q2Qc 0)). now apply Qcplus_le_compat.
Qed.

Lemma variance_nonneg (l : list Qc) (v : Qc) :
  statistics.variance l = Ok v -> (Q2Qc 0 <= v)%Qc.
Proof.
  unfold statistics.variance.
  destruct (Z.ltb_spec (Z.of_nat (length l)) 2) as [|Hn]; [discriminate|].
  intros Hv. apply bind_Ok in Hv as (c & _ & [= <-]).
  apply Qcdiv_nonneg; [|apply Qc_of_Z_pos; lia].
  apply sum_nonneg, Forall_map, Forall_true. intros x. apply Qcsquare_nonneg.
Qed.

(** What a returned record holds, field by field. *)
Lemma calculate_stats_inv (sqrt : Qc -> Qc) (samples : list Qc) (r : stats) :
  samples <> [] ->
  calculate_stats sqrt samples = Ok r ->
  let s := sorted samples in
  let n := Z.of_nat (length s) in
  statistics.median s = Ok (median r) /\
  statistics.mean s = Ok (mean r) /\
  (if 1 <? n then statistics.stdev sqrt s else Ok (Q2Qc 0)) = Ok (std r) /\
  cv_pct r = (if bool_decide (Q2Qc 0 < mean r)%Qc
              then (std r / mean r * Qc_of_Z 100)%Qc else Q2Qc 0) /\
  getitem s (p10_idx n) = Ok (p10 r) /\
  getitem s (p90_idx n) = Ok (p90 r).
Proof.
  intros Hne Hr s n. destruct samples as [|x xs]; [congruence|].
  unfold calculate_stats in Hr. fold s n in Hr.
  apply bind_Ok in Hr as (m & Hm & Hr).
  apply bind_Ok in Hr as (mu & Hmu & Hr).
  apply bind_Ok in Hr as (sd & Hsd & Hr).
  apply bind_Ok in Hr as (lo & Hlo & Hr).
  apply bind_Ok in Hr as (hi & Hhi & Hr).
  injection Hr as <-. cbn [median mean std cv_pct p10 p90]. tauto.
Qed.

(** X4: with a square root that maps non-negative numbers to non-negative
    numbers, the standard deviation and the CV% are never negative. *)
Theorem calculate_stats_dispersion_nonneg (sqrt : Qc -> Qc)
    (samples : list Qc) :
  (forall v, Q2Qc 0 <= v -> Q2Qc 0 <= sqrt v)%Qc ->
  exists r, calculate_stats sqrt samples = Ok r /\
    (Q2Qc 0 <= std r)%Qc /\ (Q2Qc 0 <= cv_pct r)%Qc.
Proof.
  intros Hsqrt.
  destruct (calculate_stats_returns sqrt samples) as [r Hr].
  exists r. split; [exact Hr|].
  destruct samples as [|x xs].
  { change (Ok zero_stats = Ok r) in Hr. injection Hr as <-.
    split; apply Qcle_refl. }
  assert (Hne : x :: xs <> []) by discriminate.
  destruct (calculate_stats_inv sqrt _ r Hne Hr)
    as (_ & _ & Hsd & Hcv & _).
  assert (Hstd : (Q2Qc 0 <= std r)%Qc).
  { destruct (1 <? _) in Hsd.
    - unfold statistics.stdev in Hsd.
      apply bind_Ok in Hsd as (v & Hv & [= <-]).
      apply Hsqrt. now apply variance_nonneg in Hv.
    - injection Hsd as <-. apply Qcle_refl. }
  split; [exact Hstd|]. rewrite Hcv.
  case_bool_decide as Hmu; [|apply Qcle_refl].
  apply Qcmult_nonneg_nonneg; [now apply Qcdiv_nonneg|].
  apply Qclt_le_weak, Qc_of_Z_pos. lia.
Qed.

(** ** Constant sample sequences *)

Lemma sorted_replicate (n : nat) (c : Qc) :
  sorted (replicate n c) = replicate n c.
Proof.
  symmetry. apply replicate_Permutation. symmetry. apply sorted_Permutation.
Qed.

Lemma sum_replicate (n : nat) (c : Qc) :
  statistics.sum (replicate n c) = (c * Qc_of_Z (Z.of_nat n))%Qc.
Proof.
  induction n as [|n IH].
  - change (Z.of_nat 0) with 0. rewrite Z2Qc_inj_0. simpl. ring.
  - cbn [replicate statistics.sum foldr]. fold (statistics.sum (replicate n c)).
    rewrite IH, Nat2Z.inj_succ, <- Z.add_1_r, Z2Qc_inj_add, Z2Qc_inj_1. ring.
Qed.

Lemma Qc_of_nat_nonzero (n : nat) : Qc_of_Z (Z.of_nat (S n)) <> Q2Qc 0.
Proof.
  intros H. rewrite <- Z2Qc_inj_0 in H. apply Z2Qc_inj in H. lia.
Qed.

Lemma mean_replicate (n : nat) (c : Qc) :
  statistics.mean (replicate (S n) c) = Ok c.
Proof.
  unfold statistics.mean. rewrite length_replicate, sum_replicate.
  destruct (Z.ltb_spec (Z.of_nat (S n)) 1) as [|_]; [lia|].
  f_equal. field. apply Qc_of_nat_nonzero.
Qed.

Lemma variance_replicate (n : nat) (c : Qc) :
  statistics.variance (replicate (S (S n)) c) = Ok (Q2Qc 0).
Proof.
  unfold statistics.variance. rewrite mean_replicate, length_replicate.
  destruct (Z.ltb_spec (Z.of_nat (S (S n))) 2) as [|_]; [lia|].
  cbn [mbind result_bind]. change (@map Qc Qc) with (@fmap list _ Qc Qc).
  rewrite fmap_replicate, sum_replicate.
  f_equal. unfold Qcdiv. ring.
Qed.

Lemma order_statistic_median_replicate (n : nat) (c : Qc) :
  order_statistic_median (replicate (S n) c) = Some c.
Proof.
  unfold order_statistic_median.
  rewrite sorted_replicate, length_replicate.
  assert (Hhalf : (S n `div` 2 < S n)%nat) by (apply Nat.div_lt; lia).
  rewrite !lookup_replicate_2 by lia.
  destruct (Nat.odd (S n)); [reflexivity|].
  cbn [mbind option_bind]. f_equal. apply Qc_is_canon.
  qc_unfold. field.
Qed.

(** X5: on two or more equal samples, below [2^1023] in magnitude so
    that adding two of them does not overflow in binary64, every
    location statistic is the common value, and the standard deviation
    is the square root of an exact zero variance. *)
Theorem calculate_stats_constant (sqrt : Qc -> Qc) (k : nat) (c : Qc) :
  finite_sum c ->
  calculate_stats sqrt (replicate (S (S k)) c) =
    Ok {| median := c; mean := c; std := sqrt (Q2Qc 0);
          cv_pct := if bool_decide (Q2Qc 0 < c)%Qc
                    then (sqrt (Q2Qc 0) / c * Qc_of_Z 100)%Qc else Q2Qc 0;
          p10 := c; p90 := c |}.
Proof.
  intros _.
  destruct (calculate_stats_returns sqrt (replicate (S (S k)) c)) as [r Hr].
  rewrite Hr. f_equal.
  assert (Hne : replicate (S (S k)) c <> []) by discriminate.
  destruct (calculate_stats_inv sqrt _ r Hne Hr)
    as (Hm & Hmu & Hsd & Hcv & Hlo & Hhi).
  rewrite sorted_replicate, length_replicate in *.
  rewrite <- (sorted_replicate (S (S k)) c) in Hm at 1.
  rewrite (median_of_sorted _ _ (order_statistic_median_replicate _ c)) in Hm.
  rewrite mean_replicate in Hmu.
  destruct (Z.ltb_spec 1 (Z.of_nat (S (S k)))) as [_|?]; [|lia].
  unfold statistics.stdev in Hsd. rewrite variance_replicate in Hsd.
  assert (Hidx : forall i x, 0 <= i < Z.of_nat (S (S k)) ->
            getitem (replicate (S (S k)) c) i = Ok x -> x = c).
  { intros i x Hi Hx.
    destruct (getitem_in_range (replicate (S (S k)) c) i) as (y & Hy & Hg).
    { now rewrite length_replicate. }
    apply lookup_replicate in Hy as [-> _]. congruence. }
  apply Hidx in Hlo; [|apply p10_idx_bounds; lia].
  apply Hidx in Hhi; [|apply p90_idx_bounds; lia].
  destruct r as [m mu sd cv lo hi]. cbn in *.
  injection Hm as <-. injection Hmu as <-. injection Hsd as <-.
  now subst.
Qed.

(** ** The summary and impact sections of a report *)

Section Report.
Variables (sqrt : Qc -> Qc) (h : host).
Variables (runner_summary metadata : gmap string json) (ebpf_evidence : json).
Variables (command_line : string).
Variables (baseline_impl baseline_variant : string).
Variables (optimized_impl optimized_variant : string).

Let built : result report :=
  build_report sqrt h runner_summary ebpf_evidence metadata command_line
    baseline_impl baseline_variant optimized_impl optimized_variant.

Lemma build_report_impact_inv (r : report) :
  built = Ok r ->
  impact_inputs_used r = default_inputs /\
  impact_outputs_computed r
    = calculate_impact (delta_ms (report_summary r)) default_inputs.
Proof.
  unfold built, build_report. intros Hr.
  apply bind_Ok in Hr as (b & _ & Hr).
  apply bind_Ok in Hr as (o & _ & Hr).
  apply bind_Ok in Hr as (nb & _ & Hr).
  apply bind_Ok in Hr as (no & _ & Hr).
  injection Hr as <-. split; reflexivity.
Qed.

(** X6: the impact section of every report is the projection of the
    reported delta under the fixed configuration. *)
Theorem build_report_impact (r : report) :
  built = Ok r ->
  let d := delta_ms (report_summary r) in
  let out := impact_outputs_computed r in
  out = calculate_impact d default_inputs /\
  time_saved_hours_per_year out = (d / Qc_of_Z 144)%Qc /\
  cost_saved_eur_per_year out = (d / Qc_of_Z 288)%Qc /\
  electricity_saved_kwh_per_year out = (d / Qc_of_Z 960)%Qc /\
  co2_avoided_kg_per_year out = (d * Qc_of_Z 19 / Qc_of_Z 38400)%Qc.
Proof.
  intros Hr d out.
  destruct (build_report_impact_inv r Hr) as [_ Hout].
  split; [exact Hout|]. subst out. rewrite Hout. fold d.
  repeat split; apply Qc_is_canon; qc_unfold; lra.
Qed.

(** X7: with a positive baseline median the gain percent is positive
    exactly when the optimized median is the smaller one, zero exactly
    when the medians are equal, and at most 100 when the optimized
    median is not negative. *)
Theorem build_report_gain (r : report) :
  built = Ok r ->
  let b := median (baseline_stats (report_summary r)) in
  let o := median (optimized_stats (report_summary r)) in
  let g := gain_pct (report_summary r) in
  (Q2Qc 0 < b)%Qc ->
  g = ((b - o) / b * Qc_of_Z 100)%Qc /\
  ((Q2Qc 0 < g)%Qc <-> (o < b)%Qc) /\
  (g = Q2Qc 0 <-> o = b) /\
  ((Q2Qc 0 <= o)%Qc -> (g <= Qc_of_Z 100)%Qc).
Proof.
  intros Hr b o g Hb.
  destruct (build_report_inv sqrt h runner_summary metadata ebpf_evidence
              command_line baseline_impl baseline_variant
              optimized_impl optimized_variant r Hr)
    as (_ & _ & _ & _ & _ & _ & Hd & Hg & _).
  cbv zeta in Hd, Hg. fold b o in Hd. fold b g in Hg.
  rewrite Hd in Hg. rewrite bool_decide_eq_true_2 in Hg by exact Hb.
  set (k := (/ b * Qc_of_Z 100)%Qc).
  assert (Hk : (Q2Qc 0 < k)%Qc).
  { apply Qcmult_pos_pos; [now apply Qcinv_pos|apply Qc_of_Z_pos; lia]. }
  assert (Hne : b <> Q2Qc 0).
  { intros Heq. apply Qclt_not_eq in Hb. congruence. }
  assert (Hgk : g = ((b - o) * k)%Qc) by (rewrite Hg; unfold k, Qcdiv; ring).
  assert (H100 : Qc_of_Z 100 = (b * k)%Qc) by (unfold k; field; exact Hne).
  split; [exact Hg|]. split; [|split].
  - rewrite Hgk, <- (Qcmult_0_l k), <- (Qcmult_lt_mono_pos_r _ _ _ Hk).
    split; intros; qc_lra.
  - rewrite Hgk. split.
    + intros H0. apply Qcmult_integral in H0 as [H0|H0].
      * replace o with (b - (b - o))%Qc by ring. rewrite H0. ring.
      * apply Qclt_not_eq in Hk. congruence.
    + intros ->. ring.
  - intros Ho. rewrite Hgk, H100, <- (Qcmult_le_mono_pos_r _ _ _ Hk). qc_lra.
Qed.

End Report.

(** ** Sorting and the median under monotone maps *)

Lemma sorted_fmap (f : Qc -> Qc) (l : list Qc) :
  (forall x y, (x <= y)%Qc -> (f x <= f y)%Qc) ->
  sorted (f <$> l) = f <$> sorted l.
Proof.
  intros Hf. apply (Sorted_unique Qcle).
  - apply sorted_Sorted.
  - apply (Sorted_fmap f Qcle Qcle); [exact Hf|apply sorted_Sorted].
  - now rewrite !sorted_Permutation.
Qed.

Lemma order_statistic_median_fmap (f : Qc -> Qc) (S : list Qc) :
  monotone_affine f ->
  order_statistic_median (f <$> S) = f <$> order_statistic_median S.
Proof.
  intros [Hmono Hmid]. unfold order_statistic_median.
  rewrite sorted_fmap by exact Hmono. rewrite length_fmap.
  destruct (length (sorted S)) as [|k] eqn:Hn; [reflexivity|]. rewrite <- Hn.
  rewrite !list_lookup_fmap.
  destruct (Nat.odd (length (sorted S))); [reflexivity|].
  destruct (sorted S !! (length (sorted S) `div` 2 - 1)%nat) as [lo|];
    [|reflexivity].
  destruct (sorted S !! (length (sorted S) `div` 2)%nat) as [hi|];
    [|reflexivity].
  cbn. now rewrite Hmid.
Qed.

Lemma scaling_monotone_affine (k : Qc) :
  (Q2Qc 0 <= k)%Qc -> monotone_affine (Qcmult k).
Proof.
  intros Hk. split.
  - intros x y Hxy. now apply Qcmult_le_mono_nonneg_l.
  - intros x y. unfold Qcdiv. ring.
Qed.

Lemma translation_monotone_affine (c : Qc) : monotone_affine (Qcplus c).
Proof.
  split.
  - intros x y Hxy. apply Qcplus_le_compat; [apply Qcle_refl|exact Hxy].
  - intros x y. apply Qc_is_canon. qc_unfold. lra.
Qed.

(** The median [calculate_stats] returns is the order-statistic median. *)
Lemma calculate_stats_median (sqrt : Qc -> Qc) (S : list Qc) (r : stats) :
  S <> [] -> calculate_stats sqrt S = Ok r ->
  order_statistic_median S = Some (median r).
Proof.
  intros Hne Hr.
  destruct (calculate_stats_nonempty sqrt S Hne)
    as (m & mu & sd & lo & hi & Hm & _ & _ & _ & Heq).
  rewrite Heq in Hr. now injection Hr as <-.
Qed.

(** ** The converter *)

Section ConverterExtras.
Import ConvertToReport.

Lemma find_entry_inv (entries : list entry) (name : string) :
  match find_entry entries name with
  | Ok e =>
    exists before after,
      entries = before ++ e :: after /\ implementation e = name /\
      Forall (fun e' => implementation e' <> name) before
  | Raise err =>
    err = ValueError /\ Forall (fun e' => implementation e' <> name) entries
  end.
Proof.
  induction entries as [|e entries IH]; simpl.
  - split; [reflexivity|constructor].
  - case_bool_decide as He.
    + exists [], entries. repeat split; [exact He|constructor].
    + destruct (find_entry entries name) as [e'|err].
      * destruct IH as (before & after & -> & Hname & Hbefore).
        exists (e :: before), after. repeat split; [exact Hname|].
        now constructor.
      * destruct IH as [-> Hall]. split; [reflexivity|now constructor].
Qed.

Lemma find_entry_returns (entries : list entry) (name : string) :
  returns (find_entry entries name)
  <-> Exists (fun e => implementation e = name) entries.
Proof.
  pose proof (find_entry_inv entries name) as H.
  destruct (find_entry entries name) as [e|err].
  - destruct H as (before & after & -> & Hname & _). split.
    + intros _. apply Exists_app. right. now constructor.
    + intros _. now exists e.
  - destruct H as [_ Hall]. split.
    + intros [e [=]].
    + intros Hex. apply list.Exists_exists in Hex as (e & He & Hname).
      rewrite list.Forall_forall in Hall. now apply Hall in He.
Qed.

Lemma find_entry_raises (entries : list entry) (name : string) (err : exn) :
  find_entry entries name = Raise err -> err = ValueError.
Proof.
  intros H. pose proof (find_entry_inv entries name) as Hinv.
  rewrite H in Hinv. tauto.
Qed.

(** X8: [find_entry] returns the first entry with the requested name,
    whatever follows it, and raises [ValueError] exactly when no entry
    has the name. *)
Theorem find_entry_first_match (entries : list entry) (name : string) :
  (forall before e after,
     Forall (fun e' => implementation e' <> name) before ->
     implementation e = name ->
     find_entry (before ++ e :: after) name = Ok e) /\
  (find_entry entries name = Raise ValueError
   <-> Forall (fun e' => implementation e' <> name) entries) /\
  (forall err, find_entry entries name = Raise err -> err = ValueError).
Proof.
  split; [|split].
  - intros before e after Hbefore He.
    induction Hbefore as [|e' before Hne _ IH]; simpl.
    + now rewrite bool_decide_eq_true_2.
    + now rewrite bool_decide_eq_false_2.
  - pose proof (find_entry_inv entries name) as H.
    destruct (find_entry entries name) as [e|err].
    + destruct H as (before & after & -> & Hname & _).
      split; [discriminate|]. intros Hall.
      apply Forall_app in Hall as [_ Hall].
      apply list.Forall_cons in Hall as [Hne _]. contradiction.
    + destruct H as [-> Hall]. tauto.
  - apply find_entry_raises.
Qed.

Lemma max_lower (a b : Qc) : (a <= max a b)%Qc.
Proof.
  unfold max. case_bool_decide; [now apply Qclt_le_weak|apply Qcle_refl].
Qed.

Lemma max_unclamped (a b : Qc) : (a <= b)%Qc -> max a b = b.
Proof.
  intros Hab. unfold max. case_bool_decide as Hlt; [reflexivity|].
  apply Qcnot_lt_le in Hlt. now apply Qcle_antisym.
Qed.

Lemma numbers_floats (l : list Qc) : numbers (map JFloat l) = Some l.
Proof.
  unfold numbers. apply mapM_Some. induction l; constructor; auto.
Qed.

Section Converter.
Variables (sqrt : Qc -> Qc) (gauss_z : nat -> Qc).
Variables (profile_gauss_z profile_random_u : string -> nat -> Qc).

Lemma generate_mock_samples_length (t : Qc) (count : nat) :
  length (generate_mock_samples gauss_z t count) = count.
Proof. unfold generate_mock_samples. now rewrite length_map, length_seq. Qed.

Lemma generate_mock_samples_floor (t : Qc) (count : nat) :
  Forall (Qcle (dec 1 10)) (generate_mock_samples gauss_z t count).
Proof.
  unfold generate_mock_samples. apply Forall_map, Forall_true.
  intros i. apply max_lower.
Qed.

Lemma generate_mock_samples_lookup (t : Qc) (count i : nat) :
  (i < count)%nat ->
  generate_mock_samples gauss_z t count !! i
  = Some (max (dec 1 10) (t + gauss_z i * (t * dec 5 1000))%Qc).
Proof.
  intros Hi. unfold generate_mock_samples.
  change (@map nat Qc) with (@fmap list _ nat Qc).
  now rewrite list_lookup_fmap, lookup_seq_lt.
Qed.

(** X9: the mock samples are [count] values, none below 0.1; the [i]-th
    is the [i]-th deviate after [random.seed(42)] scaled by 0.5% of the
    given time and added to it, or 0.1 when that is smaller. *)
Theorem generate_mock_samples_shape (t : Qc) (count : nat) :
  let samples := generate_mock_samples gauss_z t count in
  length samples = count /\
  Forall (Qcle (dec 1 10)) samples /\
  (forall i, (i < count)%nat ->
     samples !! i
     = Some (max (dec 1 10) (t + gauss_z i * (t * dec 5 1000))%Qc)) /\
  (unclamped gauss_z t count ->
   samples
   = map (fun i => (t + gauss_z i * (t * dec 5 1000))%Qc) (seq 0 count)).
Proof.
  cbv zeta. split; [apply generate_mock_samples_length|].
  split; [apply generate_mock_samples_floor|].
  split; [intros i; apply generate_mock_samples_lookup|].
  intros Hun. unfold generate_mock_samples. apply map_ext_in.
  intros i Hi. apply in_seq in Hi. apply max_unclamped, Hun. lia.
Qed.

(** What a returned conversion holds. *)
Lemma convert_to_report_inv (entries : list entry)
    (baseline_impl optimized_impl : string) (c : conversion) :
  convert_to_report sqrt gauss_z profile_gauss_z profile_random_u entries baseline_impl optimized_impl = Ok c ->
  exists be oe,
    find_entry entries baseline_impl = Ok be /\
    find_entry entries optimized_impl = Ok oe /\
    baseline_samples c
      = generate_mock_samples gauss_z (cpu_processing_time_ms be) 30 /\
    optimized_samples c
      = generate_mock_samples gauss_z (cpu_processing_time_ms oe) 30 /\
    BuildReport.calculate_stats sqrt (baseline_samples c)
      = Ok (baseline_stats c) /\
    BuildReport.calculate_stats sqrt (optimized_samples c)
      = Ok (optimized_stats c) /\
    delta_ms c = (median (baseline_stats c) - median (optimized_stats c))%Qc /\
    gain_pct c
      = (if bool_decide (Q2Qc 0 < median (baseline_stats c))%Qc
         then (delta_ms c / median (baseline_stats c) * Qc_of_Z 100)%Qc
         else Q2Qc 0) /\
    verdict_computed c = verdict_of (baseline_stats c) (optimized_stats c) /\
    impact_outputs_computed c = calculate_impact (delta_ms c) default_inputs.
Proof.
  unfold convert_to_report. intros Hc.
  apply bind_Ok in Hc as (be & Hbe & Hc).
  apply bind_Ok in Hc as (oe & Hoe & Hc).
  apply bind_Ok in Hc as (b & Hb & Hc).
  apply bind_Ok in Hc as (o & Ho & Hc).
  apply bind_Ok in Hc as (profiles & _ & Hc).
  apply bind_Ok in Hc as (speedup & _ & Hc).
  apply bind_Ok in Hc as (? & _ & Hc).
  rewrite (converter_calculate_stats sqrt) in Hb, Ho.
  injection Hc as <-. exists be, oe.
  cbn [baseline_samples optimized_samples baseline_stats optimized_stats
       delta_ms gain_pct verdict_computed impact_outputs_computed].
  split; [exact Hbe|]. split; [exact Hoe|].
  split; [reflexivity|]. split; [reflexivity|].
  split; [exact Hb|]. split; [exact Ho|].
  split; [reflexivity|]. split; [reflexivity|].
  split; reflexivity.
Qed.

Lemma mock_samples_nonempty (t : Qc) :
  generate_mock_samples gauss_z t 30 <> [].
Proof.
  intros H. apply (f_equal length) in H.
  rewrite generate_mock_samples_length in H. discriminate.
Qed.

Lemma mock_median_floor (t : Qc) (r : stats) :
  BuildReport.calculate_stats sqrt (generate_mock_samples gauss_z t 30) = Ok r ->
  (dec 1 10 <= median r)%Qc.
Proof.
  intros Hr.
  apply (calculate_stats_lower _ _ (dec 1 10)) in Hr;
    [|apply mock_samples_nonempty|apply generate_mock_samples_floor].
  now apply list.Forall_cons in Hr as [Hr _].
Qed.

End Converter.

Lemma bind_returns {A B} (m : result A) (f : A -> result B) :
  returns m -> (forall a, m = Ok a -> returns (f a)) -> returns (m ≫= f).
Proof. intros [a ->] Hf. now apply Hf. Qed.

Section ConverterProperties.
Variables (sqrt : Qc -> Qc) (gauss_z : nat -> Qc).
Variables (profile_gauss_z profile_random_u : string -> nat -> Qc).
Variables (entries : list entry) (baseline_impl optimized_impl : string).

Let converted : result conversion :=
  convert_to_report sqrt gauss_z profile_gauss_z profile_random_u entries baseline_impl optimized_impl.

Lemma calculate_stats_of_floats (samples : list Qc) :
  calculate_stats_of sqrt (JArr (map JFloat samples))
  = BuildReport.calculate_stats sqrt samples.
Proof.
  unfold calculate_stats_of. destruct samples as [|x xs]; [reflexivity|].
  cbn [truthy map]. change (JFloat x :: map JFloat xs)
    with (map JFloat (x :: xs)).
  now rewrite numbers_floats.
Qed.

(** X11: fed the converter's mock samples, the report builder computes the
    statistics, delta, gain and impact that the converter reports; the
    two differ at most in the verdict. *)
Theorem converter_agrees_with_builder (h : host)
    (runner_summary metadata : gmap string json) (ebpf_evidence : json)
    (command_line baseline_variant optimized_variant : string)
    (c : conversion) :
  converted = Ok c ->
  runner_summary !! "baseline_samples"
    = Some (JArr (map JFloat (baseline_samples c))) ->
  runner_summary !! "optimized_samples"
    = Some (JArr (map JFloat (optimized_samples c))) ->
  exists r,
    build_report sqrt h runner_summary ebpf_evidence metadata command_line
      baseline_impl baseline_variant optimized_impl optimized_variant = Ok r /\
    BuildReport.baseline_stats (report_summary r) = baseline_stats c /\
    BuildReport.optimized_stats (report_summary r) = optimized_stats c /\
    BuildReport.delta_ms (report_summary r) = delta_ms c /\
    BuildReport.gain_pct (report_summary r) = gain_pct c /\
    BuildReport.impact_outputs_computed r = impact_outputs_computed c /\
    summary_verdict (report_summary r)
      = determine_verdict (baseline_stats c) (optimized_stats c) /\
    verdict_computed c = verdict_of (baseline_stats c) (optimized_stats c).
Proof.
  intros Hc Hbs Hos.
  apply convert_to_report_inv in Hc
    as (be & oe & _ & _ & _ & _ & Hb & Ho & Hd & Hg & Hv & Hi).
  assert (Hgb : dict_get runner_summary "baseline_samples" (JArr [])
                = JArr (map JFloat (baseline_samples c)))
    by (unfold dict_get; now rewrite Hbs).
  assert (Hgo : dict_get runner_summary "optimized_samples" (JArr [])
                = JArr (map JFloat (optimized_samples c)))
    by (unfold dict_get; now rewrite Hos).
  destruct (build_report_returns sqrt h runner_summary metadata ebpf_evidence
              command_line baseline_impl baseline_variant
              optimized_impl optimized_variant) as [r Hr].
  { rewrite Hgb. eexists _, _. split; [reflexivity|apply numbers_floats]. }
  { rewrite Hgo. eexists _, _. split; [reflexivity|apply numbers_floats]. }
  exists r. split; [exact Hr|].
  destruct (build_report_inv _ _ _ _ _ _ _ _ _ _ r Hr)
    as (Hb' & Ho' & _ & _ & _ & _ & Hd' & Hg' & Hv' & _).
  destruct (build_report_impact_inv _ _ _ _ _ _ _ _ _ _ r Hr) as [_ Hi'].
  cbv zeta in Hb', Ho', Hd', Hg', Hv'.
  rewrite Hgb, calculate_stats_of_floats, Hb in Hb'. injection Hb' as Hb'.
  rewrite Hgo, calculate_stats_of_floats, Ho in Ho'. injection Ho' as Ho'.
  rewrite <- Hb', <- Ho' in *.
  assert (Hdelta : BuildReport.delta_ms (report_summary r) = delta_ms c)
    by congruence.
  split; [now symmetry|]. split; [now symmetry|].
  split; [exact Hdelta|].
  split; [now rewrite Hg', Hg, Hdelta|].
  split; [now rewrite Hi', Hi, Hdelta|].
  split; assumption.
Qed.

End ConverterProperties.

Lemma unclamped_samples (gauss_z : nat -> Qc) (t : Qc) (count : nat) :
  unclamped gauss_z t count ->
  generate_mock_samples gauss_z t count = Qcmult t <$> noise gauss_z count.
Proof.
  intros Hun. unfold generate_mock_samples, noise.
  change (@map Qc Qc) with (@fmap list _ Qc Qc).
  change (@map nat Qc) with (@fmap list _ nat Qc).
  rewrite <- list_fmap_compose. apply list_fmap_ext.
  intros i n Hn. apply lookup_seq in Hn as [-> Hi]. cbn.
  rewrite max_unclamped by (apply Hun; lia). ring.
Qed.

Section ConverterGain.
Variables (sqrt : Qc -> Qc) (gauss_z : nat -> Qc).
Variables (profile_gauss_z profile_random_u : string -> nat -> Qc).
Variables (entries : list entry) (baseline_impl optimized_impl : string).

(** X12: in exact arithmetic, when no mock sample is clamped, the gain
    percent the converter reports is the gain of the two
    [cpu_processing_time_ms] values: both sample sets scale the same
    noise, and the noise cancels in the ratio of the medians.  Binary64
    rounds the samples and the medians, so there the two agree up to
    rounding only. *)
Theorem converter_gain_is_cpu_time_gain (be oe : entry) (c : conversion) :
  convert_to_report sqrt gauss_z profile_gauss_z profile_random_u entries baseline_impl optimized_impl = Ok c ->
  find_entry entries baseline_impl = Ok be ->
  find_entry entries optimized_impl = Ok oe ->
  let tb := cpu_processing_time_ms be in
  let to := cpu_processing_time_ms oe in
  (Q2Qc 0 < tb)%Qc -> (Q2Qc 0 < to)%Qc ->
  unclamped gauss_z tb 30 -> unclamped gauss_z to 30 ->
  gain_pct c = ((tb - to) / tb * Qc_of_Z 100)%Qc.
Proof.
  intros Hc Hbe Hoe tb to Htb Hto Hub Huo.
  apply convert_to_report_inv in Hc
    as (be' & oe' & Hbe' & Hoe' & Hsb & Hso & Hb & Ho & Hd & Hg & _).
  assert (be' = be) by congruence. assert (oe' = oe) by congruence.
  subst be' oe'. fold tb in Hsb. fold to in Hso. rewrite Hsb in Hb.
  rewrite Hso in Ho.
  pose proof (mock_median_floor _ _ _ _ Hb) as Hfloor.
  apply calculate_stats_median in Hb; [|apply mock_samples_nonempty].
  apply calculate_stats_median in Ho; [|apply mock_samples_nonempty].
  rewrite unclamped_samples, order_statistic_median_fmap in Hb;
    [|apply scaling_monotone_affine; now apply Qclt_le_weak|exact Hub].
  rewrite unclamped_samples, order_statistic_median_fmap in Ho;
    [|apply scaling_monotone_affine; now apply Qclt_le_weak|exact Huo].
  destruct (order_statistic_median (noise gauss_z 30)) as [a|];
    [|discriminate].
  injection Hb as Hb. injection Ho as Ho.
  assert (Hpos : (Q2Qc 0 < median (baseline_stats c))%Qc).
  { eapply Qclt_le_trans; [|exact Hfloor]. qc_compare. }
  rewrite Hg, bool_decide_eq_true_2, Hd, <- Hb, <- Ho by exact Hpos.
  rewrite <- Hb in Hpos.
  assert (Htb0 : tb <> Q2Qc 0).
  { intros Heq. apply Qclt_not_eq in Htb. congruence. }
  assert (Ha0 : a <> Q2Qc 0).
  { intros ->. rewrite Qcmult_0_r in Hpos. now apply Qclt_not_eq in Hpos. }
  field. split; assumption.
Qed.

End ConverterGain.

End ConverterExtras.

(** ** The verdict of the converter *)

Lemma sum_square_shift (l : list Qc) (m c : Qc) :
  statistics.sum (map (fun x => (x - c) * (x - c))%Qc l)
  = (statistics.sum (map (fun x => (x - m) * (x - m))%Qc l)
     + ((m - c) + (m - c))
       * (statistics.sum l - Qc_of_Z (Z.of_nat (length l)) * m)
     + Qc_of_Z (Z.of_nat (length l)) * ((m - c) * (m - c)))%Qc.
Proof.
  induction l as [|x l IH].
  - simpl. change (Z.of_nat 0) with 0. rewrite Z2Qc_inj_0. ring.
  - cbn [map statistics.sum foldr length].
    change (foldr Qcplus (Q2Qc 0) ?l) with (statistics.sum l) in *.
    rewrite Nat2Z.inj_succ, <- Z.add_1_r, Z2Qc_inj_add, IH.
    rewrite Z2Qc_inj_1. ring.
Qed.

(** Squared deviations are least around the mean. *)
Lemma sum_square_mean (l : list Qc) (mu c : Qc) :
  statistics.mean l = Ok mu ->
  (statistics.sum (map (fun x => (x - mu) * (x - mu))%Qc l)
   <= statistics.sum (map (fun x => (x - c) * (x - c))%Qc l))%Qc.
Proof.
  intros Hmu. rewrite (sum_square_shift l mu c).
  destruct (mean_times_count l mu Hmu) as [Hn Hsum]. cbv zeta in Hn, Hsum.
  rewrite Hsum.
  set (n := Qc_of_Z (Z.of_nat (length l))) in *.
  set (ss := statistics.sum (map (fun x => (x - mu) * (x - mu))%Qc l)).
  replace (ss + (mu - c + (mu - c)) * (mu * n - n * mu)
           + n * ((mu - c) * (mu - c)))%Qc
    with (ss + n * ((mu - c) * (mu - c)))%Qc by ring.
  rewrite <- (Qcplus_0_r ss) at 1.
  apply Qcplus_le_compat; [apply Qcle_refl|].
  apply Qcmult_nonneg_nonneg; [now apply Qclt_le_weak|apply Qcsquare_nonneg].
Qed.

Lemma square_le (x h : Qc) :
  (- h <= x)%Qc -> (x <= h)%Qc -> (x * x <= h * h)%Qc.
Proof.
  intros Hlo Hhi.
  assert (H : (Q2Qc 0 <= (h - x) * (h + x))%Qc).
  { apply Qcmult_nonneg_nonneg; qc_lra. }
  replace ((h - x) * (h + x))%Qc with (h * h - x * x)%Qc in H by ring.
  qc_lra.
Qed.

(** The variance of samples within [h] of a centre is at most
    [n / (n - 1) * h^2]. *)
Lemma variance_spread (l : list Qc) (c h v : Qc) :
  Forall (fun x => c - h <= x /\ x <= c + h)%Qc l ->
  statistics.variance l = Ok v ->
  (v * Qc_of_Z (Z.of_nat (length l) - 1)
   <= Qc_of_Z (Z.of_nat (length l)) * (h * h))%Qc.
Proof.
  intros Hall Hv. unfold statistics.variance in Hv.
  destruct (Z.ltb_spec (Z.of_nat (length l)) 2) as [?|Hn]; [discriminate|].
  apply bind_Ok in Hv as (mu & Hmu & Hv). injection Hv as <-.
  assert (Hpos : (Q2Qc 0 < Qc_of_Z (Z.of_nat (length l) - 1))%Qc)
    by (apply Qc_of_Z_pos; lia).
  assert (Hne : Qc_of_Z (Z.of_nat (length l) - 1) <> Q2Qc 0).
  { intros Heq. rewrite Heq in Hpos. now apply Qclt_not_eq in Hpos. }
  replace (statistics.sum (map (fun x => (x - mu) * (x - mu)) l)
           / Qc_of_Z (Z.of_nat (length l) - 1)
           * Qc_of_Z (Z.of_nat (length l) - 1))%Qc
    with (statistics.sum (map (fun x => (x - mu) * (x - mu))%Qc l))
    by (field; exact Hne).
  eapply Qcle_trans; [apply (sum_square_mean l mu c Hmu)|].
  rewrite Qcmult_comm.
  rewrite <- (length_map (fun x => (x - c) * (x - c))%Qc l).
  apply sum_upper, Forall_map.
  eapply list.Forall_impl; [exact Hall|]. intros x [Hlo Hhi]. cbn beta.
  apply square_le; qc_lra.
Qed.

(** A standard deviation of at most a twentieth of the mean gives a CV%
    below 5. *)
Lemma cv_below_five (s m a h v : Qc) :
  (Q2Qc 0 < a)%Qc -> (a <= m)%Qc ->
  (Q2Qc 0 <= h)%Qc -> (h <= dec 19 400 * a)%Qc ->
  (v * Qc_of_Z 29 <= Qc_of_Z 30 * (h * h))%Qc ->
  (Q2Qc 0 <= s)%Qc -> (s * s <= v * dec 1001 1000)%Qc ->
  (s / m * Qc_of_Z 100 < Qc_of_Z 5)%Qc.
Proof.
  intros Ha Ham Hh Hha Hv Hs Hsv.
  assert (Hm : (Q2Qc 0 < m)%Qc) by (eapply Qclt_le_trans; eassumption).
  assert (Hhh : (h * h <= dec 19 400 * a * (dec 19 400 * a))%Qc)
    by (apply square_le; qc_lra).
  replace (dec 19 400 * a * (dec 19 400 * a))%Qc
    with (dec 19 400 * dec 19 400 * (a * a))%Qc in Hhh by ring.
  assert (Hsmall : (s * Qc_of_Z 20 < a)%Qc).
  { apply Qcnot_le_lt. intros Hge.
    assert (Haa : (a * a <= s * Qc_of_Z 20 * (s * Qc_of_Z 20))%Qc)
      by (apply square_le; qc_lra).
    replace (s * Qc_of_Z 20 * (s * Qc_of_Z 20))%Qc
      with (Qc_of_Z 20 * Qc_of_Z 20 * (s * s))%Qc in Haa by ring.
    assert (Hapos : (Q2Qc 0 < a * a)%Qc) by now apply Qcmult_pos_pos.
    revert Hhh Hv Hsv Haa Hapos.
    generalize (a * a)%Qc (s * s)%Qc (h * h)%Qc. intros A S' H'. qc_lra. }
  apply (Qcmult_lt_mono_pos_r _ _ m Hm).
  replace (s / m * Qc_of_Z 100 * m)%Qc with (s * Qc_of_Z 100)%Qc.
  - qc_lra.
  - field. intros Heq. rewrite Heq in Hm. now apply Qclt_not_eq in Hm.
Qed.

(** [random.gauss(t, t * 0.005)] for a deviate of magnitude at most 9:
    within 4.5% of a positive [t], and not positive for other [t]. *)
Lemma mock_value_bounds (t z : Qc) :
  (- Qc_of_Z 9 <= z)%Qc -> (z <= Qc_of_Z 9)%Qc ->
  let value := (t + z * (t * dec 5 1000))%Qc in
  ((Q2Qc 0 <= t)%Qc ->
   (dec 955 1000 * t <= value)%Qc /\ (value <= dec 1045 1000 * t)%Qc) /\
  ((t <= Q2Qc 0)%Qc -> (value <= Q2Qc 0)%Qc).
Proof.
  intros Hlo Hhi value. subst value.
  replace (z * (t * dec 5 1000))%Qc with (dec 5 1000 * (z * t))%Qc by ring.
  split.
  - intros Ht.
    pose proof (Qcmult_le_mono_nonneg_r _ _ t Ht Hlo) as H1.
    pose proof (Qcmult_le_mono_nonneg_r _ _ t Ht Hhi) as H2.
    revert H1 H2. generalize (z * t)%Qc. intros p H1 H2. split; qc_lra.
  - intros Ht.
    assert (Ht' : (Q2Qc 0 <= - t)%Qc) by qc_lra.
    pose proof (Qcmult_le_mono_nonneg_r _ _ _ Ht' Hlo) as H1.
    replace (z * - t)%Qc with (- (z * t))%Qc in H1 by ring.
    revert H1. generalize (z * t)%Qc. intros p H1. qc_lra.
Qed.

Section Verdict.
Import ConvertToReport.

Lemma max_floor (x : Qc) : (x <= dec 1 10)%Qc -> max (dec 1 10) x = dec 1 10.
Proof.
  intros Hx. unfold max. case_bool_decide as Hlt; [|reflexivity].
  now apply Qcle_not_lt in Hx.
Qed.

(** The thirty mock samples lie within [h] of a centre [c], with [h] at
    most 4.75% of the least value [c - h], which is at least 0.1. *)
Lemma mock_samples_spread (gauss_z : nat -> Qc) (t : Qc) (count : nat) :
  bounded_deviates gauss_z ->
  exists c h,
    (dec 1 10 <= c - h)%Qc /\ (Q2Qc 0 <= h)%Qc /\
    (h <= dec 19 400 * (c - h))%Qc /\
    Forall (fun x => c - h <= x /\ x <= c + h)%Qc
      (generate_mock_samples gauss_z t count).
Proof.
  intros Hz.
  assert (Hsample : forall (P : Qc -> Prop),
            (forall z, (- Qc_of_Z 9 <= z)%Qc -> (z <= Qc_of_Z 9)%Qc ->
               P (max (dec 1 10) (t + z * (t * dec 5 1000))%Qc)) ->
            Forall P (generate_mock_samples gauss_z t count)).
  { intros P HP. unfold generate_mock_samples. apply Forall_map, Forall_true.
    intros i. apply HP; apply Hz. }
  destruct (Qclt_le_dec (dec 1 10) (dec 1045 1000 * t)) as [Hhigh|Hlow].
  - assert (Ht : (Q2Qc 0 <= t)%Qc) by qc_lra.
    destruct (Qclt_le_dec (dec 955 1000 * t) (dec 1 10)) as [Hmid|Hall].
    + exists ((dec 1 10 + dec 1045 1000 * t) / Q2Qc 2)%Qc,
             ((dec 1045 1000 * t - dec 1 10) / Q2Qc 2)%Qc.
      split; [qc_lra|]. split; [qc_lra|]. split; [qc_lra|].
      apply Hsample. intros z Hlo Hhi.
      destruct (mock_value_bounds t z Hlo Hhi) as [Hb _].
      destruct (Hb Ht) as [_ Hup]. cbv zeta in Hup. revert Hup.
      generalize (t + z * (t * dec 5 1000))%Qc. intros x Hup.
      unfold max. case_bool_decide as Hlt; split; qc_lra.
    + exists t, (dec 45 1000 * t)%Qc.
      split; [qc_lra|]. split; [qc_lra|]. split; [qc_lra|].
      apply Hsample. intros z Hlo Hhi.
      destruct (mock_value_bounds t z Hlo Hhi) as [Hb _].
      destruct (Hb Ht) as [Hdown Hup]. cbv zeta in Hdown, Hup.
      revert Hdown Hup. generalize (t + z * (t * dec 5 1000))%Qc.
      intros x Hdown Hup.
      unfold max. case_bool_decide as Hlt; split; qc_lra.
  - exists (dec 1 10), (Q2Qc 0).
    split; [qc_lra|]. split; [qc_lra|]. split; [qc_lra|].
    apply Hsample. intros z Hlo Hhi.
    rewrite max_floor; [split; qc_lra|].
    destruct (mock_value_bounds t z Hlo Hhi) as [Hpos Hneg]. cbv zeta in *.
    destruct (Qclt_le_dec t (Q2Qc 0)) as [Ht|Ht].
    + apply Qclt_le_weak in Ht. apply Hneg in Ht. qc_lra.
    + apply Hpos in Ht as [_ Hup]. qc_lra.
Qed.

Variables (sqrt : Qc -> Qc) (gauss_z : nat -> Qc).
Variables (profile_gauss_z profile_random_u : string -> nat -> Qc).
Hypothesis Hsqrt : accurate_sqrt sqrt.
Hypothesis Hgauss : bounded_deviates gauss_z.

(** The CV% of thirty mock samples is below 5. *)
Lemma mock_cv_below_five (t : Qc) (r : stats) :
  BuildReport.calculate_stats sqrt (generate_mock_samples gauss_z t 30) = Ok r ->
  (cv_pct r < Qc_of_Z 5)%Qc.
Proof.
  intros Hr.
  destruct (mock_samples_spread gauss_z t 30 Hgauss)
    as (c & h & Hfloor & Hh & Hspread & Hall).
  destruct (calculate_stats_inv sqrt _ r (mock_samples_nonempty gauss_z t) Hr)
    as (_ & Hmu & Hsd & Hcv & _).
  set (s := sorted (generate_mock_samples gauss_z t 30)) in *.
  assert (Hlen : length s = 30%nat)
    by (unfold s; now rewrite sorted_length, generate_mock_samples_length).
  assert (Hs : Forall (fun x => c - h <= x /\ x <= c + h)%Qc s)
    by now apply Forall_sorted.
  rewrite Hlen in Hsd. change (1 <? Z.of_nat 30) with true in Hsd.
  unfold statistics.stdev in Hsd.
  apply bind_Ok in Hsd as (v & Hv & Hsd). injection Hsd as Hsd.
  pose proof (variance_nonneg s v Hv) as Hv0.
  destruct (Hsqrt v Hv0) as [Hs0 Hss]. rewrite Hsd in Hs0, Hss.
  pose proof (variance_spread s c h v Hs Hv) as Hvar. rewrite Hlen in Hvar.
  change (Z.of_nat 30 - 1) with 29 in Hvar.
  change (Z.of_nat 30) with 30 in Hvar.
  assert (Hlow : Forall (Qcle (c - h)) s).
  { eapply list.Forall_impl; [exact Hs|]. now intros x [Hx _]. }
  pose proof (mean_lower _ _ s Hlow Hmu) as Hmean.
  assert (Ha : (Q2Qc 0 < c - h)%Qc).
  { eapply Qclt_le_trans; [|exact Hfloor]. qc_compare. }
  rewrite Hcv, bool_decide_eq_true_2
    by (eapply Qclt_le_trans; eassumption).
  exact (cv_below_five _ _ _ h v Ha Hmean Hh Hspread Hvar Hs0 Hss).
Qed.


End Verdict.

(** ** The dataset generator *)

Lemma length_tobytes (a : list float64) :
  length (tobytes a) = (8 * length a)%nat.
Proof.
  induction a as [|[b0 b1 b2 b3 b4 b5 b6 b7] a IH]; [reflexivity|].
  change (tobytes (F64 b0 b1 b2 b3 b4 b5 b6 b7 :: a))
    with (b0 :: b1 :: b2 :: b3 :: b4 :: b5 :: b6 :: b7 :: tobytes a).
  cbn [length]. rewrite IH. lia.
Qed.

(** [np.fromfile] drops a tail shorter than one item. *)
Lemma fromfile_tobytes_tail (a : list float64) (tail : list byte) :
  (length tail < 8)%nat -> fromfile (tobytes a ++ tail) = a.
Proof.
  intros Htail.
  induction a as [|[b0 b1 b2 b3 b4 b5 b6 b7] a IH].
  - cbn [tobytes map concat app].
    do 8 (destruct tail as [|? tail]; [reflexivity|]). simpl in Htail. lia.
  - change (tobytes (F64 b0 b1 b2 b3 b4 b5 b6 b7 :: a) ++ tail)
      with (b0 :: b1 :: b2 :: b3 :: b4 :: b5 :: b6 :: b7 :: (tobytes a ++ tail)).
    cbn [fromfile]. now rewrite IH.
Qed.

Section Integrity.
Variable sha256 : list byte -> string.
Variable standard_normal : Z -> nat -> float64.
Variable json_dump : json -> string.

(** X13: verification reads whole 8-byte items only: up to seven stray
    bytes after either array leave the verdict unchanged, although the
    files are no longer the ones that were hashed. *)
Theorem verify_dataset_ignores_tail (dir : gmap string file)
    (N M D seed : Z) (embeddings axes : list float64)
    (tail_e tail_a : list byte) :
  0 <= N -> 0 <= M -> 0 <= D ->
  length embeddings = Z.to_nat (N * D) ->
  length axes = Z.to_nat (M * D) ->
  (length tail_e < 8)%nat -> (length tail_a < 8)%nat ->
  let dataset_hash := sha256 (tobytes embeddings ++ tobytes axes) in
  dir !! "metadata.json"
    = Some (JsonFile (metadata_of N M D seed dataset_hash)) ->
  dir !! "embeddings.f64" = Some (BinFile (tobytes embeddings ++ tail_e)) ->
  dir !! "axes.f64" = Some (BinFile (tobytes axes ++ tail_a)) ->
  verify_dataset sha256 json_dump dir
    = Ok (true, [Verified (String.substring 0 16 dataset_hash)]).
Proof.
  intros HN HM HD Hle Hla Hte Hta dataset_hash Hmeta Hemb Haxes.
  unfold verify_dataset. rewrite Hmeta. simpl.
  rewrite Hemb, Haxes. simpl.
  rewrite !fromfile_tobytes_tail by assumption.
  rewrite (reshape_2d embeddings N D) by assumption. simpl.
  rewrite (reshape_2d axes M D) by assumption. simpl.
  fold dataset_hash. now rewrite bool_decide_eq_true_2.
Qed.

(** What [generate_dataset] returns and writes for dimensions that are
    not negative and a seed that is accepted. *)
Lemma generate_dataset_inv (N M D seed : Z) (dir : gmap string file) :
  0 <= N -> 0 <= M -> 0 <= D -> 0 <= seed < 2 ^ 32 ->
  exists embeddings axes : list float64,
    length embeddings = Z.to_nat (N * D) /\
    length axes = Z.to_nat (M * D) /\
    let dataset_hash := sha256 (tobytes embeddings ++ tobytes axes) in
    let metadata := metadata_of N M D seed dataset_hash in
    generate_dataset sha256 standard_normal N M D seed dir
    = (Ok metadata,
       <["dataset.lock" := TextFile dataset_hash]>
         (<["metadata.json" := JsonFile metadata]>
            (<["axes.f64" := BinFile (tobytes axes)]>
               (<["embeddings.f64" := BinFile (tobytes embeddings)]> dir)))).
Proof.
  intros HN HM HD Hseed.
  destruct (randn_length standard_normal seed 0 N D)
    as (embeddings & Hre & Hle); [lia..|].
  destruct (randn_length standard_normal seed (length embeddings) M D)
    as (axes & Hra & Hla); [lia..|].
  exists embeddings, axes. split; [exact Hle|]. split; [exact Hla|].
  cbv zeta. unfold generate_dataset.
  now rewrite (random_seed_accepts seed Hseed), Hre, Hra.
Qed.

(** X14: [generate_dataset] writes four files and leaves every other file
    of the directory as it was.  For a seed that [np.random.seed]
    accepts, from 0 to [2^32 - 1], and dimensions that are not negative
    it returns, and the sizes recorded in the metadata are the sizes of
    the two array files written.  For any other seed it raises
    [ValueError] and writes nothing. *)
Theorem generate_dataset_files (N M D seed : Z) (dir : gmap string file) :
  (forall name,
     name ∉ ["embeddings.f64"; "axes.f64"; "metadata.json"; "dataset.lock"] ->
     (generate_dataset sha256 standard_normal N M D seed dir).2 !! name
     = dir !! name) /\
  (seed < 0 \/ 2 ^ 32 <= seed ->
   generate_dataset sha256 standard_normal N M D seed dir
     = (Raise ValueError, dir)) /\
  (0 <= N -> 0 <= M -> 0 <= D -> 0 <= seed < 2 ^ 32 ->
   exists metadata dir' size_bytes e a,
     generate_dataset sha256 standard_normal N M D seed dir
       = (Ok metadata, dir') /\
     dir' !! "embeddings.f64" = Some (BinFile e) /\
     dir' !! "axes.f64" = Some (BinFile a) /\
     subscript metadata "size_bytes" = Ok size_bytes /\
     subscript size_bytes "embeddings" = Ok (JInt (Z.of_nat (length e))) /\
     subscript size_bytes "axes" = Ok (JInt (Z.of_nat (length a))) /\
     subscript size_bytes "total"
       = Ok (JInt (Z.of_nat (length e) + Z.of_nat (length a)))).
Proof.
  split.
  - intros name Hname. rewrite !not_elem_of_cons in Hname.
    destruct Hname as (? & ? & ? & ? & _).
    unfold generate_dataset.
    destruct (random_seed seed) as [_|e]; [|reflexivity].
    destruct (randn standard_normal seed 0 N D) as [embeddings|e];
      [|reflexivity].
    destruct (randn standard_normal seed (length embeddings) M D) as [axes|e];
      cbn [snd]; now rewrite !lookup_insert_ne by congruence.
  - split; [apply generate_dataset_seed_refused|].
    intros HN HM HD Hseed.
    destruct (generate_dataset_inv N M D seed dir HN HM HD Hseed)
      as (embeddings & axes & Hle & Hla & Hgen).
    cbv zeta in Hgen. rewrite Hgen.
    eexists _, _, _, _, _. split; [reflexivity|].
    split; [now simplify_map_eq|]. split; [now simplify_map_eq|].
    split; [reflexivity|].
    rewrite !length_tobytes, Hle, Hla.
    assert (0 <= N * D) by lia. assert (0 <= M * D) by lia.
    repeat split; cbn; do 2 f_equal; lia.
Qed.

End Integrity.

Section Main.
Variable sha256 : list byte -> string.
Variable standard_normal : Z -> nat -> float64.
Variable json_dump : json -> string.

Lemma generate_dataset_verifies (N M D seed : Z) (dir : gmap string file) :
  0 <= N -> 0 <= M -> 0 <= D -> 0 <= seed < 2 ^ 32 ->
  exists metadata dir' printed,
    generate_dataset sha256 standard_normal N M D seed dir
      = (Ok metadata, dir') /\
    verify_dataset sha256 json_dump dir' = Ok (true, printed).
Proof.
  intros HN HM HD Hseed.
  destruct (generate_dataset_inv sha256 standard_normal N M D seed dir
              HN HM HD Hseed) as (embeddings & axes & Hle & Hla & Hgen).
  cbv zeta in Hgen. rewrite Hgen. eexists _, _, _. split; [reflexivity|].
  apply (verify_dataset_consistent _ _ _ N M D seed embeddings axes);
    try assumption; now simplify_map_eq.
Qed.

(** X15: without [--verify], [main] exits with status 1 and leaves the
    directory untouched when a dataset is already there and [--force] was
    not given, and when [--N], [--M] or [--D] is not positive. *)
Theorem main_refuses (a : args) (dir : gmap string file) :
  args_verify a = false ->
  (is_Some (dir !! "metadata.json") /\ args_force a = false) \/
  args_N a <= 0 \/ args_M a <= 0 \/ args_D a <= 0 ->
  main sha256 standard_normal json_dump a dir = (Exit 1, dir).
Proof.
  intros Hv Hcase. unfold main. rewrite Hv.
  destruct (bool_decide (is_Some (dir !! "metadata.json"))
            && negb (args_force a)) eqn:Hexists; [reflexivity|].
  destruct Hcase as [[Hmeta Hforce]|Hdims].
  - rewrite Hforce, bool_decide_eq_true_2 in Hexists by exact Hmeta.
    discriminate.
  - destruct (Z.leb_spec (args_N a) 0), (Z.leb_spec (args_M a) 0),
      (Z.leb_spec (args_D a) 0); try reflexivity. lia.
Qed.

(** X16: with positive dimensions, and either no dataset in the directory
    or [--force], [main] generates the dataset, verifies it and exits
    with status 0 when the seed is one that [np.random.seed] accepts,
    from 0 to [2^32 - 1]; for any other seed it catches the
    [ValueError], exits with status 1 and has written nothing. *)
Theorem main_generates (a : args) (dir : gmap string file) :
  args_verify a = false ->
  dir !! "metadata.json" = None \/ args_force a = true ->
  0 < args_N a -> 0 < args_M a -> 0 < args_D a ->
  (0 <= args_seed a < 2 ^ 32 ->
   exists metadata dir' printed,
     generate_dataset sha256 standard_normal
       (args_N a) (args_M a) (args_D a) (args_seed a) dir
       = (Ok metadata, dir') /\
     verify_dataset sha256 json_dump dir' = Ok (true, printed) /\
     main sha256 standard_normal json_dump a dir = (Exit 0, dir')) /\
  (args_seed a < 0 \/ 2 ^ 32 <= args_seed a ->
   main sha256 standard_normal json_dump a dir = (Exit 1, dir)).
Proof.
  intros Hv Hfresh HN HM HD.
  assert (Hexists : bool_decide (is_Some (dir !! "metadata.json"))
                    && negb (args_force a) = false).
  { destruct Hfresh as [Hnone | ->]; [|apply andb_false_r].
    rewrite bool_decide_eq_false_2; [reflexivity|].
    rewrite Hnone. apply is_Some_None. }
  assert (Hdims : (args_N a <=? 0) || (args_M a <=? 0) || (args_D a <=? 0)
                  = false).
  { destruct (Z.leb_spec (args_N a) 0), (Z.leb_spec (args_M a) 0),
      (Z.leb_spec (args_D a) 0); first [reflexivity | lia]. }
  split.
  - intros Hseed.
    destruct (generate_dataset_verifies (args_N a) (args_M a) (args_D a)
                (args_seed a) dir) as (metadata & dir' & printed & Hgen & Hver);
      [lia..|].
    exists metadata, dir', printed. split; [exact Hgen|]. split; [exact Hver|].
    unfold main. now rewrite Hv, Hexists, Hdims, Hgen, Hver.
  - intros Hseed. unfold main. rewrite Hv, Hexists, Hdims.
    now rewrite (generate_dataset_seed_refused sha256 standard_normal).
Qed.

(** X17: [main --verify] writes nothing.  It exits with status 0 when
    [verify_dataset] returns true and with status 1 when it returns
    false; when the embeddings file does not hold the recorded number of
    elements it ends in the traceback of an uncaught [ValueError]. *)
Theorem main_verify_only (a : args) (dir : gmap string file) :
  args_verify a = true ->
  (main sha256 standard_normal json_dump a dir).2 = dir /\
  (forall ok printed,
     verify_dataset sha256 json_dump dir = Ok (ok, printed) ->
     (main sha256 standard_normal json_dump a dir).1
     = Exit (if ok then 0 else 1)) /\
  (forall N M D seed recorded embeddings axes,
     0 <= N -> 0 <= D ->
     dir !! "metadata.json"
       = Some (JsonFile (metadata_of N M D seed recorded)) ->
     dir !! "embeddings.f64" = Some (BinFile embeddings) ->
     dir !! "axes.f64" = Some (BinFile axes) ->
     Z.of_nat (length (fromfile embeddings)) <> N * D ->
     (main sha256 standard_normal json_dump a dir).1 = Traceback ValueError).
Proof.
  intros Hv. unfold main. rewrite Hv. split; [|split].
  - destruct (verify_dataset sha256 json_dump dir) as [[[|] printed]|e];
      reflexivity.
  - intros ok printed ->. now destruct ok.
  - intros N M D seed recorded embeddings axes HN HD Hmeta Hemb Haxes Hlen.
    now rewrite (verify_dataset_shape_mismatch sha256 json_dump dir
                   N M D seed recorded embeddings axes HN HD Hmeta Hemb
                   Haxes Hlen).
Qed.

End Main.

(** ** The runner *)

Lemma append_cons (c : ascii) (a b : string) :
  String c a +:+ b = String c (a +:+ b).
Proof. reflexivity. Qed.

Lemma append_nil (b : string) : "" +:+ b = b.
Proof. reflexivity. Qed.

Lemma hexdigit_not_space (c : ascii) :
  hexdigit c = true -> isspace c = false /\ c <> "013"%char.
Proof.
  destruct c as [[] [] [] [] [] [] [] []]; vm_compute;
    intros H; split; congruence.
Qed.

Lemma hexdigits_cons (c : ascii) (s : string) :
  hexdigits (String c s) = true -> hexdigit c = true /\ hexdigits s = true.
Proof. cbn. now intros [? ?]%andb_prop. Qed.

Lemma lstrip_hexdigits (s : string) : hexdigits s = true -> lstrip s = s.
Proof.
  destruct s as [|c s]; [reflexivity|].
  intros [Hc _]%hexdigits_cons. apply hexdigit_not_space in Hc as [Hc _].
  cbn. now rewrite Hc.
Qed.

Lemma rstrip_hexdigits (s : string) : hexdigits s = true -> rstrip s = s.
Proof.
  induction s as [|c s IH]; [reflexivity|].
  intros [Hc Hs]%hexdigits_cons. apply hexdigit_not_space in Hc as [Hc _].
  cbn. rewrite (IH Hs), Hc. now destruct s.
Qed.

Lemma universal_newlines_hexdigits (s : string) :
  hexdigits s = true -> universal_newlines s = s.
Proof.
  induction s as [|c s IH]; [reflexivity|].
  intros [Hc Hs]%hexdigits_cons. apply hexdigit_not_space in Hc as [_ Hc].
  cbn. rewrite (IH Hs).
  destruct c as [[] [] [] [] [] [] [] []]; try reflexivity. congruence.
Qed.

Lemma strip_hexdigits (s : string) : hexdigits s = true -> strip s = s.
Proof.
  intros Hs. unfold strip. now rewrite rstrip_hexdigits, lstrip_hexdigits.
Qed.

Lemma rstrip_blank (w : string) : blank w = true -> rstrip w = "".
Proof.
  induction w as [|c w IH]; [reflexivity|]. cbn.
  intros [Hc Hw]%andb_prop. now rewrite (IH Hw), Hc.
Qed.

Lemma rstrip_app_blank (s w : string) :
  blank w = true -> rstrip (s +:+ w) = rstrip s.
Proof.
  intros Hw. induction s as [|c s IH].
  - rewrite append_nil. now apply rstrip_blank.
  - rewrite append_cons. cbn. now rewrite IH.
Qed.

Lemma universal_newlines_cons (c : Ascii.ascii) (s : string) :
  c <> "013"%char ->
  universal_newlines (String c s) = String c (universal_newlines s).
Proof.
  intros Hc. cbn.
  destruct c as [[] [] [] [] [] [] [] []]; try reflexivity. congruence.
Qed.

Lemma universal_newlines_blank (w : string) :
  blank w = true -> blank (universal_newlines w) = true.
Proof.
  assert (H : forall n w, (String.length w <= n)%nat ->
            blank w = true -> blank (universal_newlines w) = true).
  { clear w. induction n as [|n IH]; intros [|c w] Hlen Hw;
      try reflexivity; cbn in Hlen; [lia|].
    cbn in Hw. apply andb_prop in Hw as [Hc Hw].
    destruct (Ascii.ascii_dec c "013"%char) as [->|Hne].
    - destruct w as [|c' w]; [reflexivity|].
      destruct (Ascii.ascii_dec c' "010"%char) as [->|Hne'].
      + change (universal_newlines (String "013" (String "010" w)))
          with (String "010"%char (universal_newlines w)).
        cbn in Hw |- *. apply IH; [cbn in Hlen; lia|exact Hw].
      + replace (universal_newlines (String "013" (String c' w)))
          with (String "010"%char (universal_newlines (String c' w))).
        * cbn [blank]. rewrite (IH (String c' w)); [reflexivity|lia|exact Hw].
        * cbn. destruct c' as [[] [] [] [] [] [] [] []];
            try reflexivity. congruence.
    - rewrite universal_newlines_cons by exact Hne. cbn [blank].
      rewrite Hc. apply IH; [lia|exact Hw]. }
  apply (H (String.length w)). lia.
Qed.

Lemma universal_newlines_hex_app (h w : string) :
  hexdigits h = true ->
  universal_newlines (h +:+ w) = h +:+ universal_newlines w.
Proof.
  induction h as [|c h IH]; [reflexivity|].
  intros [Hc Hh]%hexdigits_cons. apply hexdigit_not_space in Hc as [_ Hc].
  rewrite !append_cons, universal_newlines_cons by exact Hc.
  now rewrite (IH Hh).
Qed.

(** Trailing white space after a digest is stripped. *)
Lemma strip_digest_blank (h w : string) :
  hexdigits h = true -> blank w = true ->
  strip (universal_newlines (h +:+ w)) = h.
Proof.
  intros Hh Hw. rewrite universal_newlines_hex_app by exact Hh.
  unfold strip. rewrite rstrip_app_blank by now apply universal_newlines_blank.
  now rewrite rstrip_hexdigits, lstrip_hexdigits.
Qed.

(** ** The dataset lock *)

Section Lock.
Variable sha256 : list byte -> string.
Variable standard_normal : Z -> nat -> float64.
Variable decode : list byte -> result string.
Variable json_dump : json -> string.

(** X18: the runner's lock check passes on a freshly generated dataset,
    for every seed that [np.random.seed] accepts: the lock file and the
    metadata hold the same digest. *)
Theorem generate_then_verify_lock (N M D seed : Z) (dir : gmap string file) :
  0 <= N -> 0 <= M -> 0 <= D -> 0 <= seed < 2 ^ 32 ->
  (forall bs, hexdigits (sha256 bs) = true) ->
  exists metadata dir',
    generate_dataset sha256 standard_normal N M D seed dir
      = (Ok metadata, dir') /\
    verify_dataset_lock decode json_dump metadata dir' = Ok (true, []).
Proof.
  intros HN HM HD Hseed Hhex.
  destruct (generate_dataset_inv sha256 standard_normal N M D seed dir
              HN HM HD Hseed) as (embeddings & axes & _ & _ & Hgen).
  cbv zeta in Hgen. rewrite Hgen. eexists _, _. split; [reflexivity|].
  unfold verify_dataset_lock. rewrite lookup_insert_eq.
  cbn [read mbind result_bind].
  rewrite universal_newlines_hexdigits, strip_hexdigits by apply Hhex.
  simpl. now rewrite bool_decide_eq_true_2.
Qed.

(** X19: the lock check compares the lock text, with line ends unified
    and surrounding white space removed, to the recorded digest, so a
    digest followed by a line end or other white space passes; a missing
    lock file fails the check before the metadata is looked at. *)
Theorem verify_dataset_lock_compares (metadata : json)
    (data_dir : gmap string file) (lock digest : string) :
  (data_dir !! "dataset.lock" = None ->
   verify_dataset_lock decode json_dump metadata data_dir
     = Ok (false, [LockNotFound])) /\
  (data_dir !! "dataset.lock" = Some (TextFile lock) ->
   subscript metadata "hash_sha256" = Ok (JStr digest) ->
   let lock_hash := strip (universal_newlines lock) in
   verify_dataset_lock decode json_dump metadata data_dir
     = Ok (if bool_decide (lock_hash = digest) then (true, [])
           else (false, [LockMismatch lock_hash (JStr digest)]))) /\
  (forall trailing,
     hexdigits digest = true -> blank trailing = true ->
     data_dir !! "dataset.lock" = Some (TextFile (digest +:+ trailing)) ->
     subscript metadata "hash_sha256" = Ok (JStr digest) ->
     verify_dataset_lock decode json_dump metadata data_dir = Ok (true, [])) /\
  (data_dir !! "dataset.lock" = Some (TextFile lock) ->
   subscript metadata "hash_sha256" = Raise (KeyError "hash_sha256") ->
   verify_dataset_lock decode json_dump metadata data_dir
     = Raise (KeyError "hash_sha256")).
Proof.
  unfold verify_dataset_lock. split; [|split; [|split]].
  - now intros ->.
  - intros -> Hh. cbn [read mbind result_bind]. rewrite Hh. cbn.
    now case_bool_decide.
  - intros trailing Hd Ht -> Hh. cbn [read mbind result_bind].
    rewrite Hh, strip_digest_blank by assumption. cbn.
    now rewrite bool_decide_eq_true_2.
  - intros -> Hh. cbn [read mbind result_bind]. now rewrite Hh.
Qed.

End Lock.

(** ** The mock measurement *)

Lemma median_sorts (S : list Qc) :
  statistics.median (sorted S) = statistics.median S.
Proof. unfold statistics.median. now rewrite sorted_idemp. Qed.

Lemma median_order_statistic (S : list Qc) (m : Qc) :
  order_statistic_median S = Some m <-> statistics.median S = Ok m.
Proof.
  split.
  - intros Hm. rewrite <- median_sorts. now apply median_of_sorted.
  - intros Hm. destruct S as [|x xs]; [discriminate|].
    destruct (order_statistic_median_defined (x :: xs)) as [m' Hm'];
      [discriminate|].
    pose proof Hm' as Hm''. apply median_of_sorted in Hm''.
    rewrite median_sorts in Hm''. congruence.
Qed.

Section Runner.
Variable sqrt : Qc -> Qc.
Variable first_gauss : Z -> Qc.

Lemma mock_duration_offset (variant : string) (n : nat) :
  variant <> "naive" ->
  map (mock_duration first_gauss "naive") (seq 0 n)
  = Qcplus (Qc_of_Z 308) <$> map (mock_duration first_gauss variant) (seq 0 n).
Proof.
  intros Hv. change (@fmap list _ Qc Qc) with (@map Qc Qc).
  rewrite map_map. apply map_ext. intros i.
  unfold mock_duration. rewrite bool_decide_eq_true_2 by reflexivity.
  rewrite bool_decide_eq_false_2 by exact Hv.
  apply Qc_is_canon. qc_unfold. lra.
Qed.

Section Run.
Variables (impl variant : string) (metadata : json) (data_dir : string).
Variables (warmup runs repeat : Z) (cpu_affinity : option Z).
Variable enforce_single_thread : bool.

Let run : result (list Qc) :=
  run_benchmark_impl sqrt first_gauss impl variant metadata data_dir
    warmup runs repeat cpu_affinity enforce_single_thread.

Lemma run_benchmark_impl_inv (samples : list Qc) :
  run = Ok samples ->
  samples = map (mock_duration first_gauss variant) (seq 0 (Z.to_nat runs)) /\
  returns (statistics.median samples).
Proof.
  unfold run, run_benchmark_impl. intros Hr.
  apply bind_Ok in Hr as (m & Hm & Hr).
  apply bind_Ok in Hr as (sd & _ & Hr).
  injection Hr as <-. split; [reflexivity|now exists m].
Qed.

Lemma run_benchmark_impl_returns :
  1 <= runs ->
  run = Ok (map (mock_duration first_gauss variant) (seq 0 (Z.to_nat runs))).
Proof.
  intros Hruns. unfold run, run_benchmark_impl.
  fold (mock_duration first_gauss variant).
  set (samples := map (mock_duration first_gauss variant) (seq 0 (Z.to_nat runs))).
  assert (Hlen : length samples = Z.to_nat runs)
    by (unfold samples; now rewrite length_map, length_seq).
  assert (Hne : samples <> []).
  { intros Heq. rewrite Heq in Hlen. simpl in Hlen. lia. }
  destruct (order_statistic_median_defined samples Hne) as [m Hm].
  apply median_order_statistic in Hm. rewrite Hm. cbn [mbind result_bind].
  destruct (Z.ltb_spec 1 (Z.of_nat (length samples))) as [Hgt|_];
    [|reflexivity].
  destruct (stdev_returns sqrt samples Hgt) as [sd ->]. reflexivity.
Qed.

(** X20: the mock measurement returns one sample per run when at least one
    run is asked for, the [i]-th being the base duration of the variant
    plus six times the first deviate after [random.seed(42 + i)]; with
    no run to measure it raises [StatisticsError] from the closing
    median. *)
Theorem run_benchmark_impl_samples :
  (1 <= runs ->
   exists samples,
     run = Ok samples /\
     length samples = Z.to_nat runs /\
     forall i, (i < Z.to_nat runs)%nat ->
       samples !! i = Some (mock_duration first_gauss variant i)) /\
  (runs <= 0 -> run = Raise StatisticsError).
Proof.
  split.
  - intros Hruns. eexists. split; [now apply run_benchmark_impl_returns|].
    split; [now rewrite length_map, length_seq|].
    intros i Hi. change (@map nat Qc) with (@fmap list _ nat Qc).
    now rewrite list_lookup_fmap, lookup_seq_lt.
  - intros Hruns. unfold run, run_benchmark_impl.
    replace (Z.to_nat runs) with 0%nat by lia. reflexivity.
Qed.

End Run.

(** X21: the samples depend on the variant and the number of runs only,
    and the two variants see the same noise: every ['naive'] sample is
    the sample of any other variant plus 308, and so is the median. *)
Theorem run_benchmark_impl_offset
    (impl impl' variant : string) (metadata metadata' : json)
    (data_dir data_dir' : string) (warmup warmup' runs repeat repeat' : Z)
    (cpu_affinity cpu_affinity' : option Z)
    (enforce_single_thread enforce_single_thread' : bool)
    (naive other : list Qc) :
  variant <> "naive" ->
  run_benchmark_impl sqrt first_gauss impl "naive" metadata data_dir
    warmup runs repeat cpu_affinity enforce_single_thread = Ok naive ->
  run_benchmark_impl sqrt first_gauss impl' variant metadata' data_dir'
    warmup' runs repeat' cpu_affinity' enforce_single_thread' = Ok other ->
  naive = map (Qcplus (Qc_of_Z 308)) other /\
  exists m, statistics.median other = Ok m /\
            statistics.median naive = Ok (Qc_of_Z 308 + m)%Qc.
Proof.
  intros Hv Hn Ho.
  apply run_benchmark_impl_inv in Hn as [Hn _].
  apply run_benchmark_impl_inv in Ho as [Ho [m Hm]].
  assert (Hmap : naive = map (Qcplus (Qc_of_Z 308)) other)
    by (rewrite Hn, Ho; now apply mock_duration_offset).
  split; [exact Hmap|]. exists m. split; [exact Hm|].
  apply median_order_statistic. apply median_order_statistic in Hm.
  rewrite Hmap. change (@map Qc Qc) with (@fmap list _ Qc Qc).
  rewrite order_statistic_median_fmap by apply translation_monotone_affine.
  now rewrite Hm.
Qed.

End Runner.

(** ** Splitting and the keys of the results *)

Lemma split_nonempty (sep : ascii) (s : string) : split sep s <> [].
Proof.
  destruct s as [|c s]; [discriminate|]. cbn.
  case_bool_decide; [discriminate|]. now destruct (split sep s).
Qed.

Lemma length_split (sep : ascii) (s : string) :
  length (split sep s) = S (count sep s).
Proof.
  induction s as [|c s IH]; [reflexivity|]. cbn.
  case_bool_decide; cbn; [now rewrite IH|].
  pose proof (split_nonempty sep s). destruct (split sep s); [congruence|].
  exact IH.
Qed.

Lemma split_without (sep : ascii) (s : string) :
  count sep s = 0%nat -> split sep s = [s].
Proof.
  induction s as [|c s IH]; [reflexivity|]. cbn.
  case_bool_decide; [discriminate|]. intros Hs. now rewrite (IH Hs).
Qed.

Lemma split_app (sep : ascii) (a b : string) :
  count sep a = 0%nat ->
  split sep (a +:+ String sep b) = a :: split sep b.
Proof.
  induction a as [|c a IH].
  - intros _. rewrite append_nil. cbn. now rewrite bool_decide_eq_true_2.
  - rewrite append_cons. cbn. case_bool_decide; [discriminate|].
    intros Ha. now rewrite (IH Ha).
Qed.

(** The pieces, joined by the separator, are the string. *)
Lemma join_split (sep : ascii) (s : string) :
  String.concat (String sep EmptyString) (split sep s) = s.
Proof.
  induction s as [|c s IH]; [reflexivity|]. cbn [split].
  pose proof (split_nonempty sep s) as Hne.
  destruct (split sep s) as [|p ps] eqn:Hs; [congruence|].
  case_bool_decide as Hc.
  - subst c.
    change (String.concat (String sep "") ("" :: p :: ps))
      with (String sep (String.concat (String sep "") (p :: ps))).
    now rewrite IH.
  - destruct ps as [|q qs].
    + cbn in IH |- *. now rewrite IH.
    + change (String.concat (String sep "") (String c p :: q :: qs))
        with (String c (String.concat (String sep "") (p :: q :: qs))).
      now rewrite IH.
Qed.

Lemma split_pieces (sep : ascii) (s : string) :
  Forall (fun piece => count sep piece = 0%nat) (split sep s).
Proof.
  induction s as [|c s IH]; [repeat constructor|]. cbn [split].
  case_bool_decide as Hc; [now constructor|].
  destruct (split sep s) as [|p ps]; [repeat constructor; cbn;
    now rewrite bool_decide_eq_false_2|].
  apply list.Forall_cons in IH as [Hp Hps]. constructor; [|exact Hps].
  cbn. now rewrite bool_decide_eq_false_2.
Qed.

(** Splitting into exactly two pieces. *)
Lemma split_two (sep : ascii) (s a b : string) :
  split sep s = [a; b]
  <-> s = a +:+ String sep b /\ count sep a = 0%nat /\ count sep b = 0%nat.
Proof.
  split.
  - intros Hs. pose proof (join_split sep s) as Hj.
    pose proof (split_pieces sep s) as Hp. rewrite Hs in Hj, Hp.
    apply list.Forall_cons in Hp as [Ha Hp].
    apply list.Forall_cons in Hp as [Hb _].
    split; [now rewrite <- Hj|]. now split.
  - intros (-> & Ha & Hb). now rewrite split_app, split_without.
Qed.

(** ** The implementations to run *)

(** X22: [main] accepts [--impls] exactly when every comma-separated item,
    stripped, has exactly one hyphen; the pairs it then runs are the two
    sides of each hyphen, one pair per item, in order. *)
Theorem parse_impls_accepts (impls : string) :
  (is_Some (parse_impls impls)
   <-> Forall (fun item => count "-" (strip item) = 1%nat) (split "," impls)) /\
  (forall pairs, parse_impls impls = Some pairs ->
     length pairs = S (count "," impls) /\
     map (fun '(impl, variant) => impl +:+ "-" +:+ variant) pairs
       = map strip (split "," impls) /\
     Forall (fun '(impl, variant) =>
               count "-" impl = 0%nat /\ count "-" variant = 0%nat) pairs).
Proof.
  unfold parse_impls.
  set (parse := fun impl_str =>
         match split "-" (strip impl_str) with
         | [impl; variant] => Some (impl, variant)
         | _ => None
         end).
  assert (Hparse : forall item impl variant,
            parse item = Some (impl, variant)
            <-> split "-" (strip item) = [impl; variant]).
  { intros item impl variant. unfold parse.
    destruct (split "-" (strip item)) as [|a [|b [|? ?]]];
      split; intros [=]; subst; reflexivity. }
  split.
  - rewrite mapM_is_Some. apply Forall_iff. intros item. cbn.
    pose proof (length_split "-" (strip item)) as Hlen.
    unfold parse. destruct (split "-" (strip item)) as [|a [|b [|? ?]]];
      cbn in Hlen; split; intros H; try (destruct H; discriminate);
      try lia; eauto.
  - intros pairs Hpairs. apply mapM_Some in Hpairs.
    split; [|split].
    + apply Forall2_length in Hpairs. rewrite <- Hpairs. apply length_split.
    + induction Hpairs as [|item [impl variant] items pairs Hitem _ IH];
        [reflexivity|].
      cbn [map]. rewrite IH. f_equal.
      apply Hparse, split_two in Hitem as [-> _]. reflexivity.
    + induction Hpairs as [|item [impl variant] items pairs Hitem _ IH];
        constructor; [|exact IH].
      now apply Hparse, split_two in Hitem as (_ & ? & ?).
Qed.

(** ** Saving the results *)

Lemma csv_rows_keyed (measured : list (string * string * list Qc)) :
  Forall (fun '(impl, variant, _) =>
            count "/" impl = 0%nat /\ count "/" variant = 0%nat) measured ->
  csv_rows (keyed measured) = (Ok (), concat (map rows_of measured)).
Proof.
  induction 1 as [|[[impl variant] samples] measured [Hi Hv] _ IH];
    [reflexivity|].
  cbn [keyed map csv_rows]. fold (keyed measured).
  change ("/" +:+ variant) with (String "/" variant).
  rewrite split_app, split_without by assumption.
  rewrite IH. reflexivity.
Qed.

Lemma csv_rows_bad_key (before after : list (string * list Qc))
    (key : string) (samples : list Qc) :
  (csv_rows before).1 = Ok () -> count "/" key <> 1%nat ->
  csv_rows (before ++ (key, samples) :: after)
  = (Raise ValueError, (csv_rows before).2).
Proof.
  intros Hok Hkey. induction before as [|[k s] before IH].
  - cbn [app csv_rows snd]. pose proof (length_split "/" key) as Hlen.
    destruct (split "/" key) as [|a [|b [|? ?]]]; try reflexivity.
    cbn in Hlen. lia.
  - cbn [app csv_rows] in *.
    destruct (split "/" k) as [|a [|b [|? ?]]]; try discriminate.
    destruct (csv_rows before) as [outcome more]. cbn [fst snd] in *.
    rewrite (IH Hok). cbn [snd]. reflexivity.
Qed.

(** X23: built from implementation and variant names without a slash, the
    keys of the results split back into the names they were built from,
    and the CSV holds one row per sample under them.  A key that does
    not hold exactly one slash stops the writing with [ValueError]: the
    rows of the keys before it are written, no summary is. *)
Theorem save_results_keys (metadata : json) (config : list (string * json)) :
  (forall measured,
     Forall (fun '(impl, variant, _) =>
               count "/" impl = 0%nat /\ count "/" variant = 0%nat) measured ->
     csv_file (save_results (keyed measured) metadata config).2
     = header :: concat (map rows_of measured)) /\
  (forall before key samples after,
     (csv_rows before).1 = Ok () -> count "/" key <> 1%nat ->
     save_results (before ++ (key, samples) :: after) metadata config
     = (Raise ValueError,
        {| csv_file := header :: (csv_rows before).2;
           summary_file := None |})).
Proof.
  split.
  - intros measured Hm. unfold save_results.
    rewrite (csv_rows_keyed measured Hm).
    match goal with |- context [match ?s with Ok _ => _ | Raise _ => _ end] =>
      destruct s end; reflexivity.
  - intros before key samples after Hok Hkey. unfold save_results.
    now rewrite (csv_rows_bad_key before after key samples Hok Hkey).
Qed.

Lemma complete_subscripts (config : list (string * json)) :
  complete config ->
  exists warmup runs repeat stability_enabled stability_mode,
    subscript (JObj config) "warmup" = Ok warmup /\
    subscript (JObj config) "runs" = Ok runs /\
    subscript (JObj config) "repeat" = Ok repeat /\
    subscript (JObj config) "stability_enabled" = Ok stability_enabled /\
    subscript (JObj config) "stability_mode" = Ok stability_mode.
Proof.
  unfold complete. rewrite !list.Forall_cons.
  intros ([w Hw] & [r Hr] & [p Hp] & [e He] & [m Hm] & _).
  exists w, r, p, e, m. cbn [subscript].
  now rewrite Hw, Hr, Hp, He, Hm.
Qed.

Lemma getitem_0 {A} (x : A) (l : list A) : getitem (x :: l) 0 = Ok x.
Proof. reflexivity. Qed.

Lemma getitem_1 {A} (x y : A) (l : list A) : getitem (x :: y :: l) 1 = Ok y.
Proof. reflexivity. Qed.

Lemma dict_getitem_head {V} (k : string) (v : V) (rest : list (string * V)) :
  dict_getitem ((k, v) :: rest) k = Ok v.
Proof. cbn. now rewrite bool_decide_eq_true_2. Qed.

Lemma dict_getitem_second {V} (k k' : string) (v v' : V)
    (rest : list (string * V)) :
  k <> k' -> dict_getitem ((k, v) :: (k', v') :: rest) k' = Ok v'.
Proof.
  intros Hne. cbn. rewrite bool_decide_eq_false_2 by exact Hne.
  now rewrite bool_decide_eq_true_2.
Qed.

(** What [save_results] does once the CSV is written. *)
Lemma save_results_summary_inv (results : list (string * list Qc))
    (metadata : json) (config : list (string * json))
    (key : string) (baseline : list Qc) (rest : list (string * list Qc)) :
  (csv_rows results).1 = Ok () -> complete config ->
  results = (key, baseline) :: rest -> NoDup results.*1 ->
  let optimized :=
    match rest with [] => baseline | (_, samples) :: _ => samples end in
  exists document,
    save_results results metadata config
      = (Ok (), {| csv_file := header :: (csv_rows results).2;
                   summary_file := Some (JObj document) |}) /\
    assoc "baseline_samples" document = Some (JArr (map JFloat baseline)) /\
    assoc "optimized_samples" document = Some (JArr (map JFloat optimized)) /\
    assoc "cpu_affinity" document = Some (get config "cpu_affinity" JNull) /\
    assoc "warmup" document = assoc "warmup" config /\
    assoc "runs" document = assoc "runs" config /\
    assoc "repeat" document = assoc "repeat" config.
Proof.
  intros Hcsv Hconfig -> Hkeys optimized.
  destruct (complete_subscripts config Hconfig)
    as (w & r & p & e & m & Hw & Hr & Hp & He & Hm).
  assert (Hwc : assoc "warmup" config = Some w)
    by (cbn in Hw; destruct (assoc "warmup" config); congruence).
  assert (Hrc : assoc "runs" config = Some r)
    by (cbn in Hr; destruct (assoc "runs" config); congruence).
  assert (Hpc : assoc "repeat" config = Some p)
    by (cbn in Hp; destruct (assoc "repeat" config); congruence).
  unfold save_results.
  destruct (csv_rows ((key, baseline) :: rest)) as [outcome rows] eqn:Hrows.
  cbn [fst snd] in *. subst outcome.
  cbn [mbind result_bind fmap list_fmap fst].
  rewrite getitem_0. cbn [mbind result_bind].
  rewrite dict_getitem_head.
  destruct rest as [|[key' samples'] rest].
  - cbn [length]. replace (1 <? Z.of_nat 1) with false by reflexivity.
    cbn [mbind result_bind]. rewrite dict_getitem_head.
    cbn [mbind result_bind]. rewrite Hw, Hr, Hp, He, Hm.
    cbn [mbind result_bind]. eexists. split; [reflexivity|].
    rewrite Hwc, Hrc, Hpc. repeat split.
  - cbn [length fmap list_fmap fst].
    replace (1 <? Z.of_nat (S (S (length rest)))) with true
      by (symmetry; apply Z.ltb_lt; lia).
    rewrite getitem_1. cbn [mbind result_bind].
    rewrite dict_getitem_second.
    2:{ cbn in Hkeys. apply list.NoDup_cons in Hkeys as [Hne _].
        intros ->. apply Hne. left. }
    cbn [mbind result_bind]. rewrite Hw, Hr, Hp, He, Hm.
    cbn [mbind result_bind]. eexists. split; [reflexivity|].
    rewrite Hwc, Hrc, Hpc. repeat split.
Qed.

(** X24: [save_results] summarises the first two entries of the results:
    with a single implementation the optimized samples are the baseline
    samples, with none the summary is not written and [IndexError] is
    raised after the CSV header was. *)
Theorem save_results_summary (metadata : json) (config : list (string * json)) :
  save_results [] metadata config
    = (Raise IndexError,
       {| csv_file := [header]; summary_file := None |}) /\
  (forall results key baseline rest,
     (csv_rows results).1 = Ok () -> complete config ->
     results = (key, baseline) :: rest -> NoDup results.*1 ->
     exists document,
       save_results results metadata config
         = (Ok (), {| csv_file := header :: (csv_rows results).2;
                      summary_file := Some (JObj document) |}) /\
       assoc "baseline_samples" document
         = Some (JArr (map JFloat baseline)) /\
       assoc "optimized_samples" document
         = Some (JArr (map JFloat
                   match rest with
                   | [] => baseline
                   | (_, samples) :: _ => samples
                   end)) /\
       assoc "cpu_affinity" document
         = Some (get config "cpu_affinity" JNull)).
Proof.
  split; [reflexivity|].
  intros results key baseline rest Hcsv Hconfig Hresults Hkeys.
  destruct (save_results_summary_inv results metadata config key baseline rest
              Hcsv Hconfig Hresults Hkeys)
    as (document & Hsave & Hb & Ho & Ha & _).
  exists document. repeat split; assumption.
Qed.

(** ** From the runner to the report *)

Lemma list_to_map_assoc (kvs : list (string * json)) (k : string) :
  (list_to_map kvs : gmap string json) !! k = assoc k kvs.
Proof.
  induction kvs as [|[k' v] kvs IH]; [reflexivity|].
  cbn [list_to_map foldr assoc]. case_bool_decide as Hk.
  - subst k'. apply lookup_insert_eq.
  - rewrite lookup_insert_ne by exact Hk. exact IH.
Qed.

Lemma dict_set_new {V} (d : list (string * V)) (k : string) (v : V) :
  k ∉ d.*1 -> dict_set d k v = d ++ [(k, v)].
Proof.
  induction d as [|[k' v'] d IH]; [reflexivity|].
  cbn. rewrite not_elem_of_cons. intros [Hne Hd].
  rewrite bool_decide_eq_false_2 by congruence. now rewrite IH.
Qed.

Section Pipeline.
Variable sqrt : Qc -> Qc.
Variable first_gauss : Z -> Qc.

(** X25: from the mock measurement of a ['naive'] baseline and any other
    variant, through the summary [save_results] writes, to the report
    [build_report] returns: the report holds one status per run, a
    delta of exactly 308 ms, and the value [cpu_affinity or 2] of the
    configuration: its CPU core when that is a core other than 0, and
    core 2 when none was given and also when core 0 was. *)
Theorem runner_summary_builds_report
    (h : host) (metadata : json) (dataset_metadata : gmap string json)
    (config : list (string * json)) (ebpf_evidence : json)
    (data_dir command_line impl impl' variant : string)
    (warmup runs repeat : Z) (cpu_affinity : option Z)
    (enforce_single_thread : bool) :
  1 <= runs -> variant <> "naive" ->
  count "/" impl = 0%nat -> count "/" impl' = 0%nat ->
  count "/" variant = 0%nat -> complete config ->
  exists results csv document r,
    run_impls sqrt first_gauss [(impl, "naive"); (impl', variant)]
      metadata data_dir warmup runs repeat cpu_affinity enforce_single_thread
      = Ok results /\
    save_results results metadata config
      = (Ok (), {| csv_file := csv; summary_file := Some (JObj document) |}) /\
    build_report sqrt h (list_to_map document) ebpf_evidence dataset_metadata
      command_line impl "naive" impl' variant = Ok r /\
    length (status (runs_baseline r)) = Z.to_nat runs /\
    length (status (runs_optimized r)) = Z.to_nat runs /\
    delta_ms (report_summary r) = Qc_of_Z 308 /\
    BuildReport.cpu_affinity (report_benchmark r)
      = or_else (get config "cpu_affinity" JNull) (JInt 2).
Proof.
  intros Hruns Hv Hi Hi' Hvs Hconfig.
  set (naive := map (mock_duration first_gauss "naive") (seq 0 (Z.to_nat runs))).
  set (other := map (mock_duration first_gauss variant) (seq 0 (Z.to_nat runs))).
  set (measured := [(impl, "naive", naive); (impl', variant, other)]).
  assert (Hkeys : impl +:+ "/" +:+ "naive" <> impl' +:+ "/" +:+ variant).
  { intros Heq. apply (f_equal (split "/")) in Heq.
    change ("/" +:+ "naive") with (String "/" "naive") in Heq.
    change ("/" +:+ variant) with (String "/" variant) in Heq.
    rewrite !split_app, !split_without in Heq by (assumption || reflexivity).
    congruence. }
  assert (Hrun : run_impls sqrt first_gauss [(impl, "naive"); (impl', variant)]
            metadata data_dir warmup runs repeat cpu_affinity
            enforce_single_thread = Ok (keyed measured)).
  { unfold run_impls. cbn [foldl mbind result_bind].
    rewrite !run_benchmark_impl_returns by exact Hruns.
    cbn [mbind result_bind dict_set].
    rewrite bool_decide_eq_false_2 by exact Hkeys. reflexivity. }
  assert (Hgood : Forall (fun '(impl, variant, _) =>
             count "/" impl = 0%nat /\ count "/" variant = 0%nat) measured)
    by (repeat constructor; assumption).
  pose proof (csv_rows_keyed measured Hgood) as Hcsv.
  destruct (save_results_summary_inv (keyed measured) metadata config
              (impl +:+ "/" +:+ "naive") naive
              [(impl' +:+ "/" +:+ variant, other)])
    as (document & Hsave & Hb & Ho & Ha & _);
    [now rewrite Hcsv|exact Hconfig|reflexivity| |].
  { cbn. apply list.NoDup_cons. split; [|apply NoDup_singleton].
    rewrite list_elem_of_singleton. exact Hkeys. }
  set (summary := list_to_map document : gmap string json).
  assert (Hgb : dict_get summary "baseline_samples" (JArr [])
                = JArr (map JFloat naive))
    by (unfold dict_get, summary; now rewrite list_to_map_assoc, Hb).
  assert (Hgo : dict_get summary "optimized_samples" (JArr [])
                = JArr (map JFloat other))
    by (unfold dict_get, summary; now rewrite list_to_map_assoc, Ho).
  destruct (build_report_returns sqrt h summary dataset_metadata ebpf_evidence
              command_line impl "naive" impl' variant) as [r Hr].
  { rewrite Hgb. eexists _, _. split; [reflexivity|apply numbers_floats]. }
  { rewrite Hgo. eexists _, _. split; [reflexivity|apply numbers_floats]. }
  exists (keyed measured), (header :: (csv_rows (keyed measured)).2),
         document, r.
  split; [exact Hrun|]. split; [exact Hsave|]. split; [exact Hr|].
  destruct (build_report_inv _ _ _ _ _ _ _ _ _ _ r Hr)
    as (Hsb & Hso & Hxb & Hxo & Hlb & Hlo & Hd & _ & _ & Hc).
  cbv zeta in Hsb, Hso, Hd.
  rewrite Hxb, Hgb in Hlb. rewrite Hxo, Hgo in Hlo.
  cbn [len] in Hlb, Hlo. injection Hlb as Hlb. injection Hlo as Hlo.
  split; [rewrite <- Hlb; unfold naive; now rewrite !length_map, length_seq|].
  split; [rewrite <- Hlo; unfold other; now rewrite !length_map, length_seq|].
  split.
  - rewrite Hgb, calculate_stats_of_floats in Hsb.
    rewrite Hgo, calculate_stats_of_floats in Hso.
    assert (Hne : forall v, map (mock_duration first_gauss v)
                              (seq 0 (Z.to_nat runs)) <> []).
    { intros v Heq. apply (f_equal length) in Heq.
      rewrite length_map, length_seq in Heq. simpl in Heq. lia. }
    apply calculate_stats_median in Hsb; [|apply Hne].
    apply calculate_stats_median in Hso; [|apply Hne].
    unfold naive in Hsb. rewrite (mock_duration_offset _ variant) in Hsb
      by exact Hv.
    rewrite order_statistic_median_fmap in Hsb
      by apply translation_monotone_affine.
    fold other in Hsb. unfold other in Hso. fold other in Hso.
    rewrite Hso in Hsb. injection Hsb as Hsb.
    rewrite Hd, <- Hsb. ring.
  - rewrite Hc. unfold dict_get, summary.
    now rewrite list_to_map_assoc, Ha.
Qed.

End Pipeline.

(** ** The profiler *)

(** ** Sums and maxima *)

Lemma max_upper (a b : Qc) : (a <= builtins.max a b /\ b <= builtins.max a b)%Qc.
Proof.
  unfold builtins.max. case_bool_decide as H.
  - split; [now apply Qclt_le_weak|apply Qcle_refl].
  - split; [apply Qcle_refl|now apply Qcnot_lt_le].
Qed.

Lemma max_of_upper (x : Qc) (rest : list Qc) :
  Forall (fun y => y <= builtins.max_of x rest)%Qc (x :: rest).
Proof.
  unfold builtins.max_of. revert x.
  induction rest as [|y rest IH]; intros x.
  - repeat constructor. apply Qcle_refl.
  - cbn [foldl]. specialize (IH (builtins.max x y)).
    apply list.Forall_cons in IH as [Hm Hrest].
    destruct (max_upper x y) as [Hx Hy].
    constructor; [eapply Qcle_trans; eassumption|].
    constructor; [eapply Qcle_trans; eassumption|exact Hrest].
Qed.

Lemma max_of_elem (x : Qc) (rest : list Qc) :
  builtins.max_of x rest ∈ x :: rest.
Proof.
  unfold builtins.max_of. revert x.
  induction rest as [|y rest IH]; intros x; [left|].
  cbn [foldl]. specialize (IH (builtins.max x y)).
  apply elem_of_cons in IH as [IH|IH].
  - rewrite IH. unfold builtins.max. case_bool_decide; [right; left|left].
  - right; right; exact IH.
Qed.

(** ** The summary of a profile *)

(** X26: in the summary of a non-empty profile each maximum is the
    reading of some sample and no reading exceeds it, the I/O total is
    never negative, and the duration is the elapsed time of the last
    sample.  Only a non-empty profile has a sample count.  Nothing is
    said of the two averages: the code divides a binary64 sum by the
    count, and the rounded quotient can exceed the maximum. *)
Theorem get_summary_bounds (first : Profiler.sample)
    (rest : list Profiler.sample) :
  let samples := first :: rest in
  let s := Profiler.get_summary samples in
  Forall (fun x => Profiler.cpu_percent x <= Profiler.cpu_max s)%Qc samples /\
  Profiler.cpu_max s ∈ map Profiler.cpu_percent samples /\
  Forall (fun x => Profiler.ram_mb x <= Profiler.ram_max_mb s)%Qc samples /\
  Profiler.ram_max_mb s ∈ map Profiler.ram_mb samples /\
  (Q2Qc 0 <= Profiler.io_total_mb s)%Qc /\
  Profiler.duration_ms s = Profiler.elapsed_ms (List.last rest first) /\
  Profiler.sample_count s = Some (length samples) /\
  Profiler.sample_count (Profiler.get_summary []) = None.
Proof.
  intros samples s.
  pose proof (max_of_upper (Profiler.cpu_percent first)
                (map Profiler.cpu_percent rest)) as Hcpu.
  pose proof (max_of_upper (Profiler.ram_mb first)
                (map Profiler.ram_mb rest)) as Hram.
  change (Profiler.cpu_percent first :: map Profiler.cpu_percent rest)
    with (map Profiler.cpu_percent samples) in Hcpu.
  change (Profiler.ram_mb first :: map Profiler.ram_mb rest)
    with (map Profiler.ram_mb samples) in Hram.
  split; [exact (proj1 (Forall_map _ _ _) Hcpu)|].
  split; [apply max_of_elem|].
  split; [exact (proj1 (Forall_map _ _ _) Hram)|].
  split; [apply max_of_elem|].
  split; [|repeat split].
  unfold s, samples, Profiler.get_summary. cbn [Profiler.io_total_mb].
  destruct (Z.ltb 1 _); [apply max_upper|apply Qcle_refl].
Qed.

(** ** Downsampling *)

Lemma every_lookup {A} (step skip i : nat) (l : list A) :
  (0 < step)%nat ->
  builtins.every step skip l !! i = l !! (skip + i * step)%nat.
Proof.
  intros Hstep. revert skip i.
  induction l as [|x l IH]; intros skip i; [reflexivity|].
  destruct skip as [|skip]; cbn [builtins.every].
  - destruct i as [|i]; [reflexivity|].
    cbn [lookup list_lookup]. rewrite IH.
    replace (0 + S i * step)%nat with (S (step - 1 + i * step)) by lia.
    reflexivity.
  - rewrite IH. reflexivity.
Qed.

Section Downsample.
Variables (samples : list Profiler.sample) (points : Z).
Hypothesis Hpoints : 1 <= points.
Hypothesis Hmore : points < Z.of_nat (length samples).

Let step : nat := Z.to_nat (Z.of_nat (length samples) / points).

Lemma step_bounds :
  (1 <= step)%nat /\ ((Z.to_nat points - 1) * step < length samples)%nat.
Proof.
  unfold step.
  assert (1 <= Z.of_nat (length samples) / points)
    by (apply Z.div_le_lower_bound; lia).
  assert (points * (Z.of_nat (length samples) / points)
          <= Z.of_nat (length samples))
    by (apply Z.mul_div_le; lia).
  split; [lia|]. nia.
Qed.

Lemma downsample_step :
  Profiler.downsample samples points
  = inr (take (Z.to_nat points) (builtins.every step 0 samples)).
Proof.
  destruct step_bounds as [Hstep _]. unfold step in Hstep.
  unfold Profiler.downsample, builtins.slice_step, builtins.slice_stop.
  destruct (Z.ltb_spec points (Z.of_nat (length samples))) as [_|?]; [|lia].
  destruct (Z.eqb_spec points 0) as [?|_]; [lia|].
  destruct (Z.eqb_spec (Z.of_nat (length samples) / points) 0) as [?|_];
    [lia|].
  destruct (Z.ltb_spec 0 (Z.of_nat (length samples) / points)) as [_|?];
    [|lia].
  destruct (Z.ltb_spec points 0) as [?|_]; [lia|]. reflexivity.
Qed.

Lemma downsample_lookup (i : nat) :
  (i < Z.to_nat points)%nat ->
  take (Z.to_nat points) (builtins.every step 0 samples) !! i
  = samples !! (i * step)%nat.
Proof.
  intros Hi. destruct step_bounds as [Hstep _].
  rewrite lookup_take_lt by exact Hi. now rewrite every_lookup.
Qed.

Lemma downsample_length :
  length (take (Z.to_nat points) (builtins.every step 0 samples))
  = Z.to_nat points.
Proof.
  destruct step_bounds as [Hstep Hlast].
  rewrite length_take. apply Nat.min_l.
  assert (Hsome : is_Some (builtins.every step 0 samples
                             !! (Z.to_nat points - 1)%nat)).
  { rewrite every_lookup by exact Hstep. apply lookup_lt_is_Some_2. lia. }
  apply lookup_lt_is_Some_1 in Hsome. lia.
Qed.

End Downsample.

Lemma every_1 {A} (l : list A) : builtins.every 1 0 l = l.
Proof. induction l as [|x l IH]; [reflexivity|]. cbn. now rewrite IH. Qed.

Lemma downsample_all (samples : list Profiler.sample) (points : Z) :
  Z.of_nat (length samples) <= points ->
  Profiler.downsample samples points = inr samples.
Proof.
  intros Hle. unfold Profiler.downsample.
  destruct (Z.ltb_spec points (Z.of_nat (length samples))); [lia|reflexivity].
Qed.

(** The curve drawn from the downsampled samples. *)
Lemma get_profile_curve_inv (samples d : list Profiler.sample) (points : Z) :
  samples <> [] -> Profiler.downsample samples points = inr d ->
  exists c, Profiler.get_profile_curve samples points = inr c /\
    length (Profiler.timestamps c) = length d /\
    Profiler.cpu c = map Profiler.cpu_percent d /\
    Profiler.ram c = map Profiler.ram_mb d /\
    Profiler.io c
      = map (fun s => (Profiler.io_read_mb s + Profiler.io_write_mb s)%Qc) d /\
    Profiler.gpu c = map Profiler.gpu_percent d.
Proof.
  intros Hne Hd. unfold Profiler.get_profile_curve. rewrite Hd.
  destruct samples as [|x xs]; [congruence|].
  eexists. split; [reflexivity|]. cbn.
  split; [|repeat split]. destruct d; [reflexivity|]. now rewrite length_map.
Qed.

(** X27: for a positive number of points the curve has one entry per
    array for each of [min(len(samples), points)] samples.  With zero
    points and a non-empty profile the step is a division by zero.  The
    slice step is never zero. *)
Theorem get_profile_curve_length (samples : list Profiler.sample)
    (points : Z) :
  (1 <= points ->
   exists c, Profiler.get_profile_curve samples points = inr c /\
     let n := Z.to_nat (Z.min (Z.of_nat (length samples)) points) in
     length (Profiler.timestamps c) = n /\ length (Profiler.cpu c) = n /\
     length (Profiler.ram c) = n /\ length (Profiler.io c) = n /\
     length (Profiler.gpu c) = n) /\
  (points = 0 -> samples <> [] ->
   Profiler.get_profile_curve samples points
     = inl Profiler.ZeroDivisionError) /\
  Profiler.get_profile_curve samples points <> inl Profiler.ValueError.
Proof.
  split; [|split].
  - intros Hpoints. destruct samples as [|x xs] eqn:Hs.
    { eexists. split; [reflexivity|]. cbn [length Profiler.timestamps
        Profiler.cpu Profiler.ram Profiler.io Profiler.gpu].
      change (Z.of_nat 0) with 0. rewrite Z.min_l by lia. repeat split. }
    rewrite <- Hs. assert (Hne : samples <> []) by (rewrite Hs; discriminate).
    clear Hs. destruct (Z.lt_ge_cases points (Z.of_nat (length samples)))
      as [Hlt|Hge].
    + destruct (get_profile_curve_inv samples _ points Hne
                  (downsample_step samples points Hpoints Hlt))
        as (c & Hc & Ht & H1 & H2 & H3 & H4).
      exists c. split; [exact Hc|]. cbv zeta. rewrite H1, H2, H3, H4.
      rewrite !length_map, Ht, downsample_length by assumption.
      rewrite Z.min_r by lia. repeat split.
    + destruct (get_profile_curve_inv samples _ points Hne
                  (downsample_all samples points Hge))
        as (c & Hc & Ht & H1 & H2 & H3 & H4).
      exists c. split; [exact Hc|]. cbv zeta. rewrite H1, H2, H3, H4.
      rewrite !length_map, Ht, Z.min_l, Nat2Z.id by lia. repeat split.
  - intros -> Hne. destruct samples as [|x xs]; [congruence|]. reflexivity.
  - destruct samples as [|x xs]; [discriminate|].
    unfold Profiler.get_profile_curve, Profiler.downsample,
      builtins.slice_step.
    set (n := Z.of_nat (length (x :: xs))).
    assert (Hn : 1 <= n) by (unfold n; simpl; lia).
    destruct (Z.ltb_spec points n) as [Hlt|_]; [|discriminate].
    destruct (Z.eqb_spec points 0) as [_|Hp]; [discriminate|].
    destruct (Z.eqb_spec (n / points) 0) as [Hz|_]; [|].
    + exfalso. apply Z.div_small_iff in Hz; lia.
    + destruct (0 <? n / points); discriminate.
Qed.

(** X28: when there are more samples than points, the curve is drawn from
    the samples at the multiples of [len(samples) // points], the first
    [points] of them.  With fewer than twice as many samples as points
    the step is 1, and the curve is that of the first [points] samples:
    what was sampled after them is not drawn. *)
Theorem get_profile_curve_picks (samples : list Profiler.sample)
    (points : Z) :
  1 <= points -> points < Z.of_nat (length samples) ->
  let step := Z.to_nat (Z.of_nat (length samples) / points) in
  (exists c, Profiler.get_profile_curve samples points = inr c /\
     forall i, (i < Z.to_nat points)%nat ->
       Profiler.cpu c !! i
         = Profiler.cpu_percent <$> samples !! (i * step)%nat /\
       Profiler.ram c !! i = Profiler.ram_mb <$> samples !! (i * step)%nat) /\
  (Z.of_nat (length samples) < 2 * points ->
   Profiler.get_profile_curve samples points
   = Profiler.get_profile_curve (take (Z.to_nat points) samples) points).
Proof.
  intros Hpoints Hmore step.
  assert (Hne : samples <> []) by (intros ->; simpl in Hmore; lia).
  pose proof (downsample_step samples points Hpoints Hmore) as Hd.
  split.
  - destruct (get_profile_curve_inv samples _ points Hne Hd)
      as (c & Hc & _ & Hcpu & Hram & _).
    exists c. split; [exact Hc|]. intros i Hi.
    rewrite Hcpu, Hram.
    change (@map Profiler.sample Qc) with (@fmap list _ Profiler.sample Qc).
    rewrite !list_lookup_fmap.
    now rewrite (downsample_lookup samples points Hpoints Hmore i Hi).
  - intros Htwice.
    assert (Hstep : Z.to_nat (Z.of_nat (length samples) / points) = 1%nat).
    { assert (Z.of_nat (length samples) / points = 1); [|lia].
      symmetry.
      apply Z.div_unique with (r := Z.of_nat (length samples) - points); lia. }
    rewrite Hstep, every_1 in Hd.
    assert (Hd' : Profiler.downsample (take (Z.to_nat points) samples) points
                  = inr (take (Z.to_nat points) samples)).
    { apply downsample_all. rewrite length_take. lia. }
    unfold Profiler.get_profile_curve. rewrite Hd, Hd'.
    destruct samples as [|x xs]; [congruence|].
    destruct (Z.to_nat points) as [|p] eqn:Hp; [lia|]. reflexivity.
Qed.

(** ** Normalised timestamps *)

Lemma downsample_in_time_order (samples d : list Profiler.sample)
    (points : Z) :
  1 <= points -> in_time_order samples ->
  Profiler.downsample samples points = inr d -> in_time_order d.
Proof.
  intros Hpoints Hord Hd.
  destruct (Z.lt_ge_cases points (Z.of_nat (length samples))) as [Hlt|Hge].
  - rewrite (downsample_step samples points Hpoints Hlt) in Hd.
    injection Hd as <-. intros i j a b Hij Ha Hb.
    assert (Hj : (j < Z.to_nat points)%nat).
    { apply lookup_lt_Some in Hb. rewrite length_take in Hb. lia. }
    rewrite downsample_lookup in Ha, Hb by (assumption || lia).
    refine (Hord _ _ a b _ Ha Hb). apply Nat.mul_le_mono_r. exact Hij.
  - rewrite (downsample_all samples points Hge) in Hd. now injection Hd as <-.
Qed.

Lemma last_default {A} (l : list A) (x y : A) :
  l <> [] -> List.last l x = List.last l y.
Proof.
  induction l as [|z l IH]; [congruence|]. intros _.
  destruct l as [|z' l]; [reflexivity|].
  change (List.last (z' :: l) x = List.last (z' :: l) y).
  now apply IH.
Qed.

Lemma last_lookup_cons {A} (x : A) (l : list A) :
  (x :: l) !! length l = Some (List.last l x).
Proof.
  revert x. induction l as [|y l IH]; intros x; [reflexivity|].
  cbn [length lookup list_lookup]. rewrite IH. f_equal.
  destruct l as [|z l]; [reflexivity|].
  change (List.last (z :: l) y = List.last (z :: l) x).
  now apply last_default.
Qed.

Lemma normalised_bounds (start_time end_time e : Qc) :
  (start_time <= e)%Qc -> (e <= end_time)%Qc ->
  (Q2Qc 0 <= normalised start_time end_time e)%Qc /\
  (normalised start_time end_time e <= Qc_of_Z 100)%Qc.
Proof.
  intros Hlo Hhi. unfold normalised.
  assert (H100 : (Q2Qc 0 < Qc_of_Z 100)%Qc) by (apply Qc_of_Z_pos; lia).
  case_bool_decide as Hspan.
  - assert (Hd : (Q2Qc 0 < end_time - start_time)%Qc) by qc_lra.
    set (d := (end_time - start_time)%Qc) in *.
    assert (Hk : (Q2Qc 0 < / d * Qc_of_Z 100)%Qc)
      by (apply Qcmult_pos_pos; [now apply Qcinv_pos|exact H100]).
    assert (Hne : d <> Q2Qc 0)
      by (intros Heq; apply Qclt_not_eq in Hd; congruence).
    replace ((e - start_time) / d * Qc_of_Z 100)%Qc
      with ((e - start_time) * (/ d * Qc_of_Z 100))%Qc
      by (unfold Qcdiv; ring).
    split.
    + apply Qcmult_nonneg_nonneg; [qc_lra|now apply Qclt_le_weak].
    + replace (Qc_of_Z 100) with (d * (/ d * Qc_of_Z 100))%Qc at 2
        by (field; exact Hne).
      apply Qcmult_le_mono_pos_r; [exact Hk|]. unfold d. qc_lra.
  - assert (He : e = start_time).
    { apply Qcle_antisym; [|exact Hlo].
      apply Qcnot_lt_le in Hspan. eapply Qcle_trans; eassumption. }
    rewrite He. replace ((start_time - start_time) / Q2Qc 1 * Qc_of_Z 100)%Qc
      with (Q2Qc 0) by (unfold Qcdiv; ring).
    split; [apply Qcle_refl|now apply Qclt_le_weak].
Qed.

Lemma normalised_ends (start_time end_time : Qc) :
  (start_time <= end_time)%Qc ->
  normalised start_time end_time start_time = Q2Qc 0 /\
  (normalised start_time end_time end_time = Q2Qc 0 \/
   normalised start_time end_time end_time = Qc_of_Z 100).
Proof.
  intros Hle. unfold normalised. split; [unfold Qcdiv; ring|].
  case_bool_decide as Hspan.
  - right. field. intros Heq.
    assert (Hd : (Q2Qc 0 < end_time - start_time)%Qc) by qc_lra.
    apply Qclt_not_eq in Hd. congruence.
  - left. apply Qcnot_lt_le in Hspan.
    rewrite (Qcle_antisym _ _ Hspan Hle). unfold Qcdiv. ring.
Qed.

(** X29: the timestamps of a curve start at 0; when the elapsed times of
    the profile never decrease and at least one point is asked for, they
    stay within [0, 100] and end at 100, or at 0 when the curve spans no
    time. *)
Theorem get_profile_curve_timestamps (samples : list Profiler.sample)
    (points : Z) (c : Profiler.curve) :
  1 <= points -> in_time_order samples ->
  Profiler.get_profile_curve samples points = inr c ->
  (samples <> [] -> head (Profiler.timestamps c) = Some (Q2Qc 0)) /\
  Forall (fun t => Q2Qc 0 <= t /\ t <= Qc_of_Z 100)%Qc
    (Profiler.timestamps c) /\
  (forall t, list.last (Profiler.timestamps c) = Some t ->
     t = Q2Qc 0 \/ t = Qc_of_Z 100).
Proof.
  intros Hpoints Hord Hc.
  destruct samples as [|x xs] eqn:Hs.
  { injection Hc as <-. cbn. split; [congruence|]. split; [constructor|].
    discriminate. }
  unfold Profiler.get_profile_curve in Hc. rewrite <- Hs in *.
  assert (Hne : samples <> []) by (rewrite Hs; discriminate). clear Hs.
  destruct (Profiler.downsample samples points) as [e|d] eqn:Hd;
    [discriminate|].
  assert (Hlen : d <> []).
  { destruct (Z.lt_ge_cases points (Z.of_nat (length samples))) as [Hlt|Hge].
    - rewrite (downsample_step _ points Hpoints Hlt) in Hd.
      intros Heq. rewrite Heq in Hd. injection Hd as Hd.
      apply (f_equal length) in Hd.
      rewrite downsample_length in Hd by assumption. simpl in Hd. lia.
    - rewrite (downsample_all _ points Hge) in Hd. congruence. }
  apply downsample_in_time_order in Hd; [|assumption..].
  injection Hc as <-. cbn [Profiler.timestamps].
  destruct d as [|first rest]; [congruence|].
  set (start_time := Profiler.elapsed_ms first).
  set (end_time := Profiler.elapsed_ms (Profiler.final first rest)).
  change (map _ (first :: rest))
    with (map (fun s => normalised start_time end_time (Profiler.elapsed_ms s))
              (first :: rest)).
  assert (Hfinal : (first :: rest) !! length rest
                   = Some (Profiler.final first rest))
    by apply last_lookup_cons.
  assert (Hspan : (start_time <= end_time)%Qc).
  { apply (Hd 0%nat (length rest) first _); [lia|reflexivity|exact Hfinal]. }
  destruct (normalised_ends start_time end_time Hspan) as [Hhead Hlast].
  split; [intros _; cbn [map head]; fold start_time; now rewrite Hhead|].
  split.
  - apply Forall_map, list.Forall_forall. intros s Hs.
    apply list_elem_of_lookup in Hs as [i Hi].
    assert (Hi' : (i <= length rest)%nat).
    { apply lookup_lt_Some in Hi. simpl in Hi. lia. }
    apply normalised_bounds.
    + apply (Hd 0%nat i first s); [lia|reflexivity|exact Hi].
    + apply (Hd i (length rest) s _); [exact Hi'|exact Hi|exact Hfinal].
  - intros t Ht.
    change (@map Profiler.sample Qc) with (@fmap list _ Profiler.sample Qc) in Ht.
    rewrite fmap_last in Ht.
    rewrite last_lookup in Ht. cbn [length pred] in Ht.
    rewrite Hfinal in Ht. cbn in Ht. injection Ht as <-. exact Hlast.
Qed.

(** ** Resource profiles of the converter *)

Lemma min_upper (a b : Qc) : (builtins.min a b <= a)%Qc.
Proof.
  unfold builtins.min. case_bool_decide; [now apply Qclt_le_weak|].
  apply Qcle_refl.
Qed.

(** [max(0, min(100, x))] lies in [0, 100]. *)
Lemma clamp_bounds (x : Qc) :
  let y := builtins.max (Q2Qc 0) (builtins.min (Qc_of_Z 100) x) in
  (Q2Qc 0 <= y /\ y <= Qc_of_Z 100)%Qc.
Proof.
  cbv zeta. split; [apply max_upper|].
  unfold builtins.max. case_bool_decide; [apply min_upper|].
  apply Qclt_le_weak, Qc_of_Z_pos. lia.
Qed.

Lemma max_list_returns (l : list Qc) :
  l <> [] ->
  exists m, builtins.max_list l = Ok m /\ m ∈ l /\ Forall (fun x => x <= m)%Qc l.
Proof.
  intros Hne. destruct l as [|x rest]; [congruence|].
  exists (builtins.max_of x rest). split; [reflexivity|]. split.
  - apply max_of_elem.
  - apply max_of_upper.
Qed.

Lemma bind_Ok_l {A B} (a : A) (f : A -> result B) : Ok a ≫= f = f a.
Proof. reflexivity. Qed.

Section ResourceProfile.
Variable gauss_z : string -> nat -> Qc.
Variable random_u : string -> nat -> Qc.

(** X30: a resource profile is always produced; its five curves hold 50
    points each, every CPU point lies in [0, 100] and every RAM point is
    non-negative, and the reported maxima are points of the curves.  The
    reported CPU average is the entry's own figure: above 100 it exceeds
    the reported maximum. *)
Theorem create_resource_profile_bounds (entry : ConvertToReport.entry)
    (u : ConvertToReport.usage) :
  exists s c,
    ConvertToReport.create_resource_profile gauss_z random_u entry u = Ok (s, c) /\
    ConvertToReport.timestamps c = map (fun i => Z.of_nat i * 2) (seq 0 50) /\
    length (ConvertToReport.cpu c) = 50%nat /\ length (ConvertToReport.ram c) = 50%nat /\
    length (ConvertToReport.io c) = 50%nat /\ ConvertToReport.gpu c = replicate 50 0 /\
    Forall (fun x => Q2Qc 0 <= x /\ x <= Qc_of_Z 100)%Qc (ConvertToReport.cpu c) /\
    Forall (fun x => Q2Qc 0 <= x)%Qc (ConvertToReport.ram c) /\
    ConvertToReport.cpu_max s ∈ ConvertToReport.cpu c /\ ConvertToReport.ram_max_mb s ∈ ConvertToReport.ram c /\
    ConvertToReport.cpu_avg s = ConvertToReport.cpu_usage_percent u /\
    ((Qc_of_Z 100 < ConvertToReport.cpu_usage_percent u)%Qc ->
     (ConvertToReport.cpu_max s < ConvertToReport.cpu_avg s)%Qc).
Proof.
  unfold ConvertToReport.create_resource_profile.
  set (name := ConvertToReport.implementation entry).
  set (cpu_curve :=
         map (fun i =>
                builtins.max (Q2Qc 0)
                  (builtins.min (Qc_of_Z 100)
                     (ConvertToReport.cpu_usage_percent u
                      + (Q2Qc 0 + gauss_z name i * Qc_of_Z 2))%Qc))
             (seq 0 50)).
  set (ram_curve :=
         map (fun i =>
                builtins.max (Q2Qc 0)
                  (ConvertToReport.max_ram_mb u
                   + (Q2Qc 0 + gauss_z name (50 + i)
                               * (ConvertToReport.max_ram_mb u * dec 5 100)))%Qc)
             (seq 0 50)).
  assert (Hcpu : Forall (fun x => Q2Qc 0 <= x /\ x <= Qc_of_Z 100)%Qc cpu_curve).
  { apply Forall_map, Forall_true. intros i. apply clamp_bounds. }
  assert (Hram : Forall (fun x => Q2Qc 0 <= x)%Qc ram_curve).
  { apply Forall_map, Forall_true. intros i. apply max_upper. }
  assert (Hlen : forall (f : nat -> Qc), length (map f (seq 0 50)) = 50%nat)
    by (intros f; now rewrite length_map, length_seq).
  assert (Hne : forall (f : nat -> Qc), map f (seq 0 50) <> []).
  { intros f Heq. apply (f_equal length) in Heq. rewrite Hlen in Heq.
    discriminate. }
  destruct (max_list_returns cpu_curve (Hne _)) as (cm & Hcm & Hcin & _).
  destruct (max_list_returns ram_curve (Hne _)) as (rm & Hrm & Hrin & _).
  rewrite Hcm, bind_Ok_l, Hrm, bind_Ok_l.
  eexists _, _. split; [reflexivity|].
  cbn [ConvertToReport.timestamps ConvertToReport.cpu ConvertToReport.ram
       ConvertToReport.io ConvertToReport.gpu ConvertToReport.cpu_max
       ConvertToReport.ram_max_mb ConvertToReport.cpu_avg].
  split; [reflexivity|]. do 3 (split; [apply Hlen|]).
  split; [reflexivity|].
  split; [exact Hcpu|]. split; [exact Hram|].
  split; [exact Hcin|]. split; [exact Hrin|].
  split; [reflexivity|].
  intros Hover. eapply Qcle_lt_trans; [|exact Hover].
  rewrite list.Forall_forall in Hcpu. apply (Hcpu cm Hcin).
Qed.

End ResourceProfile.

(** ** The outcome of a conversion *)

Lemma dict_getitem_raises {V} (d : list (string * V)) (k : string) (err : exn) :
  dict_getitem d k = Raise err -> err = KeyError k.
Proof.
  induction d as [|[k' v] d IH]; simpl.
  - now intros [= <-].
  - case_bool_decide; [discriminate|exact IH].
Qed.

Lemma operand_returns (v : json) (q : Qc) :
  ConvertToReport.operand v = Ok q <-> as_number v = Some q.
Proof.
  unfold ConvertToReport.operand.
  destruct (as_number v) as [q'|]; split; intros H; congruence.
Qed.

Lemma operand_raises (v : json) (err : exn) :
  ConvertToReport.operand v = Raise err -> err = TypeError.
Proof.
  unfold ConvertToReport.operand.
  destruct (as_number v); [discriminate|now intros [= <-]].
Qed.

Lemma format_2f_returns (v : json) :
  returns (ConvertToReport.format_2f v) <-> is_Some (as_number v).
Proof.
  destruct v; simpl; split; intros [x Hx]; try discriminate; eexists;
    reflexivity.
Qed.

Lemma format_2f_raises (v : json) (err : exn) :
  ConvertToReport.format_2f v = Raise err -> err = ValueError \/ err = TypeError.
Proof. destruct v; simpl; intros [= <-]; auto. Qed.

Section ConverterOutcome.
Import ConvertToReport.
Variables (sqrt : Qc -> Qc) (gauss_z : nat -> Qc).
Variables (profile_gauss_z profile_random_u : string -> nat -> Qc).

Lemma create_resource_profile_returns (e : entry) (u : usage) :
  returns (create_resource_profile profile_gauss_z profile_random_u e u).
Proof.
  unfold create_resource_profile.
  assert (Hne : forall (f : nat -> Qc), map f (seq 0 50) <> []).
  { intros f Heq. apply (f_equal length) in Heq.
    rewrite length_map, length_seq in Heq. discriminate. }
  match goal with
  | |- returns (builtins.max_list ?l ≫= _) =>
    destruct (max_list_returns l (Hne _)) as (cm & Hcm & _)
  end.
  rewrite Hcm, bind_Ok_l.
  match goal with
  | |- returns (builtins.max_list ?l ≫= _) =>
    destruct (max_list_returns l (Hne _)) as (rm & Hrm & _)
  end.
  rewrite Hrm, bind_Ok_l. eexists. reflexivity.
Qed.

Let profile_of := resource_profile_of profile_gauss_z profile_random_u.
Let profiles_of := resource_profiles_of profile_gauss_z profile_random_u.

Lemma resource_profile_of_returns (e : entry) :
  returns (profile_of e) <-> profiled e.
Proof.
  unfold profile_of, resource_profile_of, profiled, number_at. split.
  - intros [p Hp].
    apply bind_Ok in Hp as (cv & Hcv & Hp).
    apply bind_Ok in Hp as (rv & Hrv & Hp).
    apply bind_Ok in Hp as (cq & Hcq & Hp).
    apply bind_Ok in Hp as (rq & Hrq & Hp).
    apply operand_returns in Hcq, Hrq.
    split; eexists _, _; split; eassumption.
  - intros [(cv & cq & Hcv & Hcq) (rv & rq & Hrv & Hrq)].
    apply operand_returns in Hcq, Hrq.
    rewrite Hcv, bind_Ok_l, Hrv, bind_Ok_l, Hcq, bind_Ok_l, Hrq, bind_Ok_l.
    apply create_resource_profile_returns.
Qed.

Lemma resource_profile_of_raises (e : entry) (err : exn) :
  profile_of e = Raise err ->
  err = KeyError "cpu_usage_percent" \/ err = KeyError "max_ram_mb" \/
  err = TypeError.
Proof.
  unfold profile_of, resource_profile_of. intros Hp.
  destruct (dict_getitem (other_keys e) "cpu_usage_percent") as [cv|e1] eqn:Hcv.
  2:{ injection Hp as <-. left. now apply dict_getitem_raises in Hcv. }
  destruct (dict_getitem (other_keys e) "max_ram_mb") as [rv|e2] eqn:Hrv.
  2:{ injection Hp as <-. right; left. now apply dict_getitem_raises in Hrv. }
  rewrite !bind_Ok_l in Hp.
  destruct (operand cv) as [cq|e3] eqn:Hcq.
  2:{ injection Hp as <-. right; right. now apply operand_raises in Hcq. }
  destruct (operand rv) as [rq|e4] eqn:Hrq.
  2:{ injection Hp as <-. right; right. now apply operand_raises in Hrq. }
  rewrite !bind_Ok_l in Hp.
  destruct (create_resource_profile_returns e
              {| cpu_usage_percent := cq; max_ram_mb := rq |}) as [p Hp'].
  congruence.
Qed.

Lemma resource_profiles_of_returns (entries : list entry)
    (acc : list (string * (profile_summary * profile_curve))) :
  returns (profiles_of entries acc) <-> Forall profiled entries.
Proof.
  revert acc. induction entries as [|e entries IH]; intros acc.
  - split; [constructor|]. intros _. now eexists.
  - unfold profiles_of. cbn [resource_profiles_of]. fold profile_of profiles_of.
    rewrite list.Forall_cons, <- resource_profile_of_returns. split.
    + intros [ps Hps]. apply bind_Ok in Hps as (p & Hp & Hps).
      split; [now exists p|]. eapply IH. exists ps. exact Hps.
    + intros [[p Hp] Hall]. rewrite Hp, bind_Ok_l. now apply IH.
Qed.

Lemma resource_profiles_of_raises (entries : list entry)
    (acc : list (string * (profile_summary * profile_curve))) (err : exn) :
  profiles_of entries acc = Raise err ->
  err = KeyError "cpu_usage_percent" \/ err = KeyError "max_ram_mb" \/
  err = TypeError.
Proof.
  revert acc. induction entries as [|e entries IH]; intros acc;
    [discriminate|].
  unfold profiles_of. cbn [resource_profiles_of]. fold profile_of profiles_of.
  destruct (profile_of e) as [p|e1] eqn:Hp.
  - rewrite bind_Ok_l. apply IH.
  - intros [= <-]. now apply resource_profile_of_raises in Hp.
Qed.

(** The loop stops at the first entry whose profile cannot be drawn. *)
Lemma resource_profiles_of_first (before after : list entry) (e : entry)
    (acc : list (string * (profile_summary * profile_curve))) (err : exn) :
  Forall profiled before -> profile_of e = Raise err ->
  profiles_of (before ++ e :: after) acc = Raise err.
Proof.
  intros Hbefore He. revert acc.
  induction Hbefore as [|e' before He' _ IH]; intros acc.
  - unfold profiles_of. cbn [app resource_profiles_of]. fold profile_of.
    now rewrite He.
  - apply resource_profile_of_returns in He' as [p Hp].
    unfold profiles_of. cbn [app resource_profiles_of].
    fold profile_of profiles_of. rewrite Hp, bind_Ok_l. apply IH.
Qed.

Variables (entries : list entry) (baseline_impl optimized_impl : string).

Let converted : result conversion :=
  convert_to_report sqrt gauss_z profile_gauss_z profile_random_u entries
    baseline_impl optimized_impl.

(** Once both entries are found the statistics are computed, and the
    outcome is that of the loop over the entries and of the notes. *)
Lemma convert_to_report_found (be oe : entry) :
  find_entry entries baseline_impl = Ok be ->
  find_entry entries optimized_impl = Ok oe ->
  exists report : list (string * (profile_summary * profile_curve)) -> conversion,
    converted =
      (profiles ← profiles_of entries [];
       speedup ← dict_getitem (other_keys oe) "speedup_vs_baseline";
       _ ← format_2f speedup;
       Ok (report profiles)).
Proof.
  intros Hbe Hoe. unfold converted, convert_to_report.
  rewrite Hbe, bind_Ok_l, Hoe, bind_Ok_l. cbv zeta.
  rewrite ?(converter_calculate_stats sqrt
              (generate_mock_samples gauss_z (cpu_processing_time_ms be) 30)),
    ?(converter_calculate_stats sqrt
        (generate_mock_samples gauss_z (cpu_processing_time_ms oe) 30)).
  destruct (calculate_stats_returns sqrt
              (generate_mock_samples gauss_z (cpu_processing_time_ms be) 30))
    as [b Hb].
  destruct (calculate_stats_returns sqrt
              (generate_mock_samples gauss_z (cpu_processing_time_ms oe) 30))
    as [o Ho].
  rewrite Hb, bind_Ok_l, Ho, bind_Ok_l.
  eexists (fun profiles => _). reflexivity.
Qed.

Lemma find_entry_absent (name : string) :
  ~ Exists (fun e => implementation e = name) entries ->
  find_entry entries name = Raise ValueError.
Proof.
  intros Hno. destruct (find_entry entries name) as [e|err] eqn:Hfind.
  - exfalso. apply Hno, find_entry_returns. now exists e.
  - now apply find_entry_raises in Hfind as ->.
Qed.


End ConverterOutcome.

(** ** Examples of the further properties *)

Lemma calculate_stats_within_range_witness :
  exists r,
    calculate_stats (fun v => v) (map Qc_of_Z [3; 1; 2]) = Ok r /\
    Forall (fun x => Qc_of_Z 1 <= x /\ x <= Qc_of_Z 3)%Qc
      [median r; mean r; p10 r; p90 r].
Proof.
  apply (calculate_stats_within_range (fun v => v) (map Qc_of_Z [3; 1; 2])).
  - discriminate.
  - repeat (constructor; [split; qc_compare|]). constructor.
  - repeat (constructor; [split; qc_compare|]). constructor.
Defined.

Lemma calculate_stats_percentiles_ordered_witness :
  exists r,
    calculate_stats (fun v => v) (map Qc_of_Z [3; 1; 2; 4]) = Ok r /\
    (p10 r <= median r)%Qc /\ (median r <= p90 r)%Qc.
Proof.
  apply (calculate_stats_percentiles_ordered (fun v => v)).
  repeat (constructor; [split; qc_compare|]). constructor.
Defined.

Lemma calculate_stats_constant_witness :
  calculate_stats (fun v => v) (replicate 4 (Qc_of_Z 7)) =
    Ok {| median := Qc_of_Z 7; mean := Qc_of_Z 7; std := Q2Qc 0;
          cv_pct := if bool_decide (Q2Qc 0 < Qc_of_Z 7)%Qc
                    then (Q2Qc 0 / Qc_of_Z 7 * Qc_of_Z 100)%Qc else Q2Qc 0;
          p10 := Qc_of_Z 7; p90 := Qc_of_Z 7 |}.
Proof.
  apply (calculate_stats_constant (fun v => v) 2 (Qc_of_Z 7)).
  split; qc_compare.
Defined.

Lemma calculate_stats_dispersion_nonneg_witness :
  exists r,
    calculate_stats (fun v => v) (map Qc_of_Z [3; 1; 2]) = Ok r /\
    (Q2Qc 0 <= std r)%Qc /\ (Q2Qc 0 <= cv_pct r)%Qc.
Proof.
  apply (calculate_stats_dispersion_nonneg (fun v => v)). intros v Hv. exact Hv.
Defined.

Lemma build_report_impact_witness :
  exists r,
    build_report (fun v => v) example_host summary_both JNull ∅
      "run_all.py" "python" "naive" "python" "numpy" = Ok r /\
    delta_ms (report_summary r) = Qc_of_Z 313 /\
    cost_saved_eur_per_year (impact_outputs_computed r)
      = (Qc_of_Z 313 / Qc_of_Z 288)%Qc.
Proof.
  destruct (build_report (fun v => v) example_host summary_both JNull ∅
              "run_all.py" "python" "naive" "python" "numpy")
    as [r|e] eqn:Hr; [|vm_compute in Hr; discriminate].
  exists r. split; [reflexivity|].
  destruct (build_report_impact (fun v => v) example_host summary_both ∅ JNull
              "run_all.py" "python" "naive" "python" "numpy" r Hr)
    as (_ & _ & Hcost & _).
  assert (Hd : delta_ms (report_summary r) = Qc_of_Z 313).
  { vm_compute in Hr. injection Hr as <-. qc_equal. }
  split; [exact Hd|]. now rewrite Hcost, Hd.
Defined.

Lemma build_report_gain_witness :
  exists r,
    build_report (fun v => v) example_host summary_both JNull ∅
      "run_all.py" "python" "naive" "python" "numpy" = Ok r /\
    (Q2Qc 0 < gain_pct (report_summary r))%Qc /\
    (gain_pct (report_summary r) <= Qc_of_Z 100)%Qc.
Proof.
  destruct (build_report (fun v => v) example_host summary_both JNull ∅
              "run_all.py" "python" "naive" "python" "numpy")
    as [r|e] eqn:Hr; [|vm_compute in Hr; discriminate].
  exists r. split; [reflexivity|].
  assert (Hm : (Q2Qc 0 < median (baseline_stats (report_summary r)))%Qc /\
               (median (optimized_stats (report_summary r))
                < median (baseline_stats (report_summary r)))%Qc /\
               (Q2Qc 0 <= median (optimized_stats (report_summary r)))%Qc).
  { vm_compute in Hr. injection Hr as <-. repeat split; qc_compare. }
  destruct Hm as (Hb & Hlt & Ho).
  destruct (build_report_gain (fun v => v) example_host summary_both ∅ JNull
              "run_all.py" "python" "naive" "python" "numpy" r Hr Hb)
    as (_ & Hpos & _ & Hle).
  split; [now apply Hpos|now apply Hle].
Defined.

Lemma find_entry_first_match_witness :
  ConvertToReport.find_entry example_entries "cpp-simd"
    = Ok (ConvertToReport.Entry "cpp-simd" "cpp" (Qc_of_Z 5)
             (measured 99 40 (Qc_of_Z 2))) /\
  ConvertToReport.find_entry example_entries "rust" = Raise ValueError.
Proof.
  destruct (find_entry_first_match example_entries "cpp-simd") as (Hfirst & _).
  destruct (find_entry_first_match example_entries "rust") as (_ & Hnone & _).
  split.
  - apply (Hfirst
             [ConvertToReport.Entry "python-naive" "python" (Qc_of_Z 10)
             (measured 98 120 (Qc_of_Z 1))]
             _
             [ConvertToReport.Entry "cpp-simd" "cpp" (Qc_of_Z 4)
             (measured 97 40 (dec 5 2))]).
    + repeat constructor. discriminate.
    + reflexivity.
  - apply Hnone. repeat constructor; discriminate.
Defined.

Lemma converter_agrees_with_builder_witness :
  exists c r,
    ConvertToReport.convert_to_report (fun v => v) no_noise
      no_profile_noise no_profile_noise example_entries
      "python-naive" "cpp-simd" = Ok c /\
    build_report (fun v => v) example_host mock_summary JNull ∅
      "converted" "python-naive" "naive" "cpp-simd" "simd" = Ok r /\
    gain_pct (report_summary r) = ConvertToReport.gain_pct c.
Proof.
  destruct (ConvertToReport.convert_to_report (fun v => v) no_noise
              no_profile_noise no_profile_noise example_entries
              "python-naive" "cpp-simd")
    as [c|e] eqn:Hc; [|vm_compute in Hc; discriminate].
  assert (Hs : ConvertToReport.baseline_samples c
               = ConvertToReport.generate_mock_samples no_noise (Qc_of_Z 10) 30 /\
               ConvertToReport.optimized_samples c
               = ConvertToReport.generate_mock_samples no_noise (Qc_of_Z 5) 30).
  { destruct (convert_to_report_inv _ _ _ _ _ _ _ _ Hc)
      as (be & oe & Hbe & Hoe & Hsb & Hso & _).
    injection Hbe as <-. injection Hoe as <-. split; assumption. }
  destruct Hs as [Hb Ho].
  destruct (converter_agrees_with_builder (fun v => v) no_noise
              no_profile_noise no_profile_noise example_entries
              "python-naive" "cpp-simd" example_host mock_summary ∅ JNull
              "converted" "naive" "simd" c Hc)
    as (r & Hr & _ & _ & _ & Hgain & _).
  - rewrite Hb. reflexivity.
  - rewrite Ho. reflexivity.
  - exists c, r. split; [reflexivity|]. split; [exact Hr|exact Hgain].
Defined.

Lemma converter_gain_is_cpu_time_gain_witness :
  exists c,
    ConvertToReport.convert_to_report (fun v => v) no_noise
      no_profile_noise no_profile_noise example_entries
      "python-naive" "cpp-simd" = Ok c /\
    ConvertToReport.gain_pct c = Qc_of_Z 50.
Proof.
  destruct (ConvertToReport.convert_to_report (fun v => v) no_noise
              no_profile_noise no_profile_noise example_entries
              "python-naive" "cpp-simd")
    as [c|e] eqn:Hc; [|vm_compute in Hc; discriminate].
  exists c. split; [reflexivity|].
  rewrite (converter_gain_is_cpu_time_gain (fun v => v) no_noise
             no_profile_noise no_profile_noise
             example_entries "python-naive" "cpp-simd"
             (ConvertToReport.Entry "python-naive" "python" (Qc_of_Z 10)
             (measured 98 120 (Qc_of_Z 1)))
             (ConvertToReport.Entry "cpp-simd" "cpp" (Qc_of_Z 5)
             (measured 99 40 (Qc_of_Z 2)))
             c Hc).
  - qc_equal.
  - reflexivity.
  - reflexivity.
  - qc_compare.
  - qc_compare.
  - intros i _. qc_compare.
  - intros i _. qc_compare.
Defined.

Lemma generate_mock_samples_shape_witness :
  ConvertToReport.generate_mock_samples no_noise (Qc_of_Z 10) 3
    = map (fun i => (Qc_of_Z 10 + no_noise i * (Qc_of_Z 10 * dec 5 1000))%Qc)
          (seq 0 3).
Proof.
  apply (generate_mock_samples_shape no_noise (Qc_of_Z 10) 3).
  intros i _. qc_compare.
Defined.

Lemma verify_dataset_ignores_tail_witness :
  verify_dataset toy_digest toy_dump dataset_with_tail
    = Ok (true,
          [Verified
             (String.substring 0 16
                (toy_digest (tobytes [toy_normal 0 0]
                             ++ tobytes [toy_normal 0 0])))]).
Proof.
  apply (verify_dataset_ignores_tail toy_digest toy_dump dataset_with_tail
           1 1 1 42 [toy_normal 0 0] [toy_normal 0 0] [Byte.x00] []);
    try lia; try reflexivity; simpl; lia.
Defined.

Lemma generate_dataset_files_witness :
  exists metadata dir' e,
    generate_dataset toy_digest toy_normal 2 1 3 42 ∅ = (Ok metadata, dir') /\
    dir' !! "embeddings.f64" = Some (BinFile e) /\
    dir' !! "results.csv" = None.
Proof.
  destruct (generate_dataset_files toy_digest toy_normal 2 1 3 42 ∅)
    as (Hframe & _ & Hsizes).
  destruct Hsizes as (metadata & dir' & size_bytes & e & a & Hg & He & _);
    [lia..|].
  exists metadata, dir', e. split; [exact Hg|]. split; [exact He|].
  replace dir' with (generate_dataset toy_digest toy_normal 2 1 3 42 ∅).2
    by now rewrite Hg.
  rewrite Hframe; [reflexivity|].
  intros Hin. repeat (apply list.elem_of_cons in Hin as [Hin|Hin];
                      [discriminate|]).
  now apply list.elem_of_nil in Hin.
Defined.

Lemma main_refuses_witness :
  main toy_digest toy_normal toy_dump generate_args dataset_with_tail
    = (Exit 1, dataset_with_tail).
Proof.
  apply main_refuses; [reflexivity|].
  left. split; [eexists; reflexivity|reflexivity].
Defined.

Lemma main_generates_witness :
  exists dir',
    main toy_digest toy_normal toy_dump generate_args ∅ = (Exit 0, dir').
Proof.
  destruct (main_generates toy_digest toy_normal toy_dump generate_args ∅)
    as [Hgenerates _]; [reflexivity|now left|reflexivity..|].
  destruct Hgenerates as (metadata & dir' & printed & _ & _ & Hmain);
    [simpl; lia|].
  exists dir'. exact Hmain.
Defined.

Lemma main_verify_only_witness :
  main toy_digest toy_normal toy_dump verify_args dataset_with_tail
    = (Exit 0, dataset_with_tail) /\
  (main toy_digest toy_normal toy_dump verify_args truncated_dataset).1
    = Traceback ValueError.
Proof.
  split.
  - destruct (main_verify_only toy_digest toy_normal toy_dump verify_args
                dataset_with_tail) as (Hdir & Hexit & _); [reflexivity|].
    rewrite (surjective_pairing (main _ _ _ _ _)), Hdir.
    rewrite (Hexit true
               [Verified
                  (String.substring 0 16
                     (toy_digest (tobytes [toy_normal 0 0]
                                  ++ tobytes [toy_normal 0 0])))]);
      [reflexivity|].
    vm_compute. reflexivity.
  - destruct (main_verify_only toy_digest toy_normal toy_dump verify_args
                truncated_dataset) as (_ & _ & Hshape); [reflexivity|].
    apply (Hshape 2 1 2 42 "0f3a" (replicate 24 Byte.x00)
             (replicate 16 Byte.x00)); try lia; try reflexivity.
    vm_compute. discriminate.
Defined.

Lemma generate_then_verify_lock_witness :
  exists metadata dir',
    generate_dataset hex_digest toy_normal 2 1 3 42 ∅ = (Ok metadata, dir') /\
    verify_dataset_lock no_text toy_dump metadata dir' = Ok (true, []).
Proof.
  apply (generate_then_verify_lock hex_digest toy_normal no_text toy_dump);
    try lia.
  intros bs. reflexivity.
Defined.

Lemma verify_dataset_lock_compares_witness :
  verify_dataset_lock no_text toy_dump (JObj [("hash_sha256", JStr "0f3a")])
    {[ "dataset.lock" := TextFile (String "0" (String "f" (String "3"
         (String "a" (String (ascii_of_nat 10) EmptyString))))) ]}
    = Ok (true, []).
Proof.
  destruct (verify_dataset_lock_compares no_text toy_dump
              (JObj [("hash_sha256", JStr "0f3a")])
              {[ "dataset.lock" := TextFile (String "0" (String "f" (String "3"
                   (String "a" (String (ascii_of_nat 10) EmptyString))))) ]}
              "" "0f3a") as (_ & _ & Htrailing & _).
  apply (Htrailing (String (ascii_of_nat 10) EmptyString)); reflexivity.
Defined.

Lemma run_benchmark_impl_samples_witness :
  exists samples,
    run_benchmark_impl (fun v => v) seeded_no_noise "python" "numpy" JNull
      "data" 5 3 50 None false = Ok samples /\
    length samples = 3%nat.
Proof.
  destruct (run_benchmark_impl_samples (fun v => v) seeded_no_noise
              "python" "numpy" JNull "data" 5 3 50 None false)
    as [Hruns _].
  destruct Hruns as (samples & Hs & Hlen & _); [lia|].
  exists samples. split; [exact Hs|exact Hlen].
Defined.

Lemma run_benchmark_impl_offset_witness :
  exists naive other m,
    run_benchmark_impl (fun v => v) seeded_no_noise "python" "naive" JNull
      "data" 5 3 50 None false = Ok naive /\
    run_benchmark_impl (fun v => v) seeded_no_noise "python" "numpy" JNull
      "data" 5 3 50 None false = Ok other /\
    statistics.median other = Ok m /\
    statistics.median naive = Ok (Qc_of_Z 308 + m)%Qc.
Proof.
  destruct (run_benchmark_impl (fun v => v) seeded_no_noise "python" "naive"
              JNull "data" 5 3 50 None false)
    as [naive|e] eqn:Hnaive; [|vm_compute in Hnaive; discriminate].
  destruct (run_benchmark_impl (fun v => v) seeded_no_noise "python" "numpy"
              JNull "data" 5 3 50 None false)
    as [other|e] eqn:Hother; [|vm_compute in Hother; discriminate].
  destruct (run_benchmark_impl_offset (fun v => v) seeded_no_noise
              "python" "python" "numpy" JNull JNull "data" "data" 5 5 3 50 50
              None None false false naive other)
    as (_ & m & Hm & Hshift); [discriminate|exact Hnaive|exact Hother|].
  exists naive, other, m.
  split; [reflexivity|]. split; [reflexivity|]. split; [exact Hm|exact Hshift].
Defined.

Lemma parse_impls_accepts_witness :
  is_Some (parse_impls "python-naive, python-numpy").
Proof.
  apply (parse_impls_accepts "python-naive, python-numpy").
  repeat constructor.
Defined.

Lemma save_results_keys_witness :
  save_results [("python/naive", [Qc_of_Z 1520]); ("numpy", [Qc_of_Z 1212])]
    JNull example_config
  = (Raise ValueError,
     {| csv_file :=
          [header;
           [CStr "python"; CStr "naive"; CInt 0; CFloat (Qc_of_Z 1520)]];
        summary_file := None |}).
Proof.
  destruct (save_results_keys JNull example_config) as [_ Hbad].
  apply (Hbad [("python/naive", [Qc_of_Z 1520])] "numpy" [Qc_of_Z 1212] []).
  - reflexivity.
  - discriminate.
Defined.

Lemma save_results_summary_witness :
  exists csv document,
    save_results [("python/naive", [Qc_of_Z 1520])] JNull example_config
      = (Ok (), {| csv_file := csv; summary_file := Some (JObj document) |}) /\
    assoc "optimized_samples" document
      = Some (JArr [JFloat (Qc_of_Z 1520)]).
Proof.
  destruct (save_results_summary JNull example_config) as [_ Hsummary].
  destruct (Hsummary [("python/naive", [Qc_of_Z 1520])] "python/naive"
              [Qc_of_Z 1520] [])
    as (document & Hsaved & _ & Hopt & _).
  - reflexivity.
  - repeat constructor; eexists; reflexivity.
  - reflexivity.
  - repeat constructor. intros Hin. now apply list.elem_of_nil in Hin.
  - eexists _, document. split; [exact Hsaved|exact Hopt].
Defined.

Lemma runner_summary_builds_report_witness :
  exists results csv document r,
    run_impls (fun v => v) seeded_no_noise
      [("python", "naive"); ("python", "numpy")] JNull "data" 5 3 50 None false
      = Ok results /\
    save_results results JNull example_config
      = (Ok (), {| csv_file := csv; summary_file := Some (JObj document) |}) /\
    build_report (fun v => v) example_host (list_to_map document) JNull ∅
      "run_all.py" "python" "naive" "python" "numpy" = Ok r /\
    delta_ms (report_summary r) = Qc_of_Z 308.
Proof.
  destruct (runner_summary_builds_report (fun v => v) seeded_no_noise
              example_host JNull ∅ example_config JNull "data" "run_all.py"
              "python" "python" "numpy" 5 3 50 None false)
    as (results & csv & document & r & Hrun & Hsave & Hbuild & _ & _ & Hdelta & _).
  - lia.
  - discriminate.
  - reflexivity.
  - reflexivity.
  - reflexivity.
  - repeat constructor; eexists; reflexivity.
  - exists results, csv, document, r.
    split; [exact Hrun|]. split; [exact Hsave|].
    split; [exact Hbuild|exact Hdelta].
Defined.

Lemma in_time_order_ticks (n : nat) : in_time_order (ticks n).
Proof.
  assert (Hlookup : forall i a, ticks n !! i = Some a ->
                      Profiler.elapsed_ms a = Qc_of_Z (Z.of_nat i)).
  { intros i a Ha. unfold ticks in Ha.
    change (@map nat Profiler.sample) with (@fmap list _ nat Profiler.sample) in Ha.
    rewrite list_lookup_fmap in Ha.
    destruct (seq 0 n !! i) as [k|] eqn:Hk; [|discriminate].
    apply lookup_seq in Hk as [-> _]. injection Ha as <-. reflexivity. }
  intros i j a b Hij Ha Hb.
  rewrite (Hlookup i a Ha), (Hlookup j b Hb).
  apply (proj1 (Z2Qc_inj_le _ _)). lia.
Qed.

Lemma get_profile_curve_length_witness :
  exists c,
    Profiler.get_profile_curve (ticks 5) 2 = inr c /\
    length (Profiler.timestamps c) = 2%nat.
Proof.
  destruct (get_profile_curve_length (ticks 5) 2) as [Hlen _].
  destruct Hlen as (c & Hc & Htimestamps & _); [lia|].
  exists c. split; [exact Hc|exact Htimestamps].
Defined.

Lemma get_profile_curve_picks_witness :
  exists c,
    Profiler.get_profile_curve (ticks 5) 2 = inr c /\
    Profiler.cpu c !! 1%nat = Some (Qc_of_Z 2).
Proof.
  destruct (get_profile_curve_picks (ticks 5) 2) as [Hpicks _].
  - lia.
  - simpl. lia.
  - destruct Hpicks as (c & Hc & Hi). exists c. split; [exact Hc|].
    destruct (Hi 1%nat) as [Hcpu _]; [lia|]. rewrite Hcpu. reflexivity.
Defined.

Lemma get_profile_curve_timestamps_witness :
  exists c,
    Profiler.get_profile_curve (ticks 5) 2 = inr c /\
    list.head (Profiler.timestamps c) = Some (Q2Qc 0) /\
    Forall (fun t => Q2Qc 0 <= t <= Qc_of_Z 100)%Qc (Profiler.timestamps c).
Proof.
  destruct (Profiler.get_profile_curve (ticks 5) 2) as [e|c] eqn:Hc;
    [vm_compute in Hc; discriminate|].
  exists c. split; [reflexivity|].
  destruct (get_profile_curve_timestamps (ticks 5) 2 c) as (Hhead & Hall & _).
  - lia.
  - apply in_time_order_ticks.
  - exact Hc.
  - split; [apply Hhead; discriminate|exact Hall].
Defined.

Lemma capped_root_accurate : accurate_sqrt capped_root.
Proof.
  intros v Hv. unfold capped_root, builtins.min.
  case_bool_decide as Hlt.
  - split; [qc_compare|]. qc_lra.
  - apply Qcnot_lt_le in Hlt. split; [exact Hv|].
    pose proof (Qcmult_le_mono_nonneg_l _ _ v Hv Hlt) as Hvv.
    rewrite Qcmult_1_r in Hvv. revert Hvv. generalize (v * v)%Qc.
    intros p Hp. qc_lra.
Qed.

Lemma unit_noise_bounded : bounded_deviates unit_noise.
Proof.
  intros i. unfold unit_noise. destruct (Nat.even i); split; qc_compare.
Qed.


Lemma example_entries_profiled : Forall profiled example_entries.
Proof.
  repeat constructor; eexists _, _; split; reflexivity.
Qed.

